(** * bolt-quotation: document lifecycle and pricing engine

    A shallow embedding of the quotation / invoice / order engine of the
    bolt-quotation front end (React hooks and page handlers written in
    TypeScript), together with the properties of its tax computation, bulk
    edit, document numbering, promotion cascade and payment ledger, and of
    the working part list, the persisted draft, the saving and editing of
    quotations, the deletion of invoices and the migration of stored
    invoices.

    Modelling conventions.
    - A JavaScript [number] that holds a price, a volume or a rate is an exact
      rational ([Q]); IEEE-754 rounding, NaN and the infinities are outside the
      model.  A number that holds a counter, a day count or a time stamp is an
      integer ([Z]); the result of [parseInt] is [option Z], [None] being NaN.
    - A JavaScript string is a [string] of 8-bit characters; [toLowerCase]
      therefore folds the ASCII letters only.
    - A [Record<string, T>] used as a dictionary is a [gmap string T] holding
      its own properties; a read [obj[key]] goes through [Js.get], which also
      answers for the names every object inherits from [Object.prototype].
    - A React state cell is passed explicitly: a handler takes the state its
      closure captured and yields the state after its [setState] calls.  Each
      collection (quotations, invoices, orders) has one cell: the hook
      instances the pages mount are identified with the persisted collection
      they load and write back, and handlers run one after the other, each on
      the state the previous one left.  The values the environment supplies
      ([Date.now()], [Math.random()], [new Date()]) are extra arguments of the
      handler; the clock reads of one handler are taken at one instant.
    - A handler that can raise yields a [Completion]: [Normal v], [Throw e],
      or [IllTyped] when it has produced a value outside its declared
      TypeScript type, past which the model does not follow it.
    - A [Date] moved by [setDate(getDate() + n)] is read through
      [DateNow.plusDays], supplied by the environment with its time zone. *)

From Stdlib Require Import QArith ZArith NArith String Ascii List Bool Lia Lqa.
From stdpp Require Import gmap strings list fin_maps.

Local Open Scope string_scope.

(* ===================================================================== *)
(** ** JavaScript primitives used by the engine                          *)
(* ===================================================================== *)

Module Js.

(** Errors a handler of the engine can raise. *)
Inductive Error : Type :=
  | TypeError
  | RangeError
  | ErrorMsg (msg : string).

(** The outcome of running a handler.  [Normal v]: it completes with [v].
    [Throw e]: it raises [e].  [IllTyped]: it has produced a value that does not
    inhabit its declared TypeScript type ([undefined] or NaN where a number
    is declared, a member of [Object.prototype] where a record is declared);
    the model, whose types are the declared ones, does not follow the program
    past that point and says nothing of what comes after, be it a completion
    with such a value or an exception. *)
Inductive Completion (A : Type) : Type :=
  | Normal (a : A)
  | Throw (e : Error)
  | IllTyped.
Arguments Normal {A} a.
Arguments Throw {A} e.
Arguments IllTyped {A}.

Definition bind {A B : Type} (c : Completion A) (k : A -> Completion B)
  : Completion B :=
  match c with
  | Normal a => k a
  | Throw e => Throw e
  | IllTyped => IllTyped
  end.

(** [Array.prototype.map] with a callback that can raise: the first
    exception aborts the whole traversal. *)
Fixpoint mapM {A B : Type} (f : A -> Completion B) (l : list A)
  : Completion (list B) :=
  match l with
  | [] => Normal []
  | x :: r => bind (f x) (fun y => bind (mapM f r) (fun ys => Normal (y :: ys)))
  end.

(** The names every object inherits from [Object.prototype]. *)
Definition prototype_names : list string :=
  ["constructor"; "hasOwnProperty"; "isPrototypeOf"; "propertyIsEnumerable";
   "toLocaleString"; "toString"; "valueOf"; "__proto__";
   "__defineGetter__"; "__defineSetter__"; "__lookupGetter__";
   "__lookupSetter__"].

Definition inherited (key : string) : bool :=
  existsb (String.eqb key) prototype_names.

(** What [obj[key]] reads on an object used as a dictionary: the record
    stored under [key]; or, when there is none and [key] is one of the
    inherited names, a member of [Object.prototype] (a function, or the
    prototype itself: a truthy value that has none of the record's fields);
    or [undefined]. *)
Inductive Property (A : Type) : Type :=
  | Own (a : A)
  | Inherited
  | Undefined.
Arguments Own {A} a.
Arguments Inherited {A}.
Arguments Undefined {A}.

Definition get {A : Type} (obj : gmap string A) (key : string) : Property A :=
  match obj !! key with
  | Some a => Own a
  | None => if inherited key then Inherited else Undefined
  end.

(** Truthiness of an optional string: [undefined] and [''] are falsy. *)
Definition truthy (o : option string) : bool :=
  match o with
  | Some s => negb (String.eqb s "")
  | None => false
  end.

(** [a || b] on optional strings. *)
Definition or_else (o : option string) (d : string) : string :=
  if truthy o then default d o else d.

(** [String.prototype.toLowerCase], ASCII letters. *)
Definition lower_ascii (c : ascii) : ascii :=
  let n := N_of_ascii c in
  if ((65 <=? n) && (n <=? 90))%N then ascii_of_N (n + 32) else c.

Fixpoint toLowerCase (s : string) : string :=
  match s with
  | EmptyString => EmptyString
  | String c r => String (lower_ascii c) (toLowerCase r)
  end.

(** [s.startsWith(p)]. *)
Definition startsWith (s p : string) : bool := String.prefix p s.

Fixpoint drop_chars (n : nat) (s : string) : string :=
  match n, s with
  | O, _ => s
  | S _, EmptyString => EmptyString
  | S k, String _ r => drop_chars k r
  end.

(** [s.replace(pat, rep)] with a string pattern: the first occurrence only. *)
Fixpoint replace (pat rep s : string) : string :=
  if String.prefix pat s then rep ++ drop_chars (String.length pat) s
  else match s with
       | EmptyString => EmptyString
       | String c r => String c (replace pat rep r)
       end.

Fixpoint repeat_char (c : ascii) (n : nat) : string :=
  match n with
  | O => EmptyString
  | S k => String c (repeat_char c k)
  end.

(** [s.padStart(n, c)] for a one-character filler. *)
Definition padStart (n : nat) (c : ascii) (s : string) : string :=
  repeat_char c (n - String.length s) ++ s.

(** [s.slice(-n)]: the last [n] characters (the whole string when shorter). *)
Definition slice_last (n : nat) (s : string) : string :=
  drop_chars (String.length s - n) s.

(** Decimal digits of a natural number, most significant first. *)
Definition digit_char (d : N) : ascii := ascii_of_N (48 + d).

Fixpoint digits_go (fuel : nat) (n : N) (acc : string) : string :=
  match fuel with
  | O => acc
  | S f =>
      let acc' := String (digit_char (n mod 10)) acc in
      if (n <? 10)%N then acc' else digits_go f (n / 10) acc'
  end.

Definition string_of_N (n : N) : string :=
  digits_go (S (N.to_nat (N.log2 n))) n EmptyString.

Definition string_of_Z (z : Z) : string :=
  match z with
  | Zneg p => String "-" (string_of_N (Npos p))
  | _ => string_of_N (Z.to_N z)
  end.

(** [String(x)] for an integer-valued number or NaN. *)
Definition String_ (x : option Z) : string :=
  match x with
  | Some z => string_of_Z z
  | None => "NaN"
  end.

(** [x + k] on a number that may be NaN. *)
Definition plus_int (x : option Z) (k : Z) : option Z :=
  match x with
  | Some z => Some (z + k)%Z
  | None => None
  end.

Definition is_ws (c : ascii) : bool :=
  let n := N_of_ascii c in
  ((n =? 32) || ((9 <=? n) && (n <=? 13)))%N.

Fixpoint skip_ws (s : string) : string :=
  match s with
  | EmptyString => EmptyString
  | String c r => if is_ws c then skip_ws r else s
  end.

Definition digit_val (radix : N) (c : ascii) : option N :=
  let n := N_of_ascii c in
  let v :=
    if ((48 <=? n) && (n <=? 57))%N then Some (n - 48)%N
    else if ((97 <=? n) && (n <=? 122))%N then Some (n - 87)%N
    else if ((65 <=? n) && (n <=? 90))%N then Some (n - 55)%N
    else None in
  match v with
  | Some d => if (d <? radix)%N then Some d else None
  | None => None
  end.

(** A decimal digit. *)
Definition is_digit (c : ascii) : bool :=
  match digit_val 10 c with
  | Some _ => true
  | None => false
  end.

(** Value of the longest prefix of [s] made of digits of the radix. *)
Fixpoint parse_digits (radix acc : N) (s : string) : N :=
  match s with
  | EmptyString => acc
  | String c r =>
      match digit_val radix c with
      | Some d => parse_digits radix (acc * radix + d) r
      | None => acc
      end
  end.

Definition parse_number (radix : N) (s : string) : option N :=
  match s with
  | EmptyString => None
  | String c _ =>
      match digit_val radix c with
      | Some _ => Some (parse_digits radix 0 s)
      | None => None
      end
  end.

(** [parseInt(s)] without a radix argument: leading white space, an optional
    sign, an optional [0x] prefix, then the longest run of digits; NaN when
    there is no digit. *)
Definition parseInt (s : string) : option Z :=
  let s1 := skip_ws s in
  let '(neg, s2) :=
    match s1 with
    | String "-" r => (true, r)
    | String "+" r => (false, r)
    | _ => (false, s1)
    end in
  let '(radix, s3) :=
    match s2 with
    | String "0" (String "x" r) => (16%N, r)
    | String "0" (String "X" r) => (16%N, r)
    | _ => (10%N, s2)
    end in
  match parse_number radix s3 with
  | Some n => Some (if neg then (- Z.of_N n)%Z else Z.of_N n)
  | None => None
  end.

(** [Number.MAX_SAFE_INTEGER + 1]: below it the integers are exact. *)
Definition safe_bound : Z := 2 ^ 53.

End Js.

(* ===================================================================== *)
(** ** Data model ([types/index.ts])                                     *)
(* ===================================================================== *)

(** One module per interface, so that the fields keep their source names.
    Time stamps ([createdAt], [dueDate], ...) are ISO strings in the source;
    they are kept as the epoch milliseconds they denote. *)

Module Material.
Record t : Type := mk {
    name : string;
    cost_per_cc : Q;
    properties : list string;
    colors : list string
  }.
End Material.

Module Technology.
Record t : Type := mk {
    name : string;
    description : string;
    materials : gmap string Material.t
  }.
End Technology.

Module TechnologiesData.
Record t : Type := mk {
    technologies : gmap string Technology.t;
    last_updated : Z;
    currency : string
  }.
End TechnologiesData.

Module Address.
Record t : Type := mk {
    street : string;
    city : string;
    state : string;
    pin : string;
    country : string
  }.
End Address.

Inductive CustomerType : Type := Business | Individual.
Inductive CustomerStatus : Type := Active | Inactive.

Module Customer.
Record t : Type := mk {
    company_name : string;
    gstn : option string;
    contact_person : string;
    email : string;
    phone : string;
    billing_address : Address.t;
    shipping_address : Address.t;
    customer_type : CustomerType;
    discount_rate : Q;
    payment_terms : string;
    preferred_technologies : list string;
    total_orders : Z;
    total_spent : Q;
    status : CustomerStatus;
    notes : string
  }.
End Customer.

Module BoundingBox.
Record t : Type := mk { x : Q; y : Q; z : Q }.
End BoundingBox.

(** The browser [File] attached to an uploaded part; only its metadata. *)
Module File.
Record t : Type := mk { name : string; type : string }.
End File.

Module QuotationPart.
Record t : Type := mk {
    id : string;
    serialNumber : Z;
    fileName : string;
    fileType : string;
    volume : Q;
    boundingBox : option BoundingBox.t;
    technology : option string;
    material : option string;
    quantity : Q;
    unitPrice : Q;
    totalPrice : Q;
    gstAmount : Q;
    finalPrice : Q;
    file : option File.t;
    selected : option bool;
    comments : option string
  }.
End QuotationPart.

(** [Partial<QuotationPart>]: every key may be absent ([None]).  For the keys
    that are optional in [QuotationPart] the handlers also pass the key with
    the value [undefined] ([Some None]), which the spread copies. *)
Module PartUpdates.
Record t : Type := mk {
    id : option string;
    serialNumber : option Z;
    fileName : option string;
    fileType : option string;
    volume : option Q;
    boundingBox : option (option BoundingBox.t);
    technology : option (option string);
    material : option (option string);
    quantity : option Q;
    unitPrice : option Q;
    totalPrice : option Q;
    gstAmount : option Q;
    finalPrice : option Q;
    file : option (option File.t);
    selected : option (option bool);
    comments : option (option string)
  }.

End PartUpdates.

(** [Omit<QuotationPart, 'file' | 'selected'>]: a part of a saved document. *)
Module SavedPart.
Record t : Type := mk {
    id : string;
    serialNumber : Z;
    fileName : string;
    fileType : string;
    volume : Q;
    boundingBox : option BoundingBox.t;
    technology : option string;
    material : option string;
    quantity : Q;
    unitPrice : Q;
    totalPrice : Q;
    gstAmount : Q;
    finalPrice : Q;
    comments : option string
  }.
End SavedPart.

Module ServiceCharge.
Record t : Type := mk {
    id : string;
    description : string;
    amount : Q
  }.
End ServiceCharge.

Inductive GstType : Type := INTRASTATE | INTERSTATE.
Inductive ShippingAddressType : Type := billing | shipping.
Inductive QuotationStatus : Type :=
  QDraft | QSent | QApproved | QRejected | QExpired.
Inductive InvoiceStatus : Type := Draft | Sent | Paid | Overdue | Cancelled.
Inductive OrderStatus : Type := New | Produced | Dispatched | OCancelled.
Inductive PaymentMethod : Type :=
  Cash | BankTransfer | Cheque | UPI | Card | Other.

Module SavedQuotation.
Record t : Type := mk {
    id : string;
    quotationNumber : string;
    customerId : string;
    customerName : string;
    parts : list SavedPart.t;
    totalBasePrice : Q;
    discount : Q;
    totalGST : Q;
    finalPrice : Q;
    status : QuotationStatus;
    createdAt : Z;
    updatedAt : Z;
    notes : string;
    validUntil : Z;
    gstType : GstType;
    paymentTerms : option string;
    leadTime : option string;
    shippingAddressType : option ShippingAddressType;
    serviceCharges : list ServiceCharge.t;
    totalServiceCharges : Q
  }.
End SavedQuotation.

Module SavedQuotationsData.
Record t : Type := mk {
    quotations : gmap string SavedQuotation.t;
    last_updated : Z;
    next_quotation_number : string
  }.
End SavedQuotationsData.

Module Payment.
Record t : Type := mk {
    id : string;
    amount : Q;
    paymentDate : string;
    paymentMethod : PaymentMethod;
    referenceNumber : option string;
    notes : option string;
    createdAt : Z
  }.
End Payment.

(** [Omit<Payment, 'id' | 'createdAt'>]: what the payment form submits. *)
Module PaymentInput.
Record t : Type := mk {
    amount : Q;
    paymentDate : string;
    paymentMethod : PaymentMethod;
    referenceNumber : option string;
    notes : option string
  }.
End PaymentInput.

Module SavedInvoice.
Record t : Type := mk {
    id : string;
    invoiceNumber : string;
    quotationId : string;
    quotationNumber : string;
    customerId : string;
    customerName : string;
    parts : list SavedPart.t;
    totalBasePrice : Q;
    discount : Q;
    totalGST : Q;
    finalPrice : Q;
    status : InvoiceStatus;
    createdAt : Z;
    updatedAt : Z;
    dueDate : Z;
    notes : string;
    gstType : GstType;
    shippingAddressType : option ShippingAddressType;
    payments : list Payment.t;
    totalPaid : Q;
    remainingAmount : Q;
    serviceCharges : list ServiceCharge.t;
    totalServiceCharges : Q
  }.
End SavedInvoice.

Module SavedInvoicesData.
Record t : Type := mk {
    invoices : gmap string SavedInvoice.t;
    last_updated : Z;
    next_invoice_number : string
  }.
End SavedInvoicesData.

Module OrderPart.
Record t : Type := mk {
    id : string;
    serialNumber : Z;
    fileName : string;
    fileType : string;
    volume : Q;
    boundingBox : option BoundingBox.t;
    technology : option string;
    material : option string;
    quantity : Q;
    comments : option string
  }.
End OrderPart.

Module Order.
Record t : Type := mk {
    id : string;
    orderNumber : string;
    invoiceId : string;
    invoiceNumber : string;
    customerId : string;
    parts : list OrderPart.t;
    status : OrderStatus;
    createdAt : Z;
    updatedAt : Z;
    serviceCharges : list ServiceCharge.t;
    totalServiceCharges : Q
  }.
End Order.

Module OrdersData.
Record t : Type := mk {
    orders : gmap string Order.t;
    last_updated : Z;
    next_order_number : string
  }.
End OrdersData.

Module CompanyInfo.
Record t : Type := mk {
    name : string;
    gstn : string;
    address_city : string;
    address_state : string
  }.
End CompanyInfo.

(** What [new Date()] gives a handler: the instant, its local calendar
    fields ([getTime], [getFullYear], [getMonth], [getDate]) and, for every
    [n], the instant it denotes after [setDate(getDate() + n)].  That call
    moves the local calendar day by [n] days at the same local time of day,
    so the result depends on the time zone of the environment (a calendar day
    is not always 86 400 000 ms long); it is [None] when the result is an
    Invalid Date, which is what an instant beyond +/-8.64e15 ms becomes, and
    on which [toISOString] raises a RangeError. *)
Module DateNow.
Record t : Type := mk {
    getTime : Z;
    getFullYear : Z;
    getMonth : Z;
    getDate : Z;
    plusDays : Z -> option Z
  }.

(** The largest instant a [Date] holds. *)
Definition maxTime : Z := 8640000000000000.

(** [plusDays] in an environment whose zone is UTC. *)
Definition utcPlusDays (time : Z) (n : Z) : option Z :=
  let moved := (time + n * 86400000)%Z in
  if ((- maxTime <=? moved) && (moved <=? maxTime))%Z then Some moved else None.

(** A [Date] read in an environment whose zone is UTC. *)
Definition utc (time year month date : Z) : t :=
  mk time year month date (utcPlusDays time).
End DateNow.

(* ===================================================================== *)
(** ** TaxEngine ([utils/gstCalculator.ts])                              *)
(* ===================================================================== *)

Module GstCalculator.

Definition COMPANY_INFO : CompanyInfo.t :=
  CompanyInfo.mk "Dexterous Manufacturing Labs Pvt Ltd" "29AAGCD4100R2ZC"
                 "Bangalore" "Karnataka".

Record GSTCalculation : Type := mkGST {
    cgst : Q;
    sgst : Q;
    igst : Q;
    total : Q;
    type : GstType
  }.

Definition GST_RATE : Q := 18 # 100.

Definition calculateGST (baseAmount : Q) (customer : Customer.t)
  : GSTCalculation :=
  let isIntrastate :=
    String.eqb
      (Js.toLowerCase (Address.state (Customer.shipping_address customer)))
      "karnataka" in
  if isIntrastate then
    let cgst := (baseAmount * (9 # 100))%Q in
    let sgst := (baseAmount * (9 # 100))%Q in
    mkGST cgst sgst 0%Q (cgst + sgst)%Q INTRASTATE
  else
    let igst := (baseAmount * GST_RATE)%Q in
    mkGST 0%Q 0%Q igst igst INTERSTATE.

(** Case-insensitive equality of two jurisdiction names. *)
Definition same_jurisdiction (a b : string) : Prop :=
  Js.toLowerCase a = Js.toLowerCase b.

End GstCalculator.

(* ===================================================================== *)
(** ** LineItemPricer and BulkEditCoordinator                            *)
(**    ([QuotationPage.tsx], [PartCard.tsx], [BulkActions.tsx])          *)
(* ===================================================================== *)

Module QuotationPage.
Import GstCalculator.

(** [updates.k] read as a possibly-undefined value. *)
Definition flat {A : Type} (o : option (option A)) : option A :=
  match o with
  | Some v => v
  | None => None
  end.

(** [{ ...part, ...updates }]. *)
Definition spread (part : QuotationPart.t) (updates : PartUpdates.t)
  : QuotationPart.t :=
  QuotationPart.mk
    (default (QuotationPart.id part) (PartUpdates.id updates))
    (default (QuotationPart.serialNumber part) (PartUpdates.serialNumber updates))
    (default (QuotationPart.fileName part) (PartUpdates.fileName updates))
    (default (QuotationPart.fileType part) (PartUpdates.fileType updates))
    (default (QuotationPart.volume part) (PartUpdates.volume updates))
    (default (QuotationPart.boundingBox part) (PartUpdates.boundingBox updates))
    (default (QuotationPart.technology part) (PartUpdates.technology updates))
    (default (QuotationPart.material part) (PartUpdates.material updates))
    (default (QuotationPart.quantity part) (PartUpdates.quantity updates))
    (default (QuotationPart.unitPrice part) (PartUpdates.unitPrice updates))
    (default (QuotationPart.totalPrice part) (PartUpdates.totalPrice updates))
    (default (QuotationPart.gstAmount part) (PartUpdates.gstAmount updates))
    (default (QuotationPart.finalPrice part) (PartUpdates.finalPrice updates))
    (default (QuotationPart.file part) (PartUpdates.file updates))
    (default (QuotationPart.selected part) (PartUpdates.selected updates))
    (default (QuotationPart.comments part) (PartUpdates.comments updates)).

(** Assignment of the four pricing fields of a part. *)
Definition setPricing (p : QuotationPart.t)
           (unitPrice totalPrice gstAmount finalPrice : Q) : QuotationPart.t :=
  QuotationPart.mk
    (QuotationPart.id p) (QuotationPart.serialNumber p)
    (QuotationPart.fileName p) (QuotationPart.fileType p)
    (QuotationPart.volume p) (QuotationPart.boundingBox p)
    (QuotationPart.technology p) (QuotationPart.material p)
    (QuotationPart.quantity p)
    unitPrice totalPrice gstAmount finalPrice
    (QuotationPart.file p) (QuotationPart.selected p)
    (QuotationPart.comments p).

(** [technologiesData.technologies[tech].materials[mat]] followed by the
    read of [.cost_per_cc].  A technology the catalog lacks reads as
    [undefined], or as a member of [Object.prototype] whose [.materials] is
    [undefined]: indexing it raises.  A material the technology lacks reads
    as [undefined], whose [.cost_per_cc] raises, or as a member of
    [Object.prototype], whose [.cost_per_cc] is [undefined]: nothing is
    raised and the prices computed from it are NaN. *)
Definition lookupMaterial (technologiesData : TechnologiesData.t)
           (tech mat : string) : Js.Completion Material.t :=
  match Js.get (TechnologiesData.technologies technologiesData) tech with
  | Js.Own t =>
      match Js.get (Technology.materials t) mat with
      | Js.Own m => Js.Normal m
      | Js.Inherited => Js.IllTyped
      | Js.Undefined => Js.Throw Js.TypeError
      end
  | Js.Inherited => Js.Throw Js.TypeError
  | Js.Undefined => Js.Throw Js.TypeError
  end.

(** The pricing block recomputed from a volume, a material and a quantity. *)
Definition reprice (updatedPart : QuotationPart.t) (material : Material.t)
           (quantity : Q) (customer : Customer.t) : QuotationPart.t :=
  let unitPrice := (QuotationPart.volume updatedPart * Material.cost_per_cc material)%Q in
  let totalPrice := (unitPrice * quantity)%Q in
  let gstCalculation := calculateGST totalPrice customer in
  let finalPrice := (totalPrice + total gstCalculation)%Q in
  setPricing updatedPart unitPrice totalPrice (total gstCalculation) finalPrice.

Definition includes (l : list string) (x : string) : bool :=
  existsb (String.eqb x) l.

(** Truthiness of a number: zero is falsy. *)
Definition truthyQ (o : option Q) : bool :=
  match o with
  | Some q => negb (Qeq_bool q 0)
  | None => false
  end.

(** The statements shared by the recomputing branches: the catalog read, then
    the pricing block.  The guards in front of them make the technology, the
    material and the customer defined; reading the catalog under [undefined],
    or the shipping address of [null], raises. *)
Definition recompute (technologiesData : TechnologiesData.t)
           (customer : option Customer.t) (updatedPart : QuotationPart.t)
           (technology material : option string) (quantity : Q)
  : Js.Completion QuotationPart.t :=
  match technology, material with
  | Some tech, Some mat =>
      Js.bind (lookupMaterial technologiesData tech mat) (fun material =>
        match customer with
        | Some cust => Js.Normal (reprice updatedPart material quantity cust)
        | None => Js.Throw Js.TypeError
        end)
  | _, _ => Js.Throw Js.TypeError
  end.

(** Body of the [map] callback of [handleUpdatePart] for the part whose id
    matches. *)
Definition updateOnePart (technologiesData : TechnologiesData.t)
           (selectedCustomer : option Customer.t)
           (updates : PartUpdates.t) (part : QuotationPart.t)
  : Js.Completion QuotationPart.t :=
  let updatedPart := spread part updates in
  if bool_decide (is_Some selectedCustomer)
     && Js.truthy (QuotationPart.material updatedPart)
     && Js.truthy (QuotationPart.technology updatedPart)
     && (Js.truthy (flat (PartUpdates.material updates))
         || truthyQ (PartUpdates.quantity updates))
  then
    recompute technologiesData selectedCustomer updatedPart
      (QuotationPart.technology updatedPart) (QuotationPart.material updatedPart)
      (QuotationPart.quantity updatedPart)
  else Js.Normal updatedPart.

Definition handleUpdatePart (technologiesData : TechnologiesData.t)
           (selectedCustomer : option Customer.t)
           (parts : list QuotationPart.t)
           (partId : string) (updates : PartUpdates.t)
  : Js.Completion (list QuotationPart.t) :=
  Js.mapM (fun part =>
             if String.eqb (QuotationPart.id part) partId
             then updateOnePart technologiesData selectedCustomer updates part
             else Js.Normal part) parts.

(** The three guards of the [if / else if / else if] chain of
    [handleUpdateParts], in source order. *)
Definition quantityRule (selectedCustomer : option Customer.t)
           (updates : PartUpdates.t) (updatedPart : QuotationPart.t) : bool :=
  bool_decide (is_Some (PartUpdates.quantity updates))
  && bool_decide (is_Some selectedCustomer)
  && Js.truthy (QuotationPart.material updatedPart)
  && Js.truthy (QuotationPart.technology updatedPart).

Definition materialRule (selectedCustomer : option Customer.t)
           (updates : PartUpdates.t) (updatedPart : QuotationPart.t) : bool :=
  bool_decide (is_Some selectedCustomer)
  && Js.truthy (flat (PartUpdates.material updates))
  && Js.truthy (QuotationPart.technology updatedPart).

Definition technologyRule (updates : PartUpdates.t) : bool :=
  Js.truthy (flat (PartUpdates.technology updates))
  && negb (Js.truthy (flat (PartUpdates.material updates))).

(** Body of the [map] callback of [handleUpdateParts] for a part whose id is
    in [partIds]. *)
Definition bulkUpdatePart (technologiesData : TechnologiesData.t)
           (selectedCustomer : option Customer.t)
           (updates : PartUpdates.t) (part : QuotationPart.t)
  : Js.Completion QuotationPart.t :=
  let updatedPart := spread part updates in
  let otherwise :=
    if materialRule selectedCustomer updates updatedPart then
      recompute technologiesData selectedCustomer updatedPart
        (QuotationPart.technology updatedPart)
        (flat (PartUpdates.material updates))
        (QuotationPart.quantity updatedPart)
    else if technologyRule updates then
      Js.Normal (setPricing updatedPart 0 0 0 0)
    else Js.Normal updatedPart in
  match PartUpdates.quantity updates with
  | Some quantity =>
      if quantityRule selectedCustomer updates updatedPart then
        recompute technologiesData selectedCustomer updatedPart
          (QuotationPart.technology updatedPart)
          (QuotationPart.material updatedPart) quantity
      else otherwise
  | None => otherwise
  end.

Definition handleUpdateParts (technologiesData : TechnologiesData.t)
           (selectedCustomer : option Customer.t)
           (parts : list QuotationPart.t)
           (partIds : list string) (updates : PartUpdates.t)
  : Js.Completion (list QuotationPart.t) :=
  Js.mapM (fun part =>
             if includes partIds (QuotationPart.id part)
             then bulkUpdatePart technologiesData selectedCustomer updates part
             else Js.Normal part) parts.

(** The working part list after a handler ran: [updateParts] is reached only
    when the handler did not raise.  There is none in the model when the
    handler left the declared types. *)
Definition partsAfter (parts : list QuotationPart.t)
           (r : Js.Completion (list QuotationPart.t))
  : option (list QuotationPart.t) :=
  match r with
  | Js.Normal parts' => Some parts'
  | Js.Throw _ => Some parts
  | Js.IllTyped => None
  end.

(** No guard of the chain holds for the part: only the spread applies. *)
Definition noRule (selectedCustomer : option Customer.t)
           (updates : PartUpdates.t) (part : QuotationPart.t) : bool :=
  let updatedPart := spread part updates in
  negb (quantityRule selectedCustomer updates updatedPart)
  && negb (materialRule selectedCustomer updates updatedPart)
  && negb (technologyRule updates).


(** [quotationState.parts.filter(part => part.selected)]. *)
Definition selectedParts (parts : list QuotationPart.t) : list QuotationPart.t :=
  List.filter (fun p => default false (QuotationPart.selected p)) parts.

End QuotationPage.

Module PartCard.
Import GstCalculator QuotationPage.

(** Props of a part card as [QuotationPage] renders it: the catalog, the
    selected customer, the working part list (from which [selectedParts] is
    derived) and the card's own part; [onUpdatePart] is [handleUpdatePart]
    and [onBulkUpdate] is [handleUpdateParts]. *)
Section Card.
Variable technologiesData : TechnologiesData.t.
Variable customer : option Customer.t.
Variable parts : list QuotationPart.t.
Variable part : QuotationPart.t.

Definition isPartSelected : bool := default false (QuotationPart.selected part).
Definition hasMultipleSelected : bool :=
  (1 <? List.length (selectedParts parts))%nat.
Definition selectedPartIds : list string :=
  List.map QuotationPart.id (selectedParts parts).

Definition technologyUpdates (techId : string) : PartUpdates.t :=
  PartUpdates.mk None None None None None None
    (Some (Some techId)) (Some None) None
    (Some 0%Q) (Some 0%Q) (Some 0%Q) (Some 0%Q) None None None.

Definition handleTechnologyChange (techId : string)
  : Js.Completion (list QuotationPart.t) :=
  if hasMultipleSelected && isPartSelected then
    handleUpdateParts technologiesData customer parts selectedPartIds
                      (technologyUpdates techId)
  else
    handleUpdatePart technologiesData customer parts (QuotationPart.id part)
                     (technologyUpdates techId).

Definition materialOnly (materialId : string) : PartUpdates.t :=
  PartUpdates.mk None None None None None None None
    (Some (Some materialId)) None None None None None None None None.

Definition handleMaterialChange (materialId : string)
  : Js.Completion (list QuotationPart.t) :=
  match customer with
  | None => Js.Normal parts
  | Some cust =>
      if negb (Js.truthy (QuotationPart.technology part)) then Js.Normal parts
      else if hasMultipleSelected && isPartSelected then
        handleUpdateParts technologiesData customer parts selectedPartIds
                          (materialOnly materialId)
      else
        Js.bind (lookupMaterial technologiesData
                   (default "" (QuotationPart.technology part)) materialId)
          (fun material =>
             let unitPrice := (QuotationPart.volume part * Material.cost_per_cc material)%Q in
             let totalPrice := (unitPrice * QuotationPart.quantity part)%Q in
             let gstCalculation := calculateGST totalPrice cust in
             let finalPrice := (totalPrice + total gstCalculation)%Q in
             handleUpdatePart technologiesData customer parts
               (QuotationPart.id part)
               (PartUpdates.mk None None None None None None None
                  (Some (Some materialId)) None
                  (Some unitPrice) (Some totalPrice)
                  (Some (total gstCalculation)) (Some finalPrice)
                  None None None))
  end.

Definition quantityOnly (quantity : Q) : PartUpdates.t :=
  PartUpdates.mk None None None None None None None None
    (Some quantity) None None None None None None None.

Definition handleQuantityChange (quantity : Q)
  : Js.Completion (list QuotationPart.t) :=
  if hasMultipleSelected && isPartSelected then
    handleUpdateParts technologiesData customer parts selectedPartIds
                      (quantityOnly quantity)
  else
    let totalPrice := (QuotationPart.unitPrice part * quantity)%Q in
    let '(gstAmount, finalPrice) :=
      match customer with
      | Some cust =>
          if Qlt_le_dec 0 totalPrice then
            let gstCalculation := calculateGST totalPrice cust in
            (total gstCalculation, (totalPrice + total gstCalculation)%Q)
          else (0%Q, totalPrice)
      | None => (0%Q, totalPrice)
      end in
    handleUpdatePart technologiesData customer parts (QuotationPart.id part)
      (PartUpdates.mk None None None None None None None None
         (Some quantity) None (Some totalPrice) (Some gstAmount)
         (Some finalPrice) None None None).
End Card.

End PartCard.

Module BulkActions.
Import QuotationPage.

(** [handleApplyBulkChanges]: the update object built from the form state
    ([bulkQuantity] is [''] or a number). *)
Definition bulkUpdates (bulkTechnology bulkMaterial : string)
           (bulkQuantity : option Q) : PartUpdates.t :=
  let hasTech := negb (String.eqb bulkTechnology "") in
  let hasMat := negb (String.eqb bulkMaterial "") in
  let zeroed := hasTech && negb hasMat in
  let price := if zeroed then Some 0%Q else None in
  PartUpdates.mk None None None None None None
    (if hasTech then Some (Some bulkTechnology) else None)
    (if hasTech then (if hasMat then Some (Some bulkMaterial) else Some None)
     else None)
    (match bulkQuantity with
     | Some q => if Qlt_le_dec 0 q then Some q else None
     | None => None
     end)
    price price price price None None None.

Definition handleApplyBulkChanges (technologiesData : TechnologiesData.t)
           (customer : option Customer.t) (parts : list QuotationPart.t)
           (bulkTechnology bulkMaterial : string) (bulkQuantity : option Q)
  : Js.Completion (list QuotationPart.t) :=
  match selectedParts parts with
  | [] => Js.Normal parts
  | _ :: _ =>
      handleUpdateParts technologiesData customer parts
        (List.map QuotationPart.id (selectedParts parts))
        (bulkUpdates bulkTechnology bulkMaterial bulkQuantity)
  end.

End BulkActions.

(* ===================================================================== *)
(** ** DocumentNumberGenerator                                           *)
(* ===================================================================== *)

(** [generateQuotationNumber], [generateInvoiceNumber] and
    [generateOrderNumber] are the same code up to the family prefix, and so
    are the three "generate next number" blocks; both are written once. *)
Module DocumentNumber.

(** [`${prefix}${year}${month}${day}${numericPart}`]. *)
Definition generate (prefix : string) (now : DateNow.t) (serialNumber : string)
  : string :=
  let year := Js.slice_last 2 (Js.String_ (Some (DateNow.getFullYear now))) in
  let month :=
    Js.padStart 2 "0" (Js.String_ (Some (DateNow.getMonth now + 1)%Z)) in
  let day := Js.padStart 2 "0" (Js.String_ (Some (DateNow.getDate now))) in
  let numericPart := Js.padStart 3 "0" (Js.replace prefix "" serialNumber) in
  prefix ++ year ++ month ++ day ++ numericPart.

(** [parseInt(counter.replace(prefix, ''))]. *)
Definition currentNum (prefix counter : string) : option Z :=
  Js.parseInt (Js.replace prefix "" counter).

(** [`${prefix}${String(currentNum + 1).padStart(4, '0')}`]. *)
Definition next (prefix counter : string) : string :=
  prefix ++ Js.padStart 4 "0"
    (Js.String_ (Js.plus_int (currentNum prefix counter) 1)).

(** The serial carried by an issued number: what follows the prefix and the
    six digits of the date. *)
Definition extractSerial (prefix issued : string) : option Z :=
  Js.parseInt (Js.drop_chars (String.length prefix + 6) issued).

Fixpoint all_digits (s : string) : bool :=
  match s with
  | EmptyString => true
  | String c r => Js.is_digit c && all_digits r
  end.

(** A counter as the engine writes it: the prefix, then decimal digits. *)

Definition wf_counter (prefix counter : string) : Prop :=
  exists digits : string,
    counter = prefix ++ digits /\ digits <> "" /\ all_digits digits = true.

(** Calendar fields as [Date] returns them, for a year of two digits or
    more. *)
Definition wf_date (d : DateNow.t) : Prop :=
  (10 <= DateNow.getFullYear d)%Z /\
  (0 <= DateNow.getMonth d <= 11)%Z /\
  (1 <= DateNow.getDate d <= 31)%Z.

(** The counter reads as a number that stays, over [n] more issues, in the
    range where a JavaScript number is an exact integer; within it the
    unbounded integers of the model are the numbers of the program. *)
Definition within_safe_range (prefix counter : string) (n : nat) : Prop :=
  exists v, currentNum prefix counter = Some v /\
            (v + Z.of_nat n < Js.safe_bound)%Z.

(** The serials [v], [v + 1], [v + 2], ... in this order. *)
Fixpoint consecutive (v : Z) (serials : list (option Z)) : Prop :=
  match serials with
  | [] => True
  | s :: r => s = Some v /\ consecutive (v + 1) r
  end.

(** The counter is well formed and reads [v]. *)
Definition reads (prefix counter : string) (v : Z) : Prop :=
  wf_counter prefix counter /\ currentNum prefix counter = Some v.

(** From a counter reading [v], the numbers issued carry [v], [v + 1], ...
    and leave the counter [counter'] reading [v] plus their count. *)
Definition tracks (prefix : string) (v : Z) (counter' : string)
           (numbers : list string) : Prop :=
  consecutive v (List.map (extractSerial prefix) numbers) /\
  reads prefix counter' (v + Z.of_nat (List.length numbers))%Z.

(** What a run of one family shows: the counter read [v] at the start, the
    numbers issued carry the serials [v], [v + 1], ... in issuance order, any
    two of them are strictly increasing in that order, and the counter ends
    at [v] plus the number of issues. *)
Definition issued_in_sequence (prefix counter counter' : string)
           (numbers : list string) : Prop :=
  exists v,
    currentNum prefix counter = Some v /\
    consecutive v (List.map (extractSerial prefix) numbers) /\
    (forall i j a b,
        (i < j)%nat -> numbers !! i = Some a -> numbers !! j = Some b ->
        exists sa sb,
          extractSerial prefix a = Some sa /\
          extractSerial prefix b = Some sb /\ (sa < sb)%Z) /\
    currentNum prefix counter'
    = Some (v + Z.of_nat (List.length numbers))%Z /\
    wf_counter prefix counter'.

End DocumentNumber.

(* ===================================================================== *)
(** ** Stores: [useSavedQuotations], [useOrders], [useSavedInvoices]     *)
(* ===================================================================== *)

Module UseSavedQuotations.

Definition createEmptyQuotationsData (now : DateNow.t) : SavedQuotationsData.t :=
  SavedQuotationsData.mk ∅ (DateNow.getTime now) "QT0001".

Definition generateQuotationNumber (now : DateNow.t) (serialNumber : string)
  : string :=
  DocumentNumber.generate "QT" now serialNumber.

Module SaveQuotationParams.
Record t : Type := mk {
    customerId : string;
    customerName : string;
    parts : list SavedPart.t;
    totalBasePrice : Q;
    discount : Q;
    totalGST : Q;
    finalPrice : Q;
    gstType : GstType;
    notes : string;
    paymentTerms : option string;
    leadTime : option string;
    shippingAddressType : option ShippingAddressType;
    serviceCharges : list ServiceCharge.t;
    totalServiceCharges : Q;
    existingQuotationId : option string
  }.
End SaveQuotationParams.

(** [params.parts.map((part, index) => ({ ...part, id: `${qid}_part_${index + 1}` }))]. *)
Definition renameParts (quotationId : string) (parts : list SavedPart.t)
  : list SavedPart.t :=
  imap (fun index part =>
          SavedPart.mk
            (quotationId ++ "_part_" ++ Js.String_ (Some (Z.of_nat index + 1)%Z))
            (SavedPart.serialNumber part) (SavedPart.fileName part)
            (SavedPart.fileType part) (SavedPart.volume part)
            (SavedPart.boundingBox part) (SavedPart.technology part)
            (SavedPart.material part) (SavedPart.quantity part)
            (SavedPart.unitPrice part) (SavedPart.totalPrice part)
            (SavedPart.gstAmount part) (SavedPart.finalPrice part)
            (SavedPart.comments part)) parts.

(** [saveQuotation].  [freshId] is the id built from [Date.now()] and
    [Math.random()].  The result is the new store and the id returned.
    [validUntil] is [now] moved by 30 calendar days; [toISOString] raises on
    an Invalid Date, before the store is written.  When editing, an id the
    store lacks raises; an id that is an inherited name reads a member of
    [Object.prototype], passes the guard, and a record without id, number
    and creation time is stored. *)
Definition saveQuotation (quotationsData : SavedQuotationsData.t)
           (now : DateNow.t) (freshId : string)
           (params : SaveQuotationParams.t)
  : Js.Completion (SavedQuotationsData.t * string) :=
  let nowMs := DateNow.getTime now in
  if Js.truthy (SaveQuotationParams.existingQuotationId params) then
    let qid := default "" (SaveQuotationParams.existingQuotationId params) in
    match Js.get (SavedQuotationsData.quotations quotationsData) qid with
    | Js.Undefined => Js.Throw (Js.ErrorMsg "Quotation not found for editing")
    | Js.Inherited => Js.IllTyped
    | Js.Own existingQuotation =>
        match DateNow.plusDays now 30 with
        | None => Js.Throw Js.RangeError
        | Some validUntil =>
            let updatedQuotation :=
              SavedQuotation.mk
                (SavedQuotation.id existingQuotation)
                (SavedQuotation.quotationNumber existingQuotation)
                (SaveQuotationParams.customerId params)
                (SaveQuotationParams.customerName params)
                (renameParts qid (SaveQuotationParams.parts params))
                (SaveQuotationParams.totalBasePrice params)
                (SaveQuotationParams.discount params)
                (SaveQuotationParams.totalGST params)
                (SaveQuotationParams.finalPrice params)
                QDraft
                (SavedQuotation.createdAt existingQuotation)
                nowMs
                (SaveQuotationParams.notes params)
                validUntil
                (SaveQuotationParams.gstType params)
                (SaveQuotationParams.paymentTerms params)
                (SaveQuotationParams.leadTime params)
                (SaveQuotationParams.shippingAddressType params)
                (SaveQuotationParams.serviceCharges params)
                (SaveQuotationParams.totalServiceCharges params) in
            Js.Normal
              (SavedQuotationsData.mk
                 (<[qid := updatedQuotation]>
                    (SavedQuotationsData.quotations quotationsData))
                 nowMs
                 (SavedQuotationsData.next_quotation_number quotationsData),
               qid)
        end
    end
  else
    let quotationId := freshId in
    match DateNow.plusDays now 30 with
    | None => Js.Throw Js.RangeError
    | Some validUntil =>
        let quotationNumber :=
          generateQuotationNumber now
            (SavedQuotationsData.next_quotation_number quotationsData) in
        let newQuotation :=
          SavedQuotation.mk
            quotationId quotationNumber
            (SaveQuotationParams.customerId params)
            (SaveQuotationParams.customerName params)
            (renameParts quotationId (SaveQuotationParams.parts params))
            (SaveQuotationParams.totalBasePrice params)
            (SaveQuotationParams.discount params)
            (SaveQuotationParams.totalGST params)
            (SaveQuotationParams.finalPrice params)
            QDraft nowMs nowMs
            (SaveQuotationParams.notes params)
            validUntil
            (SaveQuotationParams.gstType params)
            (SaveQuotationParams.paymentTerms params)
            (SaveQuotationParams.leadTime params)
            (SaveQuotationParams.shippingAddressType params)
            (SaveQuotationParams.serviceCharges params)
            (SaveQuotationParams.totalServiceCharges params) in
        let nextQuotationNumber :=
          DocumentNumber.next "QT"
            (SavedQuotationsData.next_quotation_number quotationsData) in
        Js.Normal
          (SavedQuotationsData.mk
             (<[quotationId := newQuotation]>
                (SavedQuotationsData.quotations quotationsData))
             nowMs nextQuotationNumber,
           quotationId)
    end.

Definition deleteQuotation (now : DateNow.t) (quotationId : string)
           (prev : SavedQuotationsData.t) : SavedQuotationsData.t :=
  SavedQuotationsData.mk
    (delete quotationId (SavedQuotationsData.quotations prev))
    (DateNow.getTime now)
    (SavedQuotationsData.next_quotation_number prev).

End UseSavedQuotations.

Module UseOrders.

Definition createEmptyOrdersData (now : DateNow.t) : OrdersData.t :=
  OrdersData.mk ∅ (DateNow.getTime now) "ORD0001".

Definition generateOrderNumber (ordersData : OrdersData.t) (now : DateNow.t)
  : string :=
  DocumentNumber.generate "ORD" now (OrdersData.next_order_number ordersData).

(** The callback of [invoice.parts.map]: the production fields of a part. *)
Definition toOrderPart (part : SavedPart.t) : OrderPart.t :=
  OrderPart.mk
    (SavedPart.id part) (SavedPart.serialNumber part)
    (SavedPart.fileName part) (SavedPart.fileType part)
    (SavedPart.volume part) (SavedPart.boundingBox part)
    (SavedPart.technology part) (SavedPart.material part)
    (SavedPart.quantity part) (SavedPart.comments part).

(** [x || 0] on a number. *)
Definition orZero (x : Q) : Q := if Qeq_bool x 0 then 0%Q else x.

(** [createOrder]: the new store and the id returned. *)
Definition createOrder (ordersData : OrdersData.t) (now : DateNow.t)
           (orderId : string) (invoice : SavedInvoice.t)
  : OrdersData.t * string :=
  let nowMs := DateNow.getTime now in
  let orderNumber := generateOrderNumber ordersData now in
  let orderParts := List.map toOrderPart (SavedInvoice.parts invoice) in
  let newOrder :=
    Order.mk orderId orderNumber
      (SavedInvoice.id invoice) (SavedInvoice.invoiceNumber invoice)
      (SavedInvoice.customerId invoice)
      orderParts New nowMs nowMs
      (SavedInvoice.serviceCharges invoice)
      (orZero (SavedInvoice.totalServiceCharges invoice)) in
  let nextOrderNumber :=
    DocumentNumber.next "ORD" (OrdersData.next_order_number ordersData) in
  (OrdersData.mk (<[orderId := newOrder]> (OrdersData.orders ordersData))
                 nowMs nextOrderNumber,
   orderId).

Definition deleteOrder (now : DateNow.t) (orderId : string)
           (prev : OrdersData.t) : OrdersData.t :=
  OrdersData.mk (delete orderId (OrdersData.orders prev))
                (DateNow.getTime now)
                (OrdersData.next_order_number prev).

End UseOrders.

Module UseSavedInvoices.

Definition createEmptyInvoicesData (now : DateNow.t) : SavedInvoicesData.t :=
  SavedInvoicesData.mk ∅ (DateNow.getTime now) "INV0001".

Definition generateInvoiceNumber (invoicesData : SavedInvoicesData.t)
           (now : DateNow.t) : string :=
  DocumentNumber.generate "INV" now
    (SavedInvoicesData.next_invoice_number invoicesData).

(** The due date derived from the payment terms: the [Date] of the handler,
    moved by [setDate(getDate() + n)] for the terms that grant days; [None]
    is an Invalid Date. *)
Definition dueDateFor (now : DateNow.t) (paymentTerms : string) : option Z :=
  if String.eqb paymentTerms "100% advance" then Some (DateNow.getTime now)
  else if String.eqb paymentTerms "60% advance and rest upon delivery"
  then Some (DateNow.getTime now)
  else if String.eqb paymentTerms "Payment on delivery"
  then DateNow.plusDays now 7
  else if Js.startsWith paymentTerms "Net " then
    match Js.parseInt (Js.replace "Net " "" paymentTerms) with
    | Some days => DateNow.plusDays now days
    | None => DateNow.plusDays now 30
    end
  else DateNow.plusDays now 30.

(** The three state cells a promotion touches. *)
Record Stores : Type := mkStores {
    quotationsData : SavedQuotationsData.t;
    invoicesData : SavedInvoicesData.t;
    ordersData : OrdersData.t
  }.

(** The invoice record [createInvoiceFromQuotation] builds;
    [dueDate.toISOString()] raises a RangeError on an Invalid Date. *)
Definition newInvoiceOf (invoicesData : SavedInvoicesData.t) (now : DateNow.t)
           (invoiceId : string) (quotation : SavedQuotation.t)
  : Js.Completion SavedInvoice.t :=
  let nowMs := DateNow.getTime now in
  let paymentTerms := Js.or_else (SavedQuotation.paymentTerms quotation) "Net 30" in
  let invoiceNumber := generateInvoiceNumber invoicesData now in
  match dueDateFor now paymentTerms with
  | None => Js.Throw Js.RangeError
  | Some dueDate =>
      Js.Normal
        (SavedInvoice.mk
           invoiceId invoiceNumber
           (SavedQuotation.id quotation) (SavedQuotation.quotationNumber quotation)
           (SavedQuotation.customerId quotation)
           (SavedQuotation.customerName quotation)
           (SavedQuotation.parts quotation)
           (SavedQuotation.totalBasePrice quotation)
           (SavedQuotation.discount quotation)
           (SavedQuotation.totalGST quotation)
           (SavedQuotation.finalPrice quotation)
           Draft nowMs nowMs dueDate
           (SavedQuotation.notes quotation)
           (SavedQuotation.gstType quotation)
           (Some (default shipping (SavedQuotation.shippingAddressType quotation)))
           [] 0%Q (SavedQuotation.finalPrice quotation)
           (SavedQuotation.serviceCharges quotation)
           (UseOrders.orZero (SavedQuotation.totalServiceCharges quotation)))
  end.

(** [createInvoiceFromQuotation]: [invoiceId] and [orderId] are the ids built
    from [Date.now()] and [Math.random()]; [onQuotationDeleted] is the
    callback the page passes.  The invoice record is built, and may raise,
    before the first store is written.  [createOrder] has no raising path, so
    the [try / catch] around it never takes its handler. *)
Definition createInvoiceFromQuotation (st : Stores) (now : DateNow.t)
           (invoiceId orderId : string) (quotation : SavedQuotation.t)
           (onQuotationDeleted :
              string -> SavedQuotationsData.t -> SavedQuotationsData.t)
  : Js.Completion (Stores * string) :=
  Js.bind (newInvoiceOf (invoicesData st) now invoiceId quotation)
    (fun newInvoice =>
       let nextInvoiceNumber :=
         DocumentNumber.next "INV"
           (SavedInvoicesData.next_invoice_number (invoicesData st)) in
       let invoicesData' :=
         SavedInvoicesData.mk
           (<[invoiceId := newInvoice]>
              (SavedInvoicesData.invoices (invoicesData st)))
           (DateNow.getTime now) nextInvoiceNumber in
       let quotationsData' :=
         onQuotationDeleted (SavedQuotation.id quotation) (quotationsData st) in
       let '(ordersData', _) :=
         UseOrders.createOrder (ordersData st) now orderId newInvoice in
       Js.Normal (mkStores quotationsData' invoicesData' ordersData', invoiceId)).

(** [{ ...invoice, payments, totalPaid, remainingAmount, status, updatedAt }]. *)
Definition withLedger (invoice : SavedInvoice.t) (payments : list Payment.t)
           (totalPaid remainingAmount : Q) (status : InvoiceStatus)
           (updatedAt : Z) : SavedInvoice.t :=
  SavedInvoice.mk
    (SavedInvoice.id invoice) (SavedInvoice.invoiceNumber invoice)
    (SavedInvoice.quotationId invoice) (SavedInvoice.quotationNumber invoice)
    (SavedInvoice.customerId invoice) (SavedInvoice.customerName invoice)
    (SavedInvoice.parts invoice) (SavedInvoice.totalBasePrice invoice)
    (SavedInvoice.discount invoice) (SavedInvoice.totalGST invoice)
    (SavedInvoice.finalPrice invoice)
    status
    (SavedInvoice.createdAt invoice) updatedAt (SavedInvoice.dueDate invoice)
    (SavedInvoice.notes invoice) (SavedInvoice.gstType invoice)
    (SavedInvoice.shippingAddressType invoice)
    payments totalPaid remainingAmount
    (SavedInvoice.serviceCharges invoice)
    (SavedInvoice.totalServiceCharges invoice).

(** [payments.reduce((sum, p) => sum + p.amount, 0)]. *)
Definition sumAmounts (payments : list Payment.t) : Q :=
  fold_left (fun sum p => (sum + Payment.amount p)%Q) payments 0%Q.

(** The "auto-update status" block shared by [addPayment] and
    [removePayment]. *)
Definition autoStatus (invoice : SavedInvoice.t) (nowMs : Z)
           (newRemainingAmount : Q) : InvoiceStatus :=
  if Qle_bool newRemainingAmount 0 then Paid
  else match SavedInvoice.status invoice with
       | Paid =>
           let isOverdue := (SavedInvoice.dueDate invoice <? nowMs)%Z in
           if isOverdue then Overdue else Sent
       | s => s
       end.

(** The ledger fields recomputed from a payment list. *)
Definition settle (invoice : SavedInvoice.t) (now : DateNow.t)
           (updatedPayments : list Payment.t) : SavedInvoice.t :=
  let newTotalPaid := sumAmounts updatedPayments in
  let newRemainingAmount := (SavedInvoice.finalPrice invoice - newTotalPaid)%Q in
  let newStatus := autoStatus invoice (DateNow.getTime now) newRemainingAmount in
  withLedger invoice updatedPayments newTotalPaid newRemainingAmount newStatus
             (DateNow.getTime now).

Definition putInvoice (prev : SavedInvoicesData.t) (now : DateNow.t)
           (invoiceId : string) (invoice : SavedInvoice.t) : SavedInvoicesData.t :=
  SavedInvoicesData.mk
    (<[invoiceId := invoice]> (SavedInvoicesData.invoices prev))
    (DateNow.getTime now)
    (SavedInvoicesData.next_invoice_number prev).

(** [addPayment]: [paymentId] is the generated id.  The function returns
    nothing; its effect is the new store.  For an id the store lacks it
    returns at its guard.  For an id that is an inherited name,
    [invoices[invoiceId]] is a member of [Object.prototype]: the guard lets
    it pass and spreading its [payments], which is [undefined], raises. *)
Definition addPayment (invoicesData : SavedInvoicesData.t) (now : DateNow.t)
           (paymentId : string) (invoiceId : string)
           (payment : PaymentInput.t) : Js.Completion SavedInvoicesData.t :=
  match Js.get (SavedInvoicesData.invoices invoicesData) invoiceId with
  | Js.Undefined => Js.Normal invoicesData
  | Js.Inherited => Js.Throw Js.TypeError
  | Js.Own invoice =>
      let newPayment :=
        Payment.mk paymentId
          (PaymentInput.amount payment) (PaymentInput.paymentDate payment)
          (PaymentInput.paymentMethod payment)
          (PaymentInput.referenceNumber payment) (PaymentInput.notes payment)
          (DateNow.getTime now) in
      let updatedPayments := (SavedInvoice.payments invoice ++ [newPayment])%list in
      Js.Normal
        (putInvoice invoicesData now invoiceId (settle invoice now updatedPayments))
  end.

(** [removePayment]; on an inherited name, [invoice.payments.filter]
    raises. *)
Definition removePayment (invoicesData : SavedInvoicesData.t) (now : DateNow.t)
           (invoiceId : string) (paymentId : string)
  : Js.Completion SavedInvoicesData.t :=
  match Js.get (SavedInvoicesData.invoices invoicesData) invoiceId with
  | Js.Undefined => Js.Normal invoicesData
  | Js.Inherited => Js.Throw Js.TypeError
  | Js.Own invoice =>
      let updatedPayments :=
        List.filter (fun p => negb (String.eqb (Payment.id p) paymentId))
                    (SavedInvoice.payments invoice) in
      Js.Normal
        (putInvoice invoicesData now invoiceId (settle invoice now updatedPayments))
  end.

(** [updateInvoiceStatus].  For an id that is not a key of the store the
    source spreads [undefined], or a member of [Object.prototype], and
    stores a record holding only [status] and [updatedAt], which is no
    [SavedInvoice]. *)
Definition updateInvoiceStatus (prev : SavedInvoicesData.t) (now : DateNow.t)
           (invoiceId : string) (status : InvoiceStatus)
  : Js.Completion SavedInvoicesData.t :=
  match Js.get (SavedInvoicesData.invoices prev) invoiceId with
  | Js.Own invoice =>
      Js.Normal
        (putInvoice prev now invoiceId
           (withLedger invoice (SavedInvoice.payments invoice)
              (SavedInvoice.totalPaid invoice)
              (SavedInvoice.remainingAmount invoice)
              status (DateNow.getTime now)))
  | Js.Inherited => Js.IllTyped
  | Js.Undefined => Js.IllTyped
  end.

(** The invoice side of [deleteInvoice]. *)
Definition deleteInvoice (now : DateNow.t) (invoiceId : string)
           (prev : SavedInvoicesData.t) : SavedInvoicesData.t :=
  SavedInvoicesData.mk
    (delete invoiceId (SavedInvoicesData.invoices prev))
    (DateNow.getTime now)
    (SavedInvoicesData.next_invoice_number prev).

End UseSavedInvoices.

(* ===================================================================== *)
(** ** Payment form ([PaymentModal.tsx]) and its caller                  *)
(* ===================================================================== *)

Module PaymentModal.

(** The form state.  [amount] is the text of an [<input type="number">]:
    empty ([None]) or the decimal text of a number, kept as the number
    [parseFloat] reads from it. *)
Module FormData.
Record t : Type := mk {
    amount : option Q;
    paymentDate : string;
    paymentMethod : PaymentMethod;
    referenceNumber : string;
    notes : string
  }.
End FormData.

(** The error, if any, [validateForm] records for the amount. *)
Definition amountError (remainingAmount : Q) (formData : FormData.t) : bool :=
  match FormData.amount formData with
  | None => true
  | Some amount =>
      if Qle_bool amount 0 then true
      else negb (Qle_bool amount remainingAmount)
  end.

Definition validateForm (remainingAmount : Q) (formData : FormData.t) : bool :=
  negb (amountError remainingAmount formData)
  && negb (String.eqb (FormData.paymentDate formData) "").

(** [s || undefined]. *)
Definition orUndefined (s : string) : option string :=
  if String.eqb s "" then None else Some s.

(** [handleSubmit]: the payment handed to [onSave], or nothing when the
    form is invalid. *)
Definition handleSubmit (remainingAmount : Q) (formData : FormData.t)
  : option PaymentInput.t :=
  if validateForm remainingAmount formData then
    Some (PaymentInput.mk
            (default 0%Q (FormData.amount formData))
            (FormData.paymentDate formData)
            (FormData.paymentMethod formData)
            (orUndefined (FormData.referenceNumber formData))
            (orUndefined (FormData.notes formData)))
  else None.

End PaymentModal.

Module InvoicesPage.

(** Submitting the payment form opened on the invoice [invoiceId]
    ([showPaymentModal]): the modal is mounted when the id is not empty, with
    [invoices[id].invoiceNumber] and [invoices[id].remainingAmount], and its
    [onSave] is [handleAddPayment], which calls [addPayment].  Mounting it on
    an id the store lacks raises; on an inherited name both props are
    [undefined]. *)
Definition submitPayment (invoicesData : SavedInvoicesData.t) (now : DateNow.t)
           (paymentId : string) (invoiceId : string)
           (formData : PaymentModal.FormData.t)
  : Js.Completion SavedInvoicesData.t :=
  if String.eqb invoiceId "" then Js.Normal invoicesData
  else
    match Js.get (SavedInvoicesData.invoices invoicesData) invoiceId with
    | Js.Undefined => Js.Throw Js.TypeError
    | Js.Inherited => Js.IllTyped
    | Js.Own invoice =>
        match PaymentModal.handleSubmit (SavedInvoice.remainingAmount invoice)
                                        formData with
        | Some payment =>
            UseSavedInvoices.addPayment invoicesData now paymentId invoiceId
                                        payment
        | None => Js.Normal invoicesData
        end
    end.

End InvoicesPage.

(** The rows of the "additional services" table of the job-work sheet
    ([generateJobWorkPDF]). *)
Module PdfGenerator.
Definition orderServiceRows (order : Order.t) : list (list string) :=
  imap (fun index charge =>
          [Js.String_ (Some (Z.of_nat index + 1)%Z);
           ServiceCharge.description charge;
           "Follow standard procedure"])
       (Order.serviceCharges order).
End PdfGenerator.

(** The whole of [deleteInvoice] ([useSavedInvoices.ts]). *)
Module InvoiceCascade.
Import UseSavedInvoices.

(** [Object.values(orders.orders).find(order => order.invoiceId === invoiceId)];
    [values] is the enumeration [Object.values] gives. *)
Definition orderToDelete (values : list Order.t) (invoiceId : string)
  : option Order.t :=
  List.find (fun order => String.eqb (Order.invoiceId order) invoiceId) values.

(** [orders] is the order collection as it is persisted, which the handler
    reads and writes directly.  The guard [if (invoice)] holds when the id is
    a key of the invoice store and also when it is an inherited name.  The
    write sits behind a call of [require]: [requireResolves] tells whether
    the module system of the bundle provides it; when it does not, the call
    raises inside the [try] and the collection is not written.  The invoice
    store is updated in every case. *)
Definition deleteInvoice (requireResolves : bool) (values : list Order.t)
           (now : DateNow.t) (invoiceId : string)
           (invoicesData : SavedInvoicesData.t) (orders : OrdersData.t)
  : SavedInvoicesData.t * OrdersData.t :=
  let cascade :=
    match orderToDelete values invoiceId with
    | Some order =>
        if requireResolves then
          OrdersData.mk (delete (Order.id order) (OrdersData.orders orders))
                        (DateNow.getTime now)
                        (OrdersData.next_order_number orders)
        else orders
    | None => orders
    end in
  let orders' :=
    match Js.get (SavedInvoicesData.invoices invoicesData) invoiceId with
    | Js.Own invoice => cascade
    | Js.Inherited => cascade
    | Js.Undefined => orders
    end in
  (UseSavedInvoices.deleteInvoice now invoiceId invoicesData, orders').

(** [values] enumerates the stored orders. *)
Definition enumerates (values : list Order.t) (orders : OrdersData.t) : Prop :=
  forall o, o ∈ values <-> exists k, OrdersData.orders orders !! k = Some o.

(** Every order is stored under its own id, as [createOrder] stores it. *)
Definition keyed (orders : OrdersData.t) : Prop :=
  forall k o, OrdersData.orders orders !! k = Some o -> Order.id o = k.

End InvoiceCascade.

(* ===================================================================== *)
(** ** Operation sequences                                               *)
(* ===================================================================== *)

(** The payment ledger of one invoice driven by a sequence of [addPayment] and
    [removePayment] calls, each seeing the store the previous call left. *)
Module Ledger.
Import UseSavedInvoices.

Inductive Op : Type :=
  | Add (now : DateNow.t) (paymentId : string) (payment : PaymentInput.t)
  | Remove (now : DateNow.t) (paymentId : string).

Definition call (invoiceId : string) (data : SavedInvoicesData.t) (op : Op)
  : Js.Completion SavedInvoicesData.t :=
  match op with
  | Add now paymentId payment => addPayment data now paymentId invoiceId payment
  | Remove now paymentId => removePayment data now invoiceId paymentId
  end.

(** The store a call leaves: the one it wrote, or the one it found when it
    raised before writing (neither function leaves the declared types). *)
Definition step (invoiceId : string) (data : SavedInvoicesData.t) (op : Op)
  : SavedInvoicesData.t :=
  match call invoiceId data op with
  | Js.Normal data' => data'
  | Js.Throw _ => data
  | Js.IllTyped => data
  end.

Definition run (invoiceId : string) (ops : list Op) (data : SavedInvoicesData.t)
  : SavedInvoicesData.t :=
  fold_left (step invoiceId) ops data.

(** The sum of the amounts of a payment list. *)
Fixpoint sum_of_amounts (payments : list Payment.t) : Q :=
  match payments with
  | [] => 0
  | p :: rest => Payment.amount p + sum_of_amounts rest
  end.

(** The payment a call of [addPayment] records. *)
Definition recorded (now : DateNow.t) (paymentId : string)
           (payment : PaymentInput.t) : Payment.t :=
  Payment.mk paymentId
    (PaymentInput.amount payment) (PaymentInput.paymentDate payment)
    (PaymentInput.paymentMethod payment)
    (PaymentInput.referenceNumber payment) (PaymentInput.notes payment)
    (DateNow.getTime now).

(** The payments a ledger should hold after a sequence of operations: each
    payment added is put at the end, each removal takes out the payments
    with the id given. *)
Fixpoint payments_after (ops : list Op) (payments : list Payment.t)
  : list Payment.t :=
  match ops with
  | [] => payments
  | Add now paymentId payment :: rest =>
      payments_after rest (payments ++ [recorded now paymentId payment])%list
  | Remove now paymentId :: rest =>
      payments_after rest
        (List.filter (fun p => negb (String.eqb (Payment.id p) paymentId))
                     payments)
  end.

(** The three ledger equations of an invoice. *)
Definition consistent (invoice : SavedInvoice.t) : Prop :=
  (SavedInvoice.totalPaid invoice
   == sum_of_amounts (SavedInvoice.payments invoice))%Q /\
  (SavedInvoice.remainingAmount invoice
   == SavedInvoice.finalPrice invoice - SavedInvoice.totalPaid invoice)%Q /\
  (SavedInvoice.status invoice = Paid <->
   (SavedInvoice.remainingAmount invoice <= 0)%Q).

End Ledger.

(** The three stores driven by a sequence of document operations: saving a
    quotation (new or edited), promoting a quotation, and the three
    deletions.  Each step also reports the document numbers it issued, read
    off the records it stored.  Deleting an invoice takes, beside the id,
    what its handler reads from the environment: whether [require] resolves,
    and the enumeration [Object.values] gives of the persisted orders. *)
Module Lifecycle.
Import UseSavedInvoices.

Inductive Op : Type :=
| SaveQuotation (now : DateNow.t) (freshId : string)
                (params : UseSavedQuotations.SaveQuotationParams.t)
| DeleteQuotation (now : DateNow.t) (quotationId : string)
| CreateInvoice (now : DateNow.t) (invoiceId orderId : string)
                (quotation : SavedQuotation.t)
| DeleteInvoice (requireResolves : bool) (values : list Order.t)
                (now : DateNow.t) (invoiceId : string)
| DeleteOrder (now : DateNow.t) (orderId : string).

Record Issued : Type := mkIssued {
  quotationNumbers : list string;
  invoiceNumbers : list string;
  orderNumbers : list string
}.

Definition nothing : Issued := mkIssued [] [] [].

Definition both (a b : Issued) : Issued :=
  mkIssued (quotationNumbers a ++ quotationNumbers b)%list
           (invoiceNumbers a ++ invoiceNumbers b)%list
           (orderNumbers a ++ orderNumbers b)%list.

Definition numberOf {A : Type} (number : A -> string) (stored : option A)
  : list string :=
  match stored with
  | Some record => [number record]
  | None => []
  end.

(** One operation: the stores it leaves and the numbers it issued.  An
    operation that raises has written nothing and issued nothing.  There is
    no result when the operation stores a record that is not of its declared
    type. *)
Definition step (st : Stores) (op : Op) : option (Stores * Issued) :=
  match op with
  | SaveQuotation now freshId params =>
      match UseSavedQuotations.saveQuotation (quotationsData st) now freshId params with
      | Js.Normal (quotationsData', quotationId) =>
          Some
            (mkStores quotationsData' (invoicesData st) (ordersData st),
             if Js.truthy (UseSavedQuotations.SaveQuotationParams.existingQuotationId params)
             then nothing
             else mkIssued
                    (numberOf SavedQuotation.quotationNumber
                       (SavedQuotationsData.quotations quotationsData' !! quotationId))
                    [] [])
      | Js.Throw _ => Some (st, nothing)
      | Js.IllTyped => None
      end
  | DeleteQuotation now quotationId =>
      Some
        (mkStores (UseSavedQuotations.deleteQuotation now quotationId (quotationsData st))
                  (invoicesData st) (ordersData st),
         nothing)
  | CreateInvoice now invoiceId orderId quotation =>
      match createInvoiceFromQuotation st now invoiceId orderId quotation
              (UseSavedQuotations.deleteQuotation now) with
      | Js.Normal (st', _) =>
          Some
            (st',
             mkIssued []
               (numberOf SavedInvoice.invoiceNumber
                  (SavedInvoicesData.invoices (invoicesData st') !! invoiceId))
               (numberOf Order.orderNumber
                  (OrdersData.orders (ordersData st') !! orderId)))
      | Js.Throw _ => Some (st, nothing)
      | Js.IllTyped => None
      end
  | DeleteInvoice requireResolves values now invoiceId =>
      let '(invoicesData', ordersData') :=
        InvoiceCascade.deleteInvoice requireResolves values now invoiceId
                                     (invoicesData st) (ordersData st) in
      Some (mkStores (quotationsData st) invoicesData' ordersData', nothing)
  | DeleteOrder now orderId =>
      Some
        (mkStores (quotationsData st) (invoicesData st)
                  (UseOrders.deleteOrder now orderId (ordersData st)),
         nothing)
  end.

Fixpoint run (st : Stores) (ops : list Op) : option (Stores * Issued) :=
  match ops with
  | [] => Some (st, nothing)
  | op :: rest =>
      match step st op with
      | Some (st1, issued1) =>
          match run st1 rest with
          | Some (st2, issued2) => Some (st2, both issued1 issued2)
          | None => None
          end
      | None => None
      end
  end.

(** The clock of an operation that issues a number. *)
Definition clock_ok (op : Op) : Prop :=
  match op with
  | SaveQuotation now _ _ => DocumentNumber.wf_date now
  | CreateInvoice now _ _ _ => DocumentNumber.wf_date now
  | _ => True
  end.

(** The id of a quotation to edit is not a name every object inherits (on
    such a name the edit stores a record that is no quotation). *)
Definition edits_records (op : Op) : Prop :=
  match op with
  | SaveQuotation _ _ params =>
      Js.inherited
        (default "" (UseSavedQuotations.SaveQuotationParams.existingQuotationId
                       params)) = false
  | _ => True
  end.

Definition quotationCounter (st : Stores) : string :=
  SavedQuotationsData.next_quotation_number (quotationsData st).
Definition invoiceCounter (st : Stores) : string :=
  SavedInvoicesData.next_invoice_number (invoicesData st).
Definition orderCounter (st : Stores) : string :=
  OrdersData.next_order_number (ordersData st).

End Lifecycle.

(* ===================================================================== *)
(** ** Sample data (after the fixtures of the test suite)                *)
(* ===================================================================== *)

Module Samples.

Definition bangalore : Address.t :=
  Address.mk "123 Test Street" "Bangalore" "Karnataka" "560001" "India".
Definition mumbai : Address.t :=
  Address.mk "456 Test Street" "Mumbai" "Maharashtra" "400001" "India".

Definition mockKarnatakaCustomer : Customer.t :=
  Customer.mk "Karnataka Company" (Some "29ABCDE1234F1Z5") "John Doe"
    "john@test.com" "+91-9876543210" bangalore bangalore Business
    (5 # 100) "Net 30" ["FDM"] 10 50000 Active "Test customer".

Definition mockOutOfStateCustomer : Customer.t :=
  Customer.mk "Maharashtra Company" (Some "29ABCDE1234F1Z5") "John Doe"
    "john@test.com" "+91-9876543210" bangalore mumbai Business
    (5 # 100) "Net 30" ["FDM"] 10 50000 Active "Test customer".

Definition noon : DateNow.t := DateNow.utc 1736942400000 2025 0 15.

Definition catalog : TechnologiesData.t :=
  TechnologiesData.mk
    {[ "FDM" := Technology.mk "FDM" "Fused deposition"
                  {[ "PLA" := Material.mk "PLA" 3 [] [];
                     "ABS" := Material.mk "ABS" 5 [] [] ]};
       "SLA" := Technology.mk "SLA" "Stereolithography"
                  {[ "RESIN" := Material.mk "Standard resin" 8 [] [] ]} ]}
    0 "INR".

(** A part priced for [mockKarnatakaCustomer]: 2 cm³ of PLA at 3 per cm³. *)
Definition bracket : QuotationPart.t :=
  QuotationPart.mk "p1" 1 "bracket.stl" "stl" 2 None (Some "FDM") (Some "PLA")
    1 6 6 (108 # 100) (708 # 100) None (Some true) None.


(** A part that is not selected. *)
Definition lid : QuotationPart.t :=
  QuotationPart.mk "p3" 3 "lid.stl" "stl" 1 None (Some "FDM") (Some "ABS")
    2 5 10 (18 # 10) (118 # 10) None (Some false) None.

(** [bracket] as it stands once the customer has been cleared. *)
Definition bracketNoCustomer : QuotationPart.t :=
  QuotationPart.mk "p1" 1 "bracket.stl" "stl" 2 None (Some "FDM") (Some "PLA")
    1 6 6 0 6 None None None.

(** A part with a process but no material yet. *)
Definition blank : QuotationPart.t :=
  QuotationPart.mk "p4" 1 "blank.stl" "stl" 2 None (Some "FDM") None
    1 0 0 0 0 None None None.

Definition savedBracket : SavedPart.t :=
  SavedPart.mk "q1_part_1" 1 "bracket.stl" "stl" 2 None (Some "FDM") (Some "PLA")
    1 6 6 (108 # 100) (708 # 100) None.

Definition polishing : ServiceCharge.t :=
  ServiceCharge.mk "svc1" "Polishing" 500.

Definition quotation1 : SavedQuotation.t :=
  SavedQuotation.mk "q1" "QT2501150001" "CUST001" "Karnataka Company"
    [savedBracket] 506 0 (9108 # 100) (59708 # 100) QApproved
    1736942400000 1736942400000 "" 1739534400000 INTRASTATE
    (Some "Net 15") (Some "3-5 days") (Some shipping) [polishing] 500.

(** [quotation1] with payment terms of a hundred million days. *)
Definition quotationHuge : SavedQuotation.t :=
  SavedQuotation.mk "q1" "QT2501150001" "CUST001" "Karnataka Company"
    [savedBracket] 506 0 (9108 # 100) (59708 # 100) QApproved
    1736942400000 1736942400000 "" 1739534400000 INTRASTATE
    (Some "Net 100000000") (Some "3-5 days") (Some shipping) [polishing] 500.

Definition invoice1 : SavedInvoice.t :=
  SavedInvoice.mk "inv1" "INV2501150001" "q1" "QT2501150001" "CUST001"
    "Karnataka Company" [savedBracket] 506 0 (9108 # 100) 180 Sent
    1736942400000 1736942400000 1738238400000 "" INTRASTATE (Some shipping)
    [] 0 180 [polishing] 500.

Definition invoices1 : SavedInvoicesData.t :=
  SavedInvoicesData.mk {[ "inv1" := invoice1 ]} 1736942400000 "INV0002".

Definition stores1 : UseSavedInvoices.Stores :=
  UseSavedInvoices.mkStores
    (SavedQuotationsData.mk {[ "q1" := quotation1 ]} 1736942400000 "QT0002")
    (UseSavedInvoices.createEmptyInvoicesData noon)
    (UseOrders.createEmptyOrdersData noon).

Definition storesHuge : UseSavedInvoices.Stores :=
  UseSavedInvoices.mkStores
    (SavedQuotationsData.mk {[ "q1" := quotationHuge ]} 1736942400000 "QT0002")
    (UseSavedInvoices.createEmptyInvoicesData noon)
    (UseOrders.createEmptyOrdersData noon).

(** The stores with a quotation counter that is not the prefix followed by
    digits. *)
Definition storesMalformed : UseSavedInvoices.Stores :=
  UseSavedInvoices.mkStores
    (SavedQuotationsData.mk ∅ 1736942400000 "QT-1")
    (UseSavedInvoices.createEmptyInvoicesData noon)
    (UseOrders.createEmptyOrdersData noon).

Definition pay (amount : Q) : PaymentInput.t :=
  PaymentInput.mk amount "2025-01-15" BankTransfer None None.

(** The settlement scenario: 180.00 due, 100.00 paid, 80.00 paid, then the
    80.00 payment removed. *)
Definition scenarioOps : list Ledger.Op :=
  [Ledger.Add noon "pay1" (pay 100);
   Ledger.Add noon "pay2" (pay 80);
   Ledger.Remove noon "pay2"].

Definition laterDate : DateNow.t := DateNow.utc 1772366400000 2026 2 1.

Definition saveParams : UseSavedQuotations.SaveQuotationParams.t :=
  UseSavedQuotations.SaveQuotationParams.mk "CUST001" "Karnataka Company"
    [savedBracket] 6 0 (108 # 100) (708 # 100) INTRASTATE "" (Some "Net 30")
    (Some "3-5 days") (Some shipping) [] 0 None.

(** A quotation is saved and [quotation1] is promoted. *)
Definition openingOps : list Lifecycle.Op :=
  [Lifecycle.SaveQuotation noon "quot_a" saveParams;
   Lifecycle.CreateInvoice noon "inv_a" "order_a" quotation1].

(** The orders persisted once [openingOps] have run, as [Object.values]
    enumerates them. *)
Definition openingOrders : list Order.t :=
  match Lifecycle.run stores1 openingOps with
  | Some (st, _) =>
      (map_to_list (OrdersData.orders (UseSavedInvoices.ordersData st))).*2
  | None => []
  end.

(** Two quotations saved on different days, the first promotion followed by
    the deletion of its invoice (which takes the order with it) and of its
    order, then a second promotion. *)
Definition lifecycleOps : list Lifecycle.Op :=
  (openingOps ++
   [Lifecycle.DeleteInvoice true openingOrders noon "inv_a";
    Lifecycle.DeleteOrder noon "order_a";
    Lifecycle.SaveQuotation laterDate "quot_b" saveParams;
    Lifecycle.DeleteQuotation laterDate "quot_a";
    Lifecycle.CreateInvoice laterDate "inv_b" "order_b" quotation1])%list.

End Samples.

(* ===================================================================== *)
(** ** The working part list ([QuotationPage.tsx], [ManualPartForm.tsx])  *)
(* ===================================================================== *)

Module CustomersData.
Record t : Type := mk {
  customers : gmap string Customer.t;
  last_updated : Z;
  next_customer_id : string
}.
End CustomersData.

(** What [FileParser.parseFile] resolves to; the parser itself is a
    collaborator and is taken as an argument where it is called. *)
Module Geometry.
Record t : Type := mk {
  volume : Q;
  boundingBox : option BoundingBox.t
}.
End Geometry.

Module WorkingList.
Import GstCalculator QuotationPage.

(** [{ ...part, serialNumber }]. *)
Definition withSerialNumber (p : QuotationPart.t) (serialNumber : Z)
  : QuotationPart.t :=
  QuotationPart.mk
    (QuotationPart.id p) serialNumber
    (QuotationPart.fileName p) (QuotationPart.fileType p)
    (QuotationPart.volume p) (QuotationPart.boundingBox p)
    (QuotationPart.technology p) (QuotationPart.material p)
    (QuotationPart.quantity p)
    (QuotationPart.unitPrice p) (QuotationPart.totalPrice p)
    (QuotationPart.gstAmount p) (QuotationPart.finalPrice p)
    (QuotationPart.file p) (QuotationPart.selected p)
    (QuotationPart.comments p).

(** [{ ...part, selected }]. *)
Definition withSelected (p : QuotationPart.t) (selected : bool)
  : QuotationPart.t :=
  QuotationPart.mk
    (QuotationPart.id p) (QuotationPart.serialNumber p)
    (QuotationPart.fileName p) (QuotationPart.fileType p)
    (QuotationPart.volume p) (QuotationPart.boundingBox p)
    (QuotationPart.technology p) (QuotationPart.material p)
    (QuotationPart.quantity p)
    (QuotationPart.unitPrice p) (QuotationPart.totalPrice p)
    (QuotationPart.gstAmount p) (QuotationPart.finalPrice p)
    (QuotationPart.file p) (Some selected)
    (QuotationPart.comments p).

(** [{ ...part, gstAmount, finalPrice }]. *)
Definition withTax (p : QuotationPart.t) (gstAmount finalPrice : Q)
  : QuotationPart.t :=
  setPricing p (QuotationPart.unitPrice p) (QuotationPart.totalPrice p)
             gstAmount finalPrice.

Definition handleDeletePart (parts : list QuotationPart.t) (partId : string)
  : list QuotationPart.t :=
  let filteredParts :=
    List.filter (fun part => negb (String.eqb (QuotationPart.id part) partId))
                parts in
  imap (fun index part => withSerialNumber part (Z.of_nat index + 1))
       filteredParts.

Definition handleDeleteAllParts : list QuotationPart.t := [].

Definition handleToggleSelect (parts : list QuotationPart.t) (partId : string)
  : list QuotationPart.t :=
  List.map (fun part =>
              if String.eqb (QuotationPart.id part) partId
              then withSelected part
                     (negb (default false (QuotationPart.selected part)))
              else part) parts.

Definition allSelected (parts : list QuotationPart.t) : bool :=
  (0 <? List.length parts)%nat
  && (List.length (selectedParts parts) =? List.length parts)%nat.

Definition handleToggleSelectAll (parts : list QuotationPart.t)
  : list QuotationPart.t :=
  List.map (fun part => withSelected part (negb (allSelected parts))) parts.

(** What the guard [customerId && customersData.customers[customerId]] of
    [handleCustomerChange] reads: nothing for the empty id, else the property
    of the customer collection under the id. *)
Definition customerAt (customersData : CustomersData.t) (customerId : string)
  : Js.Property Customer.t :=
  if String.eqb customerId "" then Js.Undefined
  else Js.get (CustomersData.customers customersData) customerId.

(** A part whose total price is positive: the parts for which
    [handleCustomerChange] calls [calculateGST]. *)
Definition priced (part : QuotationPart.t) : bool :=
  if Qlt_le_dec 0 (QuotationPart.totalPrice part) then true else false.

(** [handleCustomerChange]: the part list it passes to [updateParts] (the
    selected customer id becomes [customerId] first).  The guard also holds
    for an id that is an inherited name, whose value is no customer:
    [calculateGST] then raises on its [shipping_address], at the first part
    with a positive total. *)
Definition handleCustomerChange (customersData : CustomersData.t)
           (parts : list QuotationPart.t) (customerId : string)
  : Js.Completion (list QuotationPart.t) :=
  match customerAt customersData customerId with
  | Js.Own customer =>
      Js.Normal
        (List.map (fun part =>
                     if Qlt_le_dec 0 (QuotationPart.totalPrice part) then
                       let gstCalculation :=
                         calculateGST (QuotationPart.totalPrice part) customer in
                       withTax part (total gstCalculation)
                               (QuotationPart.totalPrice part
                                + total gstCalculation)%Q
                     else part) parts)
  | Js.Inherited =>
      if existsb priced parts then Js.Throw Js.TypeError else Js.Normal parts
  | Js.Undefined =>
      Js.Normal
        (List.map (fun part => withTax part 0 (QuotationPart.totalPrice part))
                  parts)
  end.

(** [name.split('.').pop()]: what follows the last dot, the whole name when
    there is none. *)
Fixpoint lastSegment (acc s : string) : string :=
  match s with
  | EmptyString => acc
  | String c r =>
      if Ascii.eqb c "." then lastSegment EmptyString r
      else lastSegment (acc ++ String c EmptyString) r
  end.

Definition fileTypeOf (name : string) : string :=
  Js.toLowerCase (lastSegment EmptyString name).

(** [Math.max(...parts.map(p => p.serialNumber))], 0 for the empty list. *)
Definition currentMaxSerial (parts : list QuotationPart.t) : Z :=
  match parts with
  | [] => 0%Z
  | p :: r =>
      fold_left (fun m q => Z.max m (QuotationPart.serialNumber q)) r
                (QuotationPart.serialNumber p)
  end.

(** The loop of [handleFilesSelected] from index [i] on.  Each file comes
    with the part id generated for it; a file the parser rejects is skipped,
    its index being used up. *)
Fixpoint newPartsFrom (parseFile : File.t -> option Geometry.t)
         (maxSerial : Z) (i : nat) (files : list (File.t * string))
  : list QuotationPart.t :=
  match files with
  | [] => []
  | (file, partId) :: rest =>
      match parseFile file with
      | Some geometry =>
          QuotationPart.mk partId (maxSerial + Z.of_nat i + 1)
            (File.name file) (fileTypeOf (File.name file))
            (Geometry.volume geometry) (Geometry.boundingBox geometry)
            None None 1 0 0 0 0 (Some file) (Some false) None
          :: newPartsFrom parseFile maxSerial (S i) rest
      | None => newPartsFrom parseFile maxSerial (S i) rest
      end
  end.

Definition handleFilesSelected (parseFile : File.t -> option Geometry.t)
           (parts : list QuotationPart.t) (files : list (File.t * string))
  : list QuotationPart.t :=
  (parts ++ newPartsFrom parseFile (currentMaxSerial parts) 0 files)%list.

Definition handleSaveManualPart (parts : list QuotationPart.t)
           (part : QuotationPart.t) : list QuotationPart.t :=
  (parts ++ [part])%list.

(** The serial numbers are 1, 2, ..., n in list order. *)
Definition dense (parts : list QuotationPart.t) : Prop :=
  forall i p, parts !! i = Some p ->
              QuotationPart.serialNumber p = (Z.of_nat i + 1)%Z.

End WorkingList.

Module ManualPartForm.
Import GstCalculator QuotationPage.

(** The form state.  [volume] is the text of a number input: empty, or the
    decimal text of a number, kept as that number. *)
Module FormData.
Record t : Type := mk {
  partName : string;
  volume : option Q;
  quantity : Q;
  technology : string;
  material : string;
  comments : string
}.
End FormData.

(** [!s.trim()]: the string has only white space. *)
Fixpoint isBlank (s : string) : bool :=
  match s with
  | EmptyString => true
  | String c r => Js.is_ws c && isBlank r
  end.

Definition validateForm (formData : FormData.t) : bool :=
  negb (isBlank (FormData.partName formData))
  && match FormData.volume formData with
     | Some v => negb (Qle_bool v 0)
     | None => false
     end
  && negb (Qle_bool (FormData.quantity formData) 0)
  && negb (String.eqb (FormData.technology formData) "")
  && negb (String.eqb (FormData.material formData) "").

(** [selectedMaterial], computed when the form renders: [null] (read here as
    [Undefined]) unless a process and a material are entered, else
    [technologies[technology].materials[material]]; indexing the
    [.materials] of a process the catalog lacks raises. *)
Definition selectedMaterial (technologiesData : TechnologiesData.t)
           (formData : FormData.t) : Js.Completion (Js.Property Material.t) :=
  if negb (String.eqb (FormData.technology formData) "")
     && negb (String.eqb (FormData.material formData) "")
  then
    match Js.get (TechnologiesData.technologies technologiesData)
                 (FormData.technology formData) with
    | Js.Own t =>
        Js.Normal (Js.get (Technology.materials t) (FormData.material formData))
    | Js.Inherited => Js.Throw Js.TypeError
    | Js.Undefined => Js.Throw Js.TypeError
    end
  else Js.Normal Js.Undefined.

(** [handleSubmit]: the part handed to [onSave], or nothing.  A material
    that is an inherited name is truthy and has no [cost_per_cc]: the part
    handed over has NaN prices. *)
Definition handleSubmit (technologiesData : TechnologiesData.t)
           (customer : option Customer.t) (nextSerialNumber : Z)
           (partId : string) (formData : FormData.t)
  : Js.Completion (option QuotationPart.t) :=
  Js.bind (selectedMaterial technologiesData formData) (fun selected =>
    if validateForm formData then
      match customer, selected with
      | Some cust, Js.Own material =>
          let volume := default 0%Q (FormData.volume formData) in
          let unitPrice := (volume * Material.cost_per_cc material)%Q in
          let totalPrice := (unitPrice * FormData.quantity formData)%Q in
          let gstCalculation := calculateGST totalPrice cust in
          let finalPrice := (totalPrice + total gstCalculation)%Q in
          Js.Normal (Some
            (QuotationPart.mk partId nextSerialNumber
               (FormData.partName formData) "manual" volume None
               (Some (FormData.technology formData))
               (Some (FormData.material formData))
               (FormData.quantity formData)
               unitPrice totalPrice (total gstCalculation) finalPrice
               None (Some false)
               (PaymentModal.orUndefined (FormData.comments formData))))
      | Some cust, Js.Inherited => Js.IllTyped
      | Some cust, Js.Undefined => Js.Normal None
      | None, _ => Js.Normal None
      end
    else Js.Normal None).

(** The form as [QuotationPage] mounts it: [nextSerialNumber] is
    [parts.length + 1] and [onSave] is [handleSaveManualPart]. *)
Definition submit (technologiesData : TechnologiesData.t)
           (customer : option Customer.t) (parts : list QuotationPart.t)
           (partId : string) (formData : FormData.t)
  : Js.Completion (list QuotationPart.t) :=
  Js.bind (handleSubmit technologiesData customer
             (Z.of_nat (List.length parts) + 1) partId formData)
    (fun saved =>
       match saved with
       | Some part => Js.Normal (WorkingList.handleSaveManualPart parts part)
       | None => Js.Normal parts
       end).

End ManualPartForm.

(* ===================================================================== *)
(** ** DraftWorkspace ([useQuotationState.ts])                            *)
(* ===================================================================== *)

Module QuotationState.
Record t : Type := mk {
  selectedCustomerId : option string;
  parts : list QuotationPart.t;
  discount : Q;
  lastUpdated : Z;
  editingQuotationId : option string;
  notes : option string;
  paymentTerms : option string;
  leadTime : option string;
  shippingAddressType : option ShippingAddressType;
  serviceCharges : list ServiceCharge.t
}.
End QuotationState.

Module UseQuotationState.

Definition STATE_EXPIRY_HOURS : Q := 24.

Definition createEmptyState (now : DateNow.t) : QuotationState.t :=
  QuotationState.mk None [] 0 (DateNow.getTime now) None (Some "") None None
                    (Some shipping) [].

(** [new File([''], name, { type: `application/${type}` })]. *)
Definition createMockFile (name type : string) : File.t :=
  File.mk name ("application/" ++ type).

Definition withFile (p : QuotationPart.t) (file : option File.t)
  : QuotationPart.t :=
  QuotationPart.mk
    (QuotationPart.id p) (QuotationPart.serialNumber p)
    (QuotationPart.fileName p) (QuotationPart.fileType p)
    (QuotationPart.volume p) (QuotationPart.boundingBox p)
    (QuotationPart.technology p) (QuotationPart.material p)
    (QuotationPart.quantity p)
    (QuotationPart.unitPrice p) (QuotationPart.totalPrice p)
    (QuotationPart.gstAmount p) (QuotationPart.finalPrice p)
    file (QuotationPart.selected p) (QuotationPart.comments p).

(** [saveQuotationState]: what is written under the draft key.  A [File]
    is stored as its metadata, which is all the model keeps of a file, so
    the serialized state is the state. *)
Definition saveQuotationState (state : QuotationState.t)
  : option QuotationState.t := Some state.

(** [(now - lastUpdated) / (1000 * 60 * 60)]. *)
Definition hoursDiff (now : DateNow.t) (lastUpdated : Z) : Q :=
  (inject_Z (DateNow.getTime now - lastUpdated) / inject_Z (1000 * 60 * 60))%Q.

(** [loadQuotationState]: [stored] is the parsed value of the draft key,
    [None] when the key is absent or does not parse. *)
Definition loadQuotationState (stored : option QuotationState.t)
           (now : DateNow.t) : QuotationState.t :=
  match stored with
  | None => createEmptyState now
  | Some parsed =>
      if Qlt_le_dec STATE_EXPIRY_HOURS
                    (hoursDiff now (QuotationState.lastUpdated parsed))
      then createEmptyState now
      else
        let restoredParts :=
          List.map (fun part =>
                      withFile part
                        (match QuotationPart.file part with
                         | Some _ =>
                             Some (createMockFile (QuotationPart.fileName part)
                                                  (QuotationPart.fileType part))
                         | None => None
                         end))
                   (QuotationState.parts parsed) in
        QuotationState.mk
          (QuotationState.selectedCustomerId parsed) restoredParts
          (QuotationState.discount parsed) (QuotationState.lastUpdated parsed)
          (QuotationState.editingQuotationId parsed)
          (QuotationState.notes parsed) (QuotationState.paymentTerms parsed)
          (QuotationState.leadTime parsed)
          (QuotationState.shippingAddressType parsed)
          (QuotationState.serviceCharges parsed)
  end.

Definition hasSavedQuotationState (stored : option QuotationState.t)
           (now : DateNow.t) : bool :=
  match stored with
  | None => false
  | Some parsed =>
      (if Qlt_le_dec STATE_EXPIRY_HOURS
                     (hoursDiff now (QuotationState.lastUpdated parsed))
       then false else true)
      && (Js.truthy (QuotationState.selectedCustomerId parsed)
          || (0 <? List.length (QuotationState.parts parsed))%nat)
  end.

(** [{ ...part, file: createMockFile(...), selected: false }] for a part of a
    saved quotation. *)
Definition toQuotationPart (part : SavedPart.t) : QuotationPart.t :=
  QuotationPart.mk
    (SavedPart.id part) (SavedPart.serialNumber part)
    (SavedPart.fileName part) (SavedPart.fileType part)
    (SavedPart.volume part) (SavedPart.boundingBox part)
    (SavedPart.technology part) (SavedPart.material part)
    (SavedPart.quantity part)
    (SavedPart.unitPrice part) (SavedPart.totalPrice part)
    (SavedPart.gstAmount part) (SavedPart.finalPrice part)
    (Some (createMockFile (SavedPart.fileName part) (SavedPart.fileType part)))
    (Some false) (SavedPart.comments part).

Definition loadQuotationForEditing (quotation : SavedQuotation.t)
           (now : DateNow.t) : QuotationState.t :=
  QuotationState.mk
    (Some (SavedQuotation.customerId quotation))
    (List.map toQuotationPart (SavedQuotation.parts quotation))
    (SavedQuotation.discount quotation) (DateNow.getTime now)
    (Some (SavedQuotation.id quotation))
    (Some (SavedQuotation.notes quotation))
    (SavedQuotation.paymentTerms quotation)
    (SavedQuotation.leadTime quotation)
    (Some (default shipping (SavedQuotation.shippingAddressType quotation)))
    (SavedQuotation.serviceCharges quotation).

Definition clearQuotationState (now : DateNow.t) : QuotationState.t :=
  QuotationState.mk None [] 0 (DateNow.getTime now) None (Some "") None None
                    (Some shipping) [].

End UseQuotationState.

(* ===================================================================== *)
(** ** Totals: [QuotationSummary.tsx] and [handleSaveQuotation]           *)
(* ===================================================================== *)

Module QuotationSummary.
Import GstCalculator.

(** The props the totals are computed from. *)
Section Totals.
Variable parts : list QuotationPart.t.
Variable serviceCharges : list ServiceCharge.t.
Variable discount : Q.
Variable customer : option Customer.t.

Definition totalBasePrice : Q :=
  fold_left (fun sum part => (sum + QuotationPart.totalPrice part)%Q) parts 0%Q.
Definition totalServiceCharges : Q :=
  fold_left (fun sum charge => (sum + ServiceCharge.amount charge)%Q)
            serviceCharges 0%Q.
Definition combinedBasePrice : Q := (totalBasePrice + totalServiceCharges)%Q.
Definition appliedDiscountRate : Q := UseOrders.orZero discount.
Definition discountAmount : Q :=
  (combinedBasePrice * appliedDiscountRate / 100)%Q.
Definition discountedPrice : Q := (combinedBasePrice - discountAmount)%Q.

Definition totalGST : option GSTCalculation :=
  match customer with
  | Some cust =>
      if Qlt_le_dec 0 discountedPrice
      then Some (calculateGST discountedPrice cust) else None
  | None => None
  end.

Definition finalPrice : Q :=
  (discountedPrice
   + match totalGST with
     | Some gst => UseOrders.orZero (total gst)
     | None => 0
     end)%Q.

Definition canSave : bool :=
  ((0 <? List.length parts)%nat || (0 <? List.length serviceCharges)%nat)
  && bool_decide (is_Some customer)
  && (if Qlt_le_dec 0 combinedBasePrice then true else false).
End Totals.

End QuotationSummary.

Module SaveFlow.
Import GstCalculator UseSavedQuotations.

(** The part of a draft as it is sent to [saveQuotation]. *)
Definition toSavedPart (part : QuotationPart.t) : SavedPart.t :=
  SavedPart.mk
    (QuotationPart.id part) (QuotationPart.serialNumber part)
    (QuotationPart.fileName part) (QuotationPart.fileType part)
    (QuotationPart.volume part) (QuotationPart.boundingBox part)
    (QuotationPart.technology part) (QuotationPart.material part)
    (QuotationPart.quantity part)
    (QuotationPart.unitPrice part) (QuotationPart.totalPrice part)
    (QuotationPart.gstAmount part) (QuotationPart.finalPrice part)
    (QuotationPart.comments part).

(** What [selectedCustomer] of [QuotationPage] reads:
    [selectedCustomerId ? customersData.customers[selectedCustomerId] : null]
    ([null] read here as [Undefined]). *)
Definition customerProperty (customersData : CustomersData.t)
           (state : QuotationState.t) : Js.Property Customer.t :=
  if Js.truthy (QuotationState.selectedCustomerId state)
  then Js.get (CustomersData.customers customersData)
              (default "" (QuotationState.selectedCustomerId state))
  else Js.Undefined.

(** [selectedCustomer] when it is a customer. *)
Definition selectedCustomer (customersData : CustomersData.t)
           (state : QuotationState.t) : option Customer.t :=
  match customerProperty customersData state with
  | Js.Own customer => Some customer
  | Js.Inherited => None
  | Js.Undefined => None
  end.

(** The parameters [handleSaveQuotation] builds for [saveQuotation]. *)
Definition saveParams (customer : Customer.t) (state : QuotationState.t)
  : SaveQuotationParams.t :=
  let parts := QuotationState.parts state in
  let totalBasePrice :=
    fold_left (fun sum part => (sum + QuotationPart.totalPrice part)%Q) parts 0%Q in
  let totalServiceCharges :=
    fold_left (fun sum charge => (sum + ServiceCharge.amount charge)%Q)
              (QuotationState.serviceCharges state) 0%Q in
  let combinedBasePrice := (totalBasePrice + totalServiceCharges)%Q in
  let discountAmount :=
    (totalBasePrice * UseOrders.orZero (QuotationState.discount state) / 100)%Q in
  let discountedPrice := (combinedBasePrice - discountAmount)%Q in
  let gstCalculation := calculateGST discountedPrice customer in
  let finalPrice := (discountedPrice + total gstCalculation)%Q in
  SaveQuotationParams.mk
    (default "" (QuotationState.selectedCustomerId state))
    (Customer.company_name customer)
    (List.map toSavedPart parts)
    combinedBasePrice
    (UseOrders.orZero (QuotationState.discount state))
    (total gstCalculation) finalPrice (type gstCalculation)
    (Js.or_else (QuotationState.notes state) "")
    (Some (Js.or_else (QuotationState.paymentTerms state)
                      (Customer.payment_terms customer)))
    (Some (Js.or_else (QuotationState.leadTime state) "3-5 days"))
    (Some (default shipping (QuotationState.shippingAddressType state)))
    (QuotationState.serviceCharges state) totalServiceCharges
    (QuotationState.editingQuotationId state).

(** [handleSaveQuotation] of [QuotationPage]: the quotation store and the
    draft after it, and the id returned.  When it raises, neither cell has
    been written.  A selected customer that is an inherited name passes the
    guard; [calculateGST] raises on it and the [catch] raises again. *)
Definition handleSaveQuotation (customersData : CustomersData.t)
           (quotationsData : SavedQuotationsData.t) (state : QuotationState.t)
           (now : DateNow.t) (freshId : string)
  : Js.Completion (SavedQuotationsData.t * QuotationState.t * string) :=
  match customerProperty customersData state with
  | Js.Undefined => Js.Throw (Js.ErrorMsg "Missing customer or parts")
  | Js.Inherited =>
      match QuotationState.parts state with
      | [] => Js.Throw (Js.ErrorMsg "Missing customer or parts")
      | _ :: _ => Js.Throw Js.TypeError
      end
  | Js.Own customer =>
      match QuotationState.parts state with
      | [] => Js.Throw (Js.ErrorMsg "Missing customer or parts")
      | _ :: _ =>
          Js.bind (saveQuotation quotationsData now freshId
                                 (saveParams customer state))
            (fun saved =>
               Js.Normal (fst saved, UseQuotationState.clearQuotationState now,
                          snd saved))
      end
  end.

(** [handleEditQuotation] of [SavedQuotationsPage]: the draft it leaves.  It
    calls [clearQuotationState], then [loadQuotationForEditing], which sets
    every field of the draft. *)
Definition handleEditQuotation (quotation : SavedQuotation.t) (now : DateNow.t)
  : QuotationState.t :=
  let cleared := UseQuotationState.clearQuotationState now in
  UseQuotationState.loadQuotationForEditing quotation now.

End SaveFlow.

(* ===================================================================== *)
(** ** Order status, invoice deletion and migration                     *)
(* ===================================================================== *)

Module OrdersPage.

(** The status buttons [OrdersPage] renders for an order: "Produced" on a
    New order, "Dispatch" on a Produced one, "Cancel Order" on both. *)
Definition orderButtons (status : OrderStatus) : list OrderStatus :=
  (match status with New => [Produced] | _ => [] end)
  ++ (match status with Produced => [Dispatched] | _ => [] end)
  ++ (match status with New | Produced => [OCancelled] | _ => [] end).

(** A chain of clicks on the order buttons, each offered by the status the
    previous click left. *)
Inductive orderPath : OrderStatus -> list OrderStatus -> Prop :=
| orderPath_nil (s : OrderStatus) : orderPath s []
| orderPath_cons (s s' : OrderStatus) (rest : list OrderStatus) :
    s' ∈ orderButtons s -> orderPath s' rest -> orderPath s (s' :: rest).

End OrdersPage.

Module Migration.

(** An invoice as an older version of the application stored it: the ledger
    and service-charge fields may be missing. *)
Module RawInvoice.
Record t : Type := mk {
  base : SavedInvoice.t;
  payments : option (list Payment.t);
  totalPaid : option Q;
  remainingAmount : option Q;
  serviceCharges : option (list ServiceCharge.t);
  totalServiceCharges : option Q
}.
End RawInvoice.

(** The callback of the loop of [migrateInvoicesData]; the fields of [base]
    other than the five optional ones are the fields the spread copies. *)
Definition migrateInvoice (raw : RawInvoice.t) : SavedInvoice.t :=
  let typedInvoice := RawInvoice.base raw in
  SavedInvoice.mk
    (SavedInvoice.id typedInvoice) (SavedInvoice.invoiceNumber typedInvoice)
    (SavedInvoice.quotationId typedInvoice)
    (SavedInvoice.quotationNumber typedInvoice)
    (SavedInvoice.customerId typedInvoice) (SavedInvoice.customerName typedInvoice)
    (SavedInvoice.parts typedInvoice) (SavedInvoice.totalBasePrice typedInvoice)
    (SavedInvoice.discount typedInvoice) (SavedInvoice.totalGST typedInvoice)
    (SavedInvoice.finalPrice typedInvoice) (SavedInvoice.status typedInvoice)
    (SavedInvoice.createdAt typedInvoice) (SavedInvoice.updatedAt typedInvoice)
    (SavedInvoice.dueDate typedInvoice) (SavedInvoice.notes typedInvoice)
    (SavedInvoice.gstType typedInvoice)
    (SavedInvoice.shippingAddressType typedInvoice)
    (default [] (RawInvoice.payments raw))
    (UseOrders.orZero (default 0%Q (RawInvoice.totalPaid raw)))
    (default (SavedInvoice.finalPrice typedInvoice) (RawInvoice.remainingAmount raw))
    (default [] (RawInvoice.serviceCharges raw))
    (UseOrders.orZero (default 0%Q (RawInvoice.totalServiceCharges raw))).

(** A stored invoice read back as raw data: every field present. *)
Definition toRaw (invoice : SavedInvoice.t) : RawInvoice.t :=
  RawInvoice.mk invoice
    (Some (SavedInvoice.payments invoice))
    (Some (SavedInvoice.totalPaid invoice))
    (Some (SavedInvoice.remainingAmount invoice))
    (Some (SavedInvoice.serviceCharges invoice))
    (Some (SavedInvoice.totalServiceCharges invoice)).

(** An invoice stored before payments and service charges existed. *)
Definition legacy (raw : RawInvoice.t) : Prop :=
  RawInvoice.payments raw = None /\ RawInvoice.totalPaid raw = None /\
  RawInvoice.remainingAmount raw = None.

(** [migrateInvoicesData]: [invoices], [last_updated] and
    [next_invoice_number] may each be missing from the parsed data. *)
Definition migrateInvoicesData (now : DateNow.t)
           (invoices : option (gmap string RawInvoice.t))
           (last_updated : option Z) (next_invoice_number : option string)
  : SavedInvoicesData.t :=
  SavedInvoicesData.mk
    (migrateInvoice <$> default ∅ invoices)
    (default (DateNow.getTime now) last_updated)
    (Js.or_else next_invoice_number "INV0001").

End Migration.

(* ===================================================================== *)
(** ** More operation sequences                                          *)
(* ===================================================================== *)

(** The working part list driven by the handlers of the quotation page. *)
Module Workspace.
Import QuotationPage.

Record t : Type := mk {
  selectedCustomerId : option string;
  parts : list QuotationPart.t
}.

Inductive Op : Type :=
| DeletePart (partId : string)
| DeleteAllParts
| ToggleSelect (partId : string)
| ToggleSelectAll
| CustomerChange (customerId : string)
| FilesSelected (files : list (File.t * string))
| ManualPart (partId : string) (formData : ManualPartForm.FormData.t)
| CardTechnology (card : nat) (techId : string)
| CardMaterial (card : nat) (materialId : string)
| CardQuantity (card : nat) (quantity : Q)
| BulkApply (bulkTechnology bulkMaterial : string) (bulkQuantity : option Q).

Section Handlers.
Variable technologiesData : TechnologiesData.t.
Variable customersData : CustomersData.t.
Variable parseFile : File.t -> option Geometry.t.

(** What [selectedCustomer] of [QuotationPage] reads. *)
Definition customerProperty (w : t) : Js.Property Customer.t :=
  if Js.truthy (selectedCustomerId w)
  then Js.get (CustomersData.customers customersData)
              (default "" (selectedCustomerId w))
  else Js.Undefined.

Definition keepCustomer (w : t) (parts' : option (list QuotationPart.t))
  : option t :=
  match parts' with
  | Some l => Some (mk (selectedCustomerId w) l)
  | None => None
  end.

(** A handler of the card rendered for the part at position [card]. *)
Definition onCard (w : t) (card : nat)
           (handler : QuotationPart.t -> Js.Completion (list QuotationPart.t))
  : option (list QuotationPart.t) :=
  match parts w !! card with
  | Some part => partsAfter (parts w) (handler part)
  | None => Some (parts w)
  end.

(** One operation with the customer the handlers are given. *)
Definition stepWith (customer : option Customer.t) (w : t) (op : Op)
  : option t :=
  match op with
  | DeletePart partId =>
      Some (mk (selectedCustomerId w)
               (WorkingList.handleDeletePart (parts w) partId))
  | DeleteAllParts =>
      Some (mk (selectedCustomerId w) WorkingList.handleDeleteAllParts)
  | ToggleSelect partId =>
      Some (mk (selectedCustomerId w)
               (WorkingList.handleToggleSelect (parts w) partId))
  | ToggleSelectAll =>
      Some (mk (selectedCustomerId w)
               (WorkingList.handleToggleSelectAll (parts w)))
  | CustomerChange customerId =>
      match WorkingList.handleCustomerChange customersData (parts w)
                                             customerId with
      | Js.Normal l => Some (mk (Some customerId) l)
      | Js.Throw _ => None
      | Js.IllTyped => None
      end
  | FilesSelected files =>
      Some (mk (selectedCustomerId w)
               (WorkingList.handleFilesSelected parseFile (parts w) files))
  | ManualPart partId formData =>
      keepCustomer w
        (partsAfter (parts w)
           (ManualPartForm.submit technologiesData customer (parts w)
                                  partId formData))
  | CardTechnology card techId =>
      keepCustomer w
        (onCard w card (fun part =>
           PartCard.handleTechnologyChange technologiesData customer (parts w)
                                           part techId))
  | CardMaterial card materialId =>
      keepCustomer w
        (onCard w card (fun part =>
           PartCard.handleMaterialChange technologiesData customer (parts w)
                                         part materialId))
  | CardQuantity card quantity =>
      keepCustomer w
        (onCard w card (fun part =>
           PartCard.handleQuantityChange technologiesData customer (parts w)
                                         part quantity))
  | BulkApply bulkTechnology bulkMaterial bulkQuantity =>
      keepCustomer w
        (partsAfter (parts w)
           (BulkActions.handleApplyBulkChanges technologiesData customer
              (parts w) bulkTechnology bulkMaterial bulkQuantity))
  end.

(** One operation of the page.  A handler that raises before [updateParts]
    leaves the list as it was.  The model has no next state when a handler
    leaves the declared types, when the selected customer is an inherited
    name (the handlers are then given a value that is no customer), and when
    [handleCustomerChange] raises after it has asked for the new customer id
    to be stored. *)
Definition step (w : t) (op : Op) : option t :=
  match customerProperty w with
  | Js.Own customer => stepWith (Some customer) w op
  | Js.Undefined => stepWith None w op
  | Js.Inherited => None
  end.

Fixpoint run (w : t) (ops : list Op) : option t :=
  match ops with
  | [] => Some w
  | op :: rest =>
      match step w op with
      | Some w' => run w' rest
      | None => None
      end
  end.

(** Every file of an upload is one the parser accepts. *)
Definition allParsed (op : Op) : Prop :=
  match op with
  | FilesSelected files => Forall (fun f => is_Some (parseFile (fst f))) files
  | _ => True
  end.
End Handlers.

(** A name that is none of the names every object inherits ([undefined]
    and the empty string included). *)
Definition plainName (name : option string) : Prop :=
  Js.inherited (default "" name) = false.

(** The customer id and the materials an operation carries are such
    names. *)
Definition plainNames (op : Op) : Prop :=
  match op with
  | CustomerChange customerId => plainName (Some customerId)
  | ManualPart _ formData =>
      plainName (Some (ManualPartForm.FormData.material formData))
  | CardMaterial _ materialId => plainName (Some materialId)
  | BulkApply _ bulkMaterial _ => plainName (Some bulkMaterial)
  | _ => True
  end.

(** The selected customer id and the material of every listed part are such
    names. *)
Definition plain (w : t) : Prop :=
  plainName (selectedCustomerId w) /\
  Forall (fun part => plainName (QuotationPart.material part)) (parts w).

End Workspace.

(** The pricing block of a part agrees with itself. *)
Definition coherent (p : QuotationPart.t) : Prop :=
  (QuotationPart.totalPrice p
   == QuotationPart.unitPrice p * QuotationPart.quantity p)%Q /\
  (QuotationPart.finalPrice p
   == QuotationPart.totalPrice p + QuotationPart.gstAmount p)%Q.

(* ===================================================================== *)
(** ** More sample data                                                  *)
(* ===================================================================== *)

Module Fixtures.
Import Samples.

Definition customers : CustomersData.t :=
  CustomersData.mk {[ "CUST001" := mockKarnatakaCustomer;
                      "CUST002" := mockOutOfStateCustomer ]}
                   1736942400000 "CUST003".

(** A parser that reads [.stl] files only. *)
Definition parseFile (file : File.t) : option Geometry.t :=
  if String.eqb (WorkingList.fileTypeOf (File.name file)) "stl"
  then Some (Geometry.mk 2 None) else None.

Definition bracketFile : File.t := File.mk "bracket.STL" "model/stl".
Definition notesFile : File.t := File.mk "notes.txt" "text/plain".

Definition plateForm : ManualPartForm.FormData.t :=
  ManualPartForm.FormData.mk "Base plate" (Some 10%Q) 2 "FDM" "ABS" "".

Definition emptyWorkspace : Workspace.t := Workspace.mk None [].

(** A customer is chosen, a file is uploaded, a part is entered by hand,
    the uploaded part gets a process and a material, and is deleted. *)
Definition workspaceOps : list Workspace.Op :=
  [Workspace.CustomerChange "CUST001";
   Workspace.FilesSelected [(bracketFile, "part_a")];
   Workspace.ManualPart "part_b" plateForm;
   Workspace.CardTechnology 0 "FDM";
   Workspace.CardMaterial 0 "PLA";
   Workspace.CardQuantity 1 3;
   Workspace.ToggleSelectAll;
   Workspace.BulkApply "SLA" "RESIN" (Some 4%Q);
   Workspace.DeletePart "part_a"].

(** A draft for [CUST001] with two priced parts, one service charge and a
    discount of 10 %. *)
Definition draft : QuotationState.t :=
  QuotationState.mk (Some "CUST001") [bracket; lid] 10 1736942400000 None
                    (Some "") None None (Some shipping) [polishing].

(** The same draft with the parts removed. *)
Definition chargesOnly : QuotationState.t :=
  QuotationState.mk (Some "CUST001") [] 10 1736942400000 None
                    (Some "") None None (Some shipping) [polishing].

Definition quotations0 : SavedQuotationsData.t :=
  UseSavedQuotations.createEmptyQuotationsData noon.

Definition quotations1 : SavedQuotationsData.t :=
  SavedQuotationsData.mk {[ "q1" := quotation1 ]} 1736942400000 "QT0002".

(** The order store holding the order made for [invoice1]. *)
Definition orders1 : OrdersData.t :=
  fst (UseOrders.createOrder (UseOrders.createEmptyOrdersData noon) noon
                             "order_a" invoice1).

(** [Object.values] of an order collection. *)
Definition valuesOf (orders : OrdersData.t) : list Order.t :=
  (map_to_list (OrdersData.orders orders)).*2.

(** The stores once [quotation1] has been promoted. *)
Definition promoted : UseSavedInvoices.Stores :=
  match UseSavedInvoices.createInvoiceFromQuotation stores1 noon "inv_a"
          "order_a" quotation1 (UseSavedQuotations.deleteQuotation noon) with
  | Js.Normal (stores, _) => stores
  | Js.Throw _ => stores1
  | Js.IllTyped => stores1
  end.

(** The quotation store after [draft] has been saved under the id
    [quot_a]. *)
Definition savedDraft : SavedQuotationsData.t :=
  match SaveFlow.handleSaveQuotation customers quotations0 draft noon "quot_a" with
  | Js.Normal (quotationsData, _, _) => quotationsData
  | Js.Throw _ => quotations0
  | Js.IllTyped => quotations0
  end.

End Fixtures.

(* ===================================================================== *)
(** * Properties                                                         *)
(* ===================================================================== *)

(** ** TaxEngine *)

Section TaxEngine.
Import GstCalculator.

Lemma home_jurisdiction_lower :
    Js.toLowerCase (CompanyInfo.address_state COMPANY_INFO) = "karnataka".
Proof. reflexivity. Qed.

Lemma isIntrastate_iff (customer : Customer.t) :
    String.eqb (Js.toLowerCase (Address.state (Customer.shipping_address customer)))
               "karnataka" = true
    <-> same_jurisdiction (Address.state (Customer.shipping_address customer))
                          (CompanyInfo.address_state COMPANY_INFO).
Proof.
    unfold same_jurisdiction. rewrite home_jurisdiction_lower.
    apply String.eqb_eq.
Qed.

(** C1.  For an amount [a >= 0] and any customer, [calculateGST] returns:
      when the shipping state equals the seller's home state up to case, the
      type INTRASTATE with cgst = sgst = a * 0.09 and igst = 0; otherwise the
      type INTERSTATE with igst = a * 0.18 and cgst = sgst = 0; and in both
      cases a total equal to a * 0.18. *)
Theorem calculateGST_split (a : Q) (customer : Customer.t) :
    (0 <= a)%Q ->
    let g := calculateGST a customer in
    let shipTo := Address.state (Customer.shipping_address customer) in
    let home := CompanyInfo.address_state COMPANY_INFO in
    (same_jurisdiction shipTo home ->
       type g = INTRASTATE /\
       (cgst g == a * (9 # 100))%Q /\ (sgst g == a * (9 # 100))%Q /\
       (igst g == 0)%Q) /\
    (~ same_jurisdiction shipTo home ->
       type g = INTERSTATE /\
       (igst g == a * (18 # 100))%Q /\ (cgst g == 0)%Q /\ (sgst g == 0)%Q) /\
    (total g == a * (18 # 100))%Q.
Proof.
    intros _ g shipTo home. subst g shipTo home.
    pose proof (isIntrastate_iff customer) as Hiff.
    unfold calculateGST.
    destruct (String.eqb _ "karnataka") eqn:E; cbn [type cgst sgst igst total].
    - split; [| split].
      + intros _. repeat split; reflexivity.
      + intros Hn. exfalso. apply Hn, Hiff. reflexivity.
      + unfold Qeq; cbn; lia.
    - split; [| split].
      + intros Hs. apply Hiff in Hs. discriminate.
      + intros _. unfold GST_RATE. repeat split; reflexivity.
      + unfold GST_RATE. reflexivity.
Qed.

Lemma calculateGST_split_witness :
    let g := calculateGST 1000 Samples.mockKarnatakaCustomer in
    (same_jurisdiction "Karnataka" "Karnataka" ->
       type g = INTRASTATE /\
       (cgst g == 1000 * (9 # 100))%Q /\ (sgst g == 1000 * (9 # 100))%Q /\
       (igst g == 0)%Q) /\
    (~ same_jurisdiction "Karnataka" "Karnataka" ->
       type g = INTERSTATE /\
       (igst g == 1000 * (18 # 100))%Q /\ (cgst g == 0)%Q /\ (sgst g == 0)%Q) /\
    (total g == 1000 * (18 # 100))%Q.
Proof.
    apply (calculateGST_split 1000 Samples.mockKarnatakaCustomer).
    unfold Qle; simpl; lia.
Defined.

(** The two scenarios of the test suite. *)
Example calculateGST_karnataka_1000 :
    let g := calculateGST 1000 Samples.mockKarnatakaCustomer in
    type g = INTRASTATE /\ (cgst g == 90)%Q /\ (sgst g == 90)%Q /\
    (igst g == 0)%Q /\ (total g == 180)%Q.
Proof. repeat split. Qed.

Example calculateGST_maharashtra_1000 :
    let g := calculateGST 1000 Samples.mockOutOfStateCustomer in
    type g = INTERSTATE /\ (cgst g == 0)%Q /\ (sgst g == 0)%Q /\
    (igst g == 180)%Q /\ (total g == 180)%Q.
Proof. repeat split. Qed.

End TaxEngine.

(** ** Property reads *)

Section PropertyReads.

Lemma get_Own {A : Type} (obj : gmap string A) (key : string) (a : A) :
    obj !! key = Some a -> Js.get obj key = Js.Own a.
Proof. intros H. unfold Js.get. rewrite H. reflexivity. Qed.

Lemma get_Own_inv {A : Type} (obj : gmap string A) (key : string) (a : A) :
    Js.get obj key = Js.Own a -> obj !! key = Some a.
Proof.
    unfold Js.get. destruct (obj !! key) as [b |].
    - intros H. inversion H. reflexivity.
    - destruct (Js.inherited key); discriminate.
Qed.

Lemma get_Undefined {A : Type} (obj : gmap string A) (key : string) :
    obj !! key = None -> Js.inherited key = false ->
    Js.get obj key = Js.Undefined.
Proof. intros H Hi. unfold Js.get. rewrite H, Hi. reflexivity. Qed.

Lemma get_Inherited {A : Type} (obj : gmap string A) (key : string) :
    obj !! key = None -> Js.inherited key = true ->
    Js.get obj key = Js.Inherited.
Proof. intros H Hi. unfold Js.get. rewrite H, Hi. reflexivity. Qed.

Lemma get_Undefined_inv {A : Type} (obj : gmap string A) (key : string) :
    Js.get obj key = Js.Undefined ->
    obj !! key = None /\ Js.inherited key = false.
Proof.
    unfold Js.get. destruct (obj !! key) as [b |]; [discriminate |].
    destruct (Js.inherited key); [discriminate | auto].
Qed.

Lemma get_Inherited_inv {A : Type} (obj : gmap string A) (key : string) :
    Js.get obj key = Js.Inherited ->
    obj !! key = None /\ Js.inherited key = true.
Proof.
    unfold Js.get. destruct (obj !! key) as [b |]; [discriminate |].
    destruct (Js.inherited key); [auto | discriminate].
Qed.

End PropertyReads.

(** ** PaymentLedger *)

Section PaymentLedger.
Import UseSavedInvoices Ledger.

Lemma autoStatus_paid_iff (invoice : SavedInvoice.t) (nowMs : Z) (r : Q) :
    autoStatus invoice nowMs r = Paid <-> (r <= 0)%Q.
Proof.
    unfold autoStatus. destruct (Qle_bool r 0) eqn:E.
    - apply Qle_bool_iff in E. tauto.
    - assert (~ (r <= 0)%Q) as Hn.
      { intros H. apply Qle_bool_iff in H. congruence. }
      split; [| tauto]. intros H. exfalso.
      destruct (SavedInvoice.status invoice) eqn:S;
        try discriminate; try congruence.
      destruct (SavedInvoice.dueDate invoice <? nowMs)%Z; discriminate.
Qed.

(** The [reduce] of the source, started from any value, adds the sum of the
      amounts to it. *)
Lemma reduce_from (payments : list Payment.t) (a : Q) :
    (fold_left (fun sum p => sum + Payment.amount p) payments a
     == a + sum_of_amounts payments)%Q.
Proof.
    revert a. induction payments as [| p ps IH]; intros a; cbn [fold_left sum_of_amounts].
    - ring.
    - rewrite IH. ring.
Qed.

Lemma sumAmounts_sum (payments : list Payment.t) :
    (sumAmounts payments == sum_of_amounts payments)%Q.
Proof. unfold sumAmounts. rewrite reduce_from. ring. Qed.

(** Whatever the invoice and the payment list, the recomputed ledger is
      consistent. *)
Lemma settle_consistent (invoice : SavedInvoice.t) (now : DateNow.t)
        (payments : list Payment.t) :
    consistent (settle invoice now payments).
Proof.
    unfold consistent, settle, withLedger; cbn.
    split; [apply sumAmounts_sum | split; [reflexivity |]].
    apply autoStatus_paid_iff.
Qed.

Lemma settle_finalPrice (invoice : SavedInvoice.t) (now : DateNow.t)
        (payments : list Payment.t) :
    SavedInvoice.finalPrice (settle invoice now payments)
    = SavedInvoice.finalPrice invoice.
Proof. reflexivity. Qed.

Lemma settle_payments (invoice : SavedInvoice.t) (now : DateNow.t)
        (payments : list Payment.t) :
    SavedInvoice.payments (settle invoice now payments) = payments.
Proof. reflexivity. Qed.

(** One ledger call on a stored invoice completes and stores the invoice
      recomputed from the payment list the call asks for. *)
Lemma call_stored (invoiceId : string) (data : SavedInvoicesData.t)
        (invoice : SavedInvoice.t) (op : Op) :
    SavedInvoicesData.invoices data !! invoiceId = Some invoice ->
    exists now,
      call invoiceId data op
      = Js.Normal
          (putInvoice data now invoiceId
             (settle invoice now
                (payments_after [op] (SavedInvoice.payments invoice)))).
Proof.
    intros Hin. destruct op as [now pid p | now pid]; cbn;
      [unfold addPayment | unfold removePayment];
      rewrite (get_Own _ _ _ Hin); exists now; reflexivity.
Qed.

Lemma step_stored (invoiceId : string) (data : SavedInvoicesData.t)
        (invoice : SavedInvoice.t) (op : Op) :
    SavedInvoicesData.invoices data !! invoiceId = Some invoice ->
    exists now,
      SavedInvoicesData.invoices (step invoiceId data op) !! invoiceId
      = Some (settle invoice now
                (payments_after [op] (SavedInvoice.payments invoice))).
Proof.
    intros Hin. destruct (call_stored invoiceId data invoice op Hin) as [now Hc].
    exists now. unfold step. rewrite Hc. apply lookup_insert_eq.
Qed.

Lemma payments_after_cons (op : Op) (ops : list Op) (payments : list Payment.t) :
    payments_after (op :: ops) payments
    = payments_after ops (payments_after [op] payments).
Proof. destruct op; reflexivity. Qed.

Lemma run_preserves (invoiceId : string) (ops : list Op) :
    forall (data : SavedInvoicesData.t) (invoice : SavedInvoice.t),
      SavedInvoicesData.invoices data !! invoiceId = Some invoice ->
      consistent invoice ->
      exists invoice',
        SavedInvoicesData.invoices (run invoiceId ops data) !! invoiceId
        = Some invoice' /\
        consistent invoice' /\
        SavedInvoice.payments invoice'
        = payments_after ops (SavedInvoice.payments invoice) /\
        SavedInvoice.finalPrice invoice' = SavedInvoice.finalPrice invoice.
Proof.
    induction ops as [| op ops IH]; intros data invoice Hin Hok.
    - exists invoice. repeat split; try assumption; apply Hok.
    - destruct (step_stored invoiceId data invoice op Hin) as (now & Hs).
      destruct (IH _ _ Hs (settle_consistent invoice now _))
        as (invoice' & Hl & Hc & Hp & Hf).
      exists invoice'. split; [exact Hl |]. split; [exact Hc |].
      split; [| exact Hf].
      rewrite Hp, settle_payments, (payments_after_cons op ops). reflexivity.
Qed.

(** C2, as stated, fails on the empty sequence: the ledger functions are
      what establishes the three equations, and a stored invoice need not
      satisfy them before the first call.  [updateInvoiceStatus] marks the
      stored invoice [inv1] as Paid while 180.00 remain due; with no ledger
      operation applied, the invoice is Paid with a positive
      remainingAmount. *)
Lemma ledger_unsettled_before_first_call :
    exists data invoice,
      updateInvoiceStatus Samples.invoices1 Samples.noon "inv1" Paid
      = Js.Normal data /\
      SavedInvoicesData.invoices (run "inv1" [] data) !! "inv1" = Some invoice /\
      SavedInvoice.status invoice = Paid /\
      ~ (SavedInvoice.remainingAmount invoice <= 0)%Q /\
      ~ (SavedInvoice.status invoice = Paid <->
         (SavedInvoice.remainingAmount invoice <= 0)%Q).
Proof.
    eexists _, _. split; [reflexivity |]. split; [reflexivity |].
    split; [reflexivity |].
    assert (~ (180 <= 0)%Q) as Hn by (intros H; vm_compute in H; auto).
    split; [exact Hn |]. intros [H _]. apply Hn, H. reflexivity.
Qed.

(** C2, amended.  For an invoice present in the store and a non-empty
      sequence of [addPayment] and [removePayment] calls applied to it, the
      invoice is still stored afterwards, with its finalPrice unchanged; its
      payment list is the one the calls describe (each added payment put at
      the end, each removal taking out the payments with the id given); its
      totalPaid is the sum of the amounts of that list, its remainingAmount
      is finalPrice minus totalPaid, and its status is Paid exactly when
      remainingAmount <= 0. *)
Theorem ledger_consistent_after (invoiceId : string) (ops : list Op)
          (data : SavedInvoicesData.t) (invoice : SavedInvoice.t) :
    SavedInvoicesData.invoices data !! invoiceId = Some invoice ->
    ops <> [] ->
    exists invoice',
      SavedInvoicesData.invoices (run invoiceId ops data) !! invoiceId
      = Some invoice' /\
      SavedInvoice.finalPrice invoice' = SavedInvoice.finalPrice invoice /\
      SavedInvoice.payments invoice'
      = payments_after ops (SavedInvoice.payments invoice) /\
      (SavedInvoice.totalPaid invoice'
       == sum_of_amounts (SavedInvoice.payments invoice'))%Q /\
      (SavedInvoice.remainingAmount invoice'
       == SavedInvoice.finalPrice invoice' - SavedInvoice.totalPaid invoice')%Q /\
      (SavedInvoice.status invoice' = Paid <->
       (SavedInvoice.remainingAmount invoice' <= 0)%Q).
Proof.
    intros Hin Hne. destruct ops as [| op ops]; [congruence |].
    destruct (step_stored invoiceId data invoice op Hin) as (now & Hs).
    destruct (run_preserves invoiceId ops _ _ Hs (settle_consistent invoice now _))
      as (invoice' & Hl & (Ht & Hr & Hst) & Hp & Hf).
    exists invoice'. split; [exact Hl |]. split; [exact Hf |].
    split; [| split; [exact Ht | split; [exact Hr | exact Hst]]].
    rewrite Hp, settle_payments, (payments_after_cons op ops). reflexivity.
Qed.

Lemma ledger_consistent_after_witness :
    exists invoice',
      SavedInvoicesData.invoices (run "inv1" Samples.scenarioOps Samples.invoices1) !! "inv1"
      = Some invoice' /\
      SavedInvoice.finalPrice invoice' = SavedInvoice.finalPrice Samples.invoice1 /\
      SavedInvoice.payments invoice'
      = payments_after Samples.scenarioOps (SavedInvoice.payments Samples.invoice1) /\
      (SavedInvoice.totalPaid invoice'
       == sum_of_amounts (SavedInvoice.payments invoice'))%Q /\
      (SavedInvoice.remainingAmount invoice'
       == SavedInvoice.finalPrice invoice' - SavedInvoice.totalPaid invoice')%Q /\
      (SavedInvoice.status invoice' = Paid <->
       (SavedInvoice.remainingAmount invoice' <= 0)%Q).
Proof.
    apply (ledger_consistent_after "inv1" Samples.scenarioOps Samples.invoices1
                                   Samples.invoice1).
    - reflexivity.
    - discriminate.
Defined.

Example ledger_scenario :
    let after k := run "inv1" (take k Samples.scenarioOps) Samples.invoices1 in
    let inv k := SavedInvoicesData.invoices (after k) !! "inv1" in
    (SavedInvoice.remainingAmount <$> inv 1%nat) = Some (180 - (0 + 100))%Q /\
    (SavedInvoice.status <$> inv 1%nat) = Some Sent /\
    (SavedInvoice.status <$> inv 2%nat) = Some Paid /\
    (SavedInvoice.status <$> inv 3%nat) = Some Sent /\
    (List.length <$> (SavedInvoice.payments <$> inv 3%nat)) = Some 1%nat.
Proof. vm_compute. repeat split. Qed.

(** C10.  What [addPayment] and [removePayment] do for an invoice id that is
      not a key of the store.  When the id is not a name every object
      inherits, both return with the store as it was and raise nothing.  When
      it is one ([constructor], [toString], ...), [invoices[invoiceId]] is a
      member of [Object.prototype], the guard [if (!invoice) return] lets it
      pass, and both raise a TypeError on its missing [payments]; the store
      is not written. *)
Theorem ledger_absent_invoice (data : SavedInvoicesData.t)
          (invoiceId : string) :
    SavedInvoicesData.invoices data !! invoiceId = None ->
    (Js.inherited invoiceId = false ->
     (forall now paymentId payment,
         addPayment data now paymentId invoiceId payment = Js.Normal data) /\
     (forall now paymentId,
         removePayment data now invoiceId paymentId = Js.Normal data)) /\
    (Js.inherited invoiceId = true ->
     (forall now paymentId payment,
         addPayment data now paymentId invoiceId payment
         = Js.Throw Js.TypeError) /\
     (forall now paymentId,
         removePayment data now invoiceId paymentId = Js.Throw Js.TypeError)).
Proof.
    intros Hnone. split; intros Hi; split; intros;
      [unfold addPayment | unfold removePayment
       | unfold addPayment | unfold removePayment];
      first [rewrite (get_Undefined _ _ Hnone Hi)
            | rewrite (get_Inherited _ _ Hnone Hi)]; reflexivity.
Qed.

Lemma ledger_absent_invoice_witness :
    SavedInvoicesData.invoices Samples.invoices1 !! "constructor" = None /\
    (forall now paymentId payment,
        addPayment Samples.invoices1 now paymentId "constructor" payment
        = Js.Throw Js.TypeError) /\
    (forall now paymentId,
        removePayment Samples.invoices1 now "constructor" paymentId
        = Js.Throw Js.TypeError).
Proof.
    split; [reflexivity |].
    apply (ledger_absent_invoice Samples.invoices1 "constructor");
      reflexivity.
Defined.

Example ledger_unknown_id_noop :
    addPayment Samples.invoices1 Samples.noon "pay1" "inv404" (Samples.pay 100)
    = Js.Normal Samples.invoices1 /\
    removePayment Samples.invoices1 Samples.noon "inv404" "pay1"
    = Js.Normal Samples.invoices1.
Proof. split; reflexivity. Qed.

End PaymentLedger.

(** ** Payment validation *)

Section PaymentValidation.
Import UseSavedInvoices PaymentModal InvoicesPage.

(** [addPayment] appends whatever amount it is given. *)
Lemma addPayment_appends (data : SavedInvoicesData.t) (now : DateNow.t)
      (paymentId invoiceId : string) (payment : PaymentInput.t)
      (invoice : SavedInvoice.t) :
  SavedInvoicesData.invoices data !! invoiceId = Some invoice ->
  exists data' invoice',
    addPayment data now paymentId invoiceId payment = Js.Normal data' /\
    SavedInvoicesData.invoices data' !! invoiceId = Some invoice' /\
    SavedInvoice.payments invoice'
    = (SavedInvoice.payments invoice
       ++ [Payment.mk paymentId (PaymentInput.amount payment)
             (PaymentInput.paymentDate payment)
             (PaymentInput.paymentMethod payment)
             (PaymentInput.referenceNumber payment)
             (PaymentInput.notes payment) (DateNow.getTime now)])%list.
Proof.
  intros Hin. unfold addPayment. rewrite (get_Own _ _ _ Hin).
  eexists _, _. split; [reflexivity |].
  split; [apply lookup_insert_eq | reflexivity].
Qed.

(** C3, as stated, fails: [addPayment] itself checks nothing.  On the stored
    invoice [inv1] (180.00 remaining) a payment of 500.00, and likewise one
    of -50.00, is appended and the invoice is rewritten. *)
Lemma addPayment_unvalidated :
  exists over neg,
    addPayment Samples.invoices1 Samples.noon "pay1" "inv1" (Samples.pay 500)
    = Js.Normal over /\
    addPayment Samples.invoices1 Samples.noon "pay1" "inv1" (Samples.pay (-50))
    = Js.Normal neg /\
    SavedInvoicesData.invoices Samples.invoices1 !! "inv1" = Some Samples.invoice1 /\
    ~ (500 <= SavedInvoice.remainingAmount Samples.invoice1)%Q /\
    ~ (0 < -50)%Q /\
    (List.map Payment.amount <$>
       (SavedInvoice.payments <$> SavedInvoicesData.invoices over !! "inv1"))
    = Some [500%Q] /\
    (List.map Payment.amount <$>
       (SavedInvoice.payments <$> SavedInvoicesData.invoices neg !! "inv1"))
    = Some [(-50)%Q] /\
    over <> Samples.invoices1 /\ neg <> Samples.invoices1.
Proof.
  eexists _, _. split; [reflexivity |]. split; [reflexivity |].
  split; [reflexivity |]. split; [intros H; vm_compute in H; auto |].
  split; [intros H; vm_compute in H; discriminate |].
  split; [vm_compute; reflexivity |]. split; [vm_compute; reflexivity |].
  split; intros H;
    apply (f_equal (fun d => SavedInvoice.payments <$>
                               SavedInvoicesData.invoices d !! "inv1")) in H;
    vm_compute in H; discriminate.
Qed.

Lemma validateForm_true_iff (remainingAmount : Q) (formData : FormData.t) :
  validateForm remainingAmount formData = true <->
  (exists amount, FormData.amount formData = Some amount /\
                  (0 < amount)%Q /\ (amount <= remainingAmount)%Q) /\
  FormData.paymentDate formData <> "".
Proof.
  unfold validateForm, amountError.
  rewrite andb_true_iff, !negb_true_iff, String.eqb_neq.
  destruct (FormData.amount formData) as [amount |].
  - destruct (Qle_bool amount 0) eqn:E0.
    + apply Qle_bool_iff in E0. split.
      * intros [H _]. discriminate.
      * intros [(a & Ha & Hpos & _) _]. inversion Ha; subst a.
        exfalso. apply (Qlt_not_le _ _ Hpos), E0.
    + assert (0 < amount)%Q as Hpos.
      { apply Qnot_le_lt. intros H. apply Qle_bool_iff in H. congruence. }
      rewrite negb_false_iff, Qle_bool_iff. split.
      * intros [H Hd]. split; [exists amount; auto | exact Hd].
      * intros [(a & Ha & _ & Hle) Hd]. inversion Ha; subst a. auto.
  - split.
    + intros [H _]. discriminate.
    + intros [(a & Ha & _) _]. discriminate.
Qed.

(** C3, amended.  The bound 0 < amount <= remainingAmount is enforced by the
    payment form, not by [addPayment].  For a stored invoice on which the
    form is opened, submitting the form completes; it reaches [addPayment]
    only when the amount entered satisfies the bound against the invoice's
    remainingAmount and a payment date is given, and then the payment
    appended carries exactly that amount and that date; a form whose amount
    is missing or violates the bound, or whose date is missing, is rejected
    and the store is left as it was. *)
Theorem submitPayment_validates (data : SavedInvoicesData.t) (now : DateNow.t)
        (paymentId invoiceId : string) (formData : FormData.t)
        (invoice : SavedInvoice.t) :
  SavedInvoicesData.invoices data !! invoiceId = Some invoice ->
  invoiceId <> "" ->
  let bound amount :=
    (0 < amount)%Q /\ (amount <= SavedInvoice.remainingAmount invoice)%Q in
  exists data',
    submitPayment data now paymentId invoiceId formData = Js.Normal data' /\
    (* rejected: nothing changes *)
    ((forall amount, FormData.amount formData = Some amount -> ~ bound amount) \/
     FormData.paymentDate formData = "" ->
     data' = data) /\
    (* accepted: the bound holds, a date is given, and this very amount is
       appended *)
    (forall invoice',
        SavedInvoicesData.invoices data' !! invoiceId = Some invoice' ->
        SavedInvoice.payments invoice' <> SavedInvoice.payments invoice ->
        exists amount payment,
          FormData.amount formData = Some amount /\ bound amount /\
          FormData.paymentDate formData <> "" /\
          Payment.amount payment = amount /\ Payment.id payment = paymentId /\
          Payment.paymentDate payment = FormData.paymentDate formData /\
          SavedInvoice.payments invoice'
          = (SavedInvoice.payments invoice ++ [payment])%list) /\
    (* a valid form does reach the ledger *)
    (forall amount,
        FormData.amount formData = Some amount -> bound amount ->
        FormData.paymentDate formData <> "" ->
        exists invoice',
          SavedInvoicesData.invoices data' !! invoiceId = Some invoice' /\
          SavedInvoice.payments invoice'
          = (SavedInvoice.payments invoice
             ++ [Payment.mk paymentId amount (FormData.paymentDate formData)
                   (FormData.paymentMethod formData)
                   (orUndefined (FormData.referenceNumber formData))
                   (orUndefined (FormData.notes formData))
                   (DateNow.getTime now)])%list).
Proof.
  intros Hin Hid bound. unfold submitPayment.
  apply String.eqb_neq in Hid. rewrite Hid, (get_Own _ _ _ Hin).
  unfold handleSubmit.
  pose proof (validateForm_true_iff (SavedInvoice.remainingAmount invoice) formData)
    as Hv.
  destruct (validateForm (SavedInvoice.remainingAmount invoice) formData) eqn:E.
  - destruct Hv as [Hv _]. destruct (Hv eq_refl) as [(a & Ha & Hpos & Hle) Hd].
    set (p := PaymentInput.mk _ _ _ _ _).
    destruct (addPayment_appends data now paymentId invoiceId p invoice Hin)
      as (data' & inv' & Hc & Hl & Hp).
    exists data'. split; [exact Hc |].
    subst p. rewrite Ha in Hp. cbn in Hp.
    split; [| split].
    + intros [Hrej | Hnd]; exfalso.
      * apply (Hrej a Ha). split; assumption.
      * apply Hd, Hnd.
    + intros invoice' Hl' _. rewrite Hl in Hl'. inversion Hl'; subst invoice'.
      eexists a, _. split; [exact Ha |]. split; [split; assumption |].
      split; [exact Hd |].
      split; [| split; [| split; [| exact Hp]]]; reflexivity.
    + intros amount Ha' _ _. rewrite Ha in Ha'. inversion Ha'; subst amount.
      exists inv'. split; [exact Hl | exact Hp].
  - exists data. split; [reflexivity |]. split; [| split].
    + reflexivity.
    + intros invoice' Hl' Hne. rewrite Hin in Hl'. inversion Hl'; subst invoice'.
      congruence.
    + intros amount Ha [Hpos Hle] Hd. exfalso.
      assert (false = true) as Ht.
      { apply Hv. split; [exists amount; auto | exact Hd]. }
      discriminate.
Qed.

Lemma submitPayment_validates_witness :
  let formData := FormData.mk (Some 100%Q) "2025-01-15" BankTransfer "" "" in
  let bound amount :=
    (0 < amount)%Q /\ (amount <= SavedInvoice.remainingAmount Samples.invoice1)%Q in
  exists data',
    submitPayment Samples.invoices1 Samples.noon "pay1" "inv1" formData
    = Js.Normal data' /\
    ((forall amount, FormData.amount formData = Some amount -> ~ bound amount) \/
     FormData.paymentDate formData = "" ->
     data' = Samples.invoices1) /\
    (forall invoice',
        SavedInvoicesData.invoices data' !! "inv1" = Some invoice' ->
        SavedInvoice.payments invoice' <> SavedInvoice.payments Samples.invoice1 ->
        exists amount payment,
          FormData.amount formData = Some amount /\ bound amount /\
          FormData.paymentDate formData <> "" /\
          Payment.amount payment = amount /\ Payment.id payment = "pay1" /\
          Payment.paymentDate payment = FormData.paymentDate formData /\
          SavedInvoice.payments invoice'
          = (SavedInvoice.payments Samples.invoice1 ++ [payment])%list) /\
    (forall amount,
        FormData.amount formData = Some amount -> bound amount ->
        FormData.paymentDate formData <> "" ->
        exists invoice',
          SavedInvoicesData.invoices data' !! "inv1" = Some invoice' /\
          SavedInvoice.payments invoice'
          = (SavedInvoice.payments Samples.invoice1
             ++ [Payment.mk "pay1" amount (FormData.paymentDate formData)
                   (FormData.paymentMethod formData)
                   (orUndefined (FormData.referenceNumber formData))
                   (orUndefined (FormData.notes formData))
                   (DateNow.getTime Samples.noon)])%list).
Proof.
  apply (submitPayment_validates Samples.invoices1 Samples.noon "pay1" "inv1"
           (FormData.mk (Some 100%Q) "2025-01-15" BankTransfer "" "")
           Samples.invoice1).
  - reflexivity.
  - discriminate.
Defined.

(** The form rejects what [addPayment] alone would take. *)
Example submitPayment_rejects_overpayment :
  submitPayment Samples.invoices1 Samples.noon "pay1" "inv1"
    (FormData.mk (Some 500%Q) "2025-01-15" BankTransfer "" "")
  = Js.Normal Samples.invoices1.
Proof. reflexivity. Qed.

End PaymentValidation.

(** ** DocumentLifecycleCoordinator: promotion and order creation *)

Section Promotion.
Import UseSavedInvoices.

(** The order record [createOrder] stores. *)
Lemma createOrder_stores (ordersData : OrdersData.t) (now : DateNow.t)
      (orderId : string) (invoice : SavedInvoice.t) :
  exists order,
    OrdersData.orders (fst (UseOrders.createOrder ordersData now orderId invoice))
    = <[orderId := order]> (OrdersData.orders ordersData) /\
    snd (UseOrders.createOrder ordersData now orderId invoice) = orderId /\
    Order.id order = orderId /\
    Order.invoiceId order = SavedInvoice.id invoice /\
    Order.invoiceNumber order = SavedInvoice.invoiceNumber invoice /\
    Order.status order = New /\
    Order.parts order = List.map UseOrders.toOrderPart (SavedInvoice.parts invoice) /\
    Order.serviceCharges order = SavedInvoice.serviceCharges invoice /\
    Order.totalServiceCharges order
    = UseOrders.orZero (SavedInvoice.totalServiceCharges invoice).
Proof. eexists. cbn. repeat split. Qed.

Lemma orZero_eq (x : Q) : (UseOrders.orZero x == x)%Q.
Proof.
  unfold UseOrders.orZero. destruct (Qeq_bool x 0) eqn:E; [| reflexivity].
  apply Qeq_bool_iff in E. symmetry. exact E.
Qed.

Lemma lookup_insert_fresh {A : Type} (m : gmap string A) (k : string) (v : A) :
  m !! k = None ->
  (forall j, <[k := v]> m !! j = if decide (j = k) then Some v else m !! j) /\
  size (<[k := v]> m) = S (size m).
Proof.
  intros Hfresh. split.
  - intros j. destruct (decide (j = k)) as [-> | Hne].
    + apply lookup_insert_eq.
    + apply lookup_insert_ne. congruence.
  - apply map_size_insert_None. exact Hfresh.
Qed.

(** The invoice record a promotion builds when the due date is valid. *)
Lemma newInvoiceOf_Normal (invoicesData : SavedInvoicesData.t) (now : DateNow.t)
      (invoiceId : string) (q : SavedQuotation.t) (dueDate : Z) :
  dueDateFor now (Js.or_else (SavedQuotation.paymentTerms q) "Net 30")
  = Some dueDate ->
  exists invoice,
    newInvoiceOf invoicesData now invoiceId q = Js.Normal invoice /\
    SavedInvoice.id invoice = invoiceId /\
    SavedInvoice.invoiceNumber invoice = generateInvoiceNumber invoicesData now /\
    SavedInvoice.quotationId invoice = SavedQuotation.id q /\
    SavedInvoice.remainingAmount invoice = SavedQuotation.finalPrice q /\
    SavedInvoice.finalPrice invoice = SavedQuotation.finalPrice q /\
    SavedInvoice.totalPaid invoice = 0%Q /\
    SavedInvoice.payments invoice = [] /\
    SavedInvoice.dueDate invoice = dueDate /\
    SavedInvoice.status invoice = Draft.
Proof.
  intros Hdue. unfold newInvoiceOf. cbv zeta. rewrite Hdue.
  eexists. split; [reflexivity |]. cbn. repeat split.
Qed.

(** What a promotion that completes has written. *)
Lemma createInvoiceFromQuotation_Normal (st : Stores) (now : DateNow.t)
      (invoiceId orderId : string) (q : SavedQuotation.t)
      (onQuotationDeleted :
         string -> SavedQuotationsData.t -> SavedQuotationsData.t)
      (invoice : SavedInvoice.t) :
  newInvoiceOf (invoicesData st) now invoiceId q = Js.Normal invoice ->
  createInvoiceFromQuotation st now invoiceId orderId q onQuotationDeleted
  = Js.Normal
      (mkStores
         (onQuotationDeleted (SavedQuotation.id q) (quotationsData st))
         (SavedInvoicesData.mk
            (<[invoiceId := invoice]>
               (SavedInvoicesData.invoices (invoicesData st)))
            (DateNow.getTime now)
            (DocumentNumber.next "INV"
               (SavedInvoicesData.next_invoice_number (invoicesData st))))
         (fst (UseOrders.createOrder (ordersData st) now orderId invoice)),
       invoiceId).
Proof.
  intros Hnew. unfold createInvoiceFromQuotation. rewrite Hnew.
  cbn [Js.bind]. cbv zeta.
  destruct (UseOrders.createOrder (ordersData st) now orderId invoice)
    as [ordersData' oid]. reflexivity.
Qed.

(** A promotion either completes or raises the RangeError of an invalid due
    date. *)
Lemma createInvoiceFromQuotation_cases (st : Stores) (now : DateNow.t)
      (invoiceId orderId : string) (q : SavedQuotation.t)
      (onQuotationDeleted :
         string -> SavedQuotationsData.t -> SavedQuotationsData.t) :
  (exists invoice,
      newInvoiceOf (invoicesData st) now invoiceId q = Js.Normal invoice) \/
  createInvoiceFromQuotation st now invoiceId orderId q onQuotationDeleted
  = Js.Throw Js.RangeError.
Proof.
  unfold createInvoiceFromQuotation, newInvoiceOf. cbv zeta.
  destruct (dueDateFor now _) as [dueDate |].
  - left. eexists. reflexivity.
  - right. reflexivity.
Qed.

(** C4, as stated, fails: the due date is moved by the number of days the
    payment terms carry, and a number that takes it beyond the range of
    [Date] makes it an Invalid Date, on which [toISOString] raises.  The
    stored quotation [q1] with the terms [Net 100000000], promoted on
    15 January 2025 (zone UTC): the promotion raises a RangeError, and no
    store has been written. *)
Lemma promotion_raises_on_invalid_due_date :
  SavedQuotationsData.quotations (quotationsData Samples.storesHuge) !! "q1"
  = Some Samples.quotationHuge /\
  SavedInvoicesData.invoices (invoicesData Samples.storesHuge) !! "inv_1" = None /\
  OrdersData.orders (ordersData Samples.storesHuge) !! "order_1" = None /\
  createInvoiceFromQuotation Samples.storesHuge Samples.noon "inv_1" "order_1"
    Samples.quotationHuge (UseSavedQuotations.deleteQuotation Samples.noon)
  = Js.Throw Js.RangeError.
Proof. repeat split. Qed.

(** C4, amended.  For a stored quotation [q], promotion with a freshly
    generated invoice id and order id: when the due date the payment terms
    give is a valid date, the promotion completes, returns the new invoice
    id and leaves the quotation store without [q]'s id; the invoice store is
    the old one plus exactly one record, stored under the new id, whose
    remainingAmount is [q]'s finalPrice, whose totalPaid is 0 and whose
    payment list is empty; the order store is the old one plus exactly one
    record, whose invoiceId is the id of the new invoice.  When the due date
    is not a valid date, the promotion raises a RangeError. *)
Theorem promotion_invariants (st : Stores) (now : DateNow.t)
        (invoiceId orderId : string) (q : SavedQuotation.t) :
  SavedQuotationsData.quotations (quotationsData st) !! SavedQuotation.id q = Some q ->
  SavedInvoicesData.invoices (invoicesData st) !! invoiceId = None ->
  OrdersData.orders (ordersData st) !! orderId = None ->
  let result :=
    createInvoiceFromQuotation st now invoiceId orderId q
      (UseSavedQuotations.deleteQuotation now) in
  let dueDate :=
    dueDateFor now (Js.or_else (SavedQuotation.paymentTerms q) "Net 30") in
  let invoices := SavedInvoicesData.invoices (invoicesData st) in
  let orders := OrdersData.orders (ordersData st) in
  (dueDate = None -> result = Js.Throw Js.RangeError) /\
  (forall due, dueDate = Some due ->
     exists st',
       result = Js.Normal (st', invoiceId) /\
       let invoices' := SavedInvoicesData.invoices (invoicesData st') in
       let orders' := OrdersData.orders (ordersData st') in
       SavedQuotationsData.quotations (quotationsData st') !! SavedQuotation.id q
       = None /\
       (exists invoice,
           (forall k, invoices' !! k
                      = if decide (k = invoiceId) then Some invoice
                        else invoices !! k) /\
           size invoices' = S (size invoices) /\
           SavedInvoice.id invoice = invoiceId /\
           SavedInvoice.quotationId invoice = SavedQuotation.id q /\
           SavedInvoice.remainingAmount invoice = SavedQuotation.finalPrice q /\
           SavedInvoice.finalPrice invoice = SavedQuotation.finalPrice q /\
           SavedInvoice.totalPaid invoice = 0%Q /\
           SavedInvoice.payments invoice = [] /\
           SavedInvoice.dueDate invoice = due) /\
       (exists order,
           (forall k, orders' !! k
                      = if decide (k = orderId) then Some order
                        else orders !! k) /\
           size orders' = S (size orders) /\
           Order.invoiceId order = invoiceId)).
Proof.
  intros Hq Hinv Hord result dueDate invoices orders.
  subst result dueDate invoices orders. split.
  - intros Hdue. unfold createInvoiceFromQuotation, newInvoiceOf. cbv zeta.
    rewrite Hdue. reflexivity.
  - intros due Hdue.
    destruct (newInvoiceOf_Normal (invoicesData st) now invoiceId q due Hdue)
      as (invoice & Hnew & Hid & _ & Hqid & Hrem & Hfin & Hpaid & Hpay & Hd & _).
    rewrite (createInvoiceFromQuotation_Normal st now invoiceId orderId q _
               invoice Hnew).
    eexists. split; [reflexivity |].
    cbn [quotationsData invoicesData ordersData SavedInvoicesData.invoices].
    destruct (createOrder_stores (ordersData st) now orderId invoice)
      as (order & Hstore & _ & _ & Href & _).
    split.
    { unfold UseSavedQuotations.deleteQuotation. cbn. apply lookup_delete_eq. }
    split.
    + exists invoice.
      destruct (lookup_insert_fresh _ invoiceId invoice Hinv) as [Hl Hs].
      split; [exact Hl |]. split; [exact Hs |]. repeat split; assumption.
    + exists order. rewrite Hstore.
      destruct (lookup_insert_fresh _ orderId order Hord) as [Hl Hs].
      split; [exact Hl |]. split; [exact Hs |]. rewrite Href. exact Hid.
Qed.

Lemma promotion_invariants_witness :
  let result :=
    createInvoiceFromQuotation Samples.stores1 Samples.noon "inv_1" "order_1"
      Samples.quotation1 (UseSavedQuotations.deleteQuotation Samples.noon) in
  let dueDate :=
    dueDateFor Samples.noon
      (Js.or_else (SavedQuotation.paymentTerms Samples.quotation1) "Net 30") in
  let invoices := SavedInvoicesData.invoices (invoicesData Samples.stores1) in
  let orders := OrdersData.orders (ordersData Samples.stores1) in
  (dueDate = None -> result = Js.Throw Js.RangeError) /\
  (forall due, dueDate = Some due ->
     exists st',
       result = Js.Normal (st', "inv_1") /\
       let invoices' := SavedInvoicesData.invoices (invoicesData st') in
       let orders' := OrdersData.orders (ordersData st') in
       SavedQuotationsData.quotations (quotationsData st')
         !! SavedQuotation.id Samples.quotation1
       = None /\
       (exists invoice,
           (forall k, invoices' !! k
                      = if decide (k = "inv_1") then Some invoice
                        else invoices !! k) /\
           size invoices' = S (size invoices) /\
           SavedInvoice.id invoice = "inv_1" /\
           SavedInvoice.quotationId invoice
           = SavedQuotation.id Samples.quotation1 /\
           SavedInvoice.remainingAmount invoice
           = SavedQuotation.finalPrice Samples.quotation1 /\
           SavedInvoice.finalPrice invoice
           = SavedQuotation.finalPrice Samples.quotation1 /\
           SavedInvoice.totalPaid invoice = 0%Q /\
           SavedInvoice.payments invoice = [] /\
           SavedInvoice.dueDate invoice = due) /\
       (exists order,
           (forall k, orders' !! k
                      = if decide (k = "order_1") then Some order
                        else orders !! k) /\
           size orders' = S (size orders) /\
           Order.invoiceId order = "inv_1")).
Proof.
  apply (promotion_invariants Samples.stores1 Samples.noon "inv_1" "order_1"
           Samples.quotation1); reflexivity.
Defined.

(** The sample promotion completes: [Net 15] moves the due date by fifteen
    days. *)
Example promotion_sample_due_date :
  dueDateFor Samples.noon
    (Js.or_else (SavedQuotation.paymentTerms Samples.quotation1) "Net 30")
  = Some (1736942400000 + 15 * 86400000)%Z.
Proof. reflexivity. Qed.

(** The production fields of an order part do not depend on the pricing
    block of the invoice part it comes from. *)
Lemma toOrderPart_ignores_pricing (p : SavedPart.t) (u t g f : Q) :
  UseOrders.toOrderPart
    (SavedPart.mk (SavedPart.id p) (SavedPart.serialNumber p)
       (SavedPart.fileName p) (SavedPart.fileType p) (SavedPart.volume p)
       (SavedPart.boundingBox p) (SavedPart.technology p) (SavedPart.material p)
       (SavedPart.quantity p) u t g f (SavedPart.comments p))
  = UseOrders.toOrderPart p.
Proof. reflexivity. Qed.

(** C9, as stated, fails in its second half: the order created from [invoice1]
    carries the invoice's service charge with its amount of 500.00, and the
    total of the service charges. *)
Lemma createOrder_keeps_amounts :
  let data := fst (UseOrders.createOrder (UseOrders.createEmptyOrdersData Samples.noon)
                     Samples.noon "order_1" Samples.invoice1) in
  exists order,
    OrdersData.orders data !! "order_1" = Some order /\
    Order.serviceCharges order
    = [ServiceCharge.mk "svc1" "Polishing" 500] /\
    List.map ServiceCharge.amount (Order.serviceCharges order) = [500%Q] /\
    Order.totalServiceCharges order = 500%Q.
Proof. eexists. split; [reflexivity |]. repeat split. Qed.

(** C9, amended.  Every order created from an invoice holds the invoice's
    parts reduced to their ten production fields (the order part is the same
    whatever the unitPrice, totalPrice, gstAmount and finalPrice of the invoice
    part, and its type has no such field); its service charges are the
    invoice's service charges unchanged, amounts included, with their total;
    only the job-work sheet printed from the order lists them by description
    alone. *)
Theorem createOrder_production_fields (ordersData : OrdersData.t)
        (now : DateNow.t) (orderId : string) (invoice : SavedInvoice.t) :
  exists order,
    OrdersData.orders (fst (UseOrders.createOrder ordersData now orderId invoice))
      !! orderId = Some order /\
    Order.invoiceId order = SavedInvoice.id invoice /\
    List.length (Order.parts order) = List.length (SavedInvoice.parts invoice) /\
    (forall i p,
        SavedInvoice.parts invoice !! i = Some p ->
        Order.parts order !! i
        = Some (OrderPart.mk (SavedPart.id p) (SavedPart.serialNumber p)
                  (SavedPart.fileName p) (SavedPart.fileType p)
                  (SavedPart.volume p) (SavedPart.boundingBox p)
                  (SavedPart.technology p) (SavedPart.material p)
                  (SavedPart.quantity p) (SavedPart.comments p)) /\
        forall u t g f,
          Order.parts order !! i
          = Some (UseOrders.toOrderPart
                    (SavedPart.mk (SavedPart.id p) (SavedPart.serialNumber p)
                       (SavedPart.fileName p) (SavedPart.fileType p)
                       (SavedPart.volume p) (SavedPart.boundingBox p)
                       (SavedPart.technology p) (SavedPart.material p)
                       (SavedPart.quantity p) u t g f (SavedPart.comments p)))) /\
    Order.serviceCharges order = SavedInvoice.serviceCharges invoice /\
    (Order.totalServiceCharges order == SavedInvoice.totalServiceCharges invoice)%Q /\
    (forall i row,
        PdfGenerator.orderServiceRows order !! i = Some row ->
        exists charge,
          SavedInvoice.serviceCharges invoice !! i = Some charge /\
          row = [Js.String_ (Some (Z.of_nat i + 1)%Z);
                 ServiceCharge.description charge;
                 "Follow standard procedure"]).
Proof.
  destruct (createOrder_stores ordersData now orderId invoice)
    as (order & Hstore & _ & _ & Href & _ & _ & Hparts & Hsvc & Htot).
  exists order. rewrite Hstore, lookup_insert_eq.
  split; [reflexivity |]. split; [exact Href |].
  split; [rewrite Hparts; apply length_map |].
  split.
  { intros i p Hp.
    assert (Order.parts order !! i = Some (UseOrders.toOrderPart p)) as Hop.
    { rewrite Hparts. change (List.map UseOrders.toOrderPart) with
        (fmap (M := list) UseOrders.toOrderPart).
      rewrite list_lookup_fmap, Hp. reflexivity. }
    split; [exact Hop |]. intros u t g f.
    rewrite toOrderPart_ignores_pricing. exact Hop. }
  split; [exact Hsvc |]. split; [rewrite Htot; apply orZero_eq |].
  intros i row Hrow. unfold PdfGenerator.orderServiceRows in Hrow.
  rewrite list_lookup_imap in Hrow. rewrite Hsvc in Hrow.
  destruct (SavedInvoice.serviceCharges invoice !! i) as [charge |] eqn:Ec;
    cbn in Hrow; [| discriminate].
  exists charge. split; [reflexivity |]. inversion Hrow. reflexivity.
Qed.

End Promotion.

(** ** BulkEditCoordinator *)

Section BulkEdit.
Import GstCalculator QuotationPage.

Lemma truthy_Some (o : option string) :
  Js.truthy o = true -> exists s, o = Some s /\ s <> "".
Proof.
  destruct o as [s |]; cbn; [| discriminate].
  intros H. exists s. split; [reflexivity |].
  apply negb_true_iff, String.eqb_neq in H. exact H.
Qed.

Lemma mapM_Normal {A B : Type} (f : A -> Js.Completion B) (l : list A) :
  forall l', Js.mapM f l = Js.Normal l' ->
    List.length l' = List.length l /\
    forall i x, l !! i = Some x -> exists y, f x = Js.Normal y /\ l' !! i = Some y.
Proof.
  induction l as [| a l IH]; intros l' H; cbn in H.
  - inversion H; subst. split; [reflexivity |]. intros i x Hx. discriminate.
  - destruct (f a) as [b | e |] eqn:Ea; cbn in H; try discriminate.
    destruct (Js.mapM f l) as [bs | e |] eqn:El; cbn in H; try discriminate.
    inversion H; subst l'. destruct (IH bs eq_refl) as [Hlen Hlk].
    split; [cbn; congruence |].
    intros [| i] x Hx; cbn in Hx.
    + inversion Hx; subst x. exists b. split; [exact Ea | reflexivity].
    + exact (Hlk i x Hx).
Qed.


Lemma mapM_pure {A B : Type} (f : A -> Js.Completion B) (g : A -> B)
      (l : list A) :
  (forall x, x ∈ l -> f x = Js.Normal (g x)) ->
  Js.mapM f l = Js.Normal (List.map g l).
Proof.
  induction l as [| a l IH]; intros H; cbn; [reflexivity |].
  rewrite (H a) by left. cbn. rewrite IH; [reflexivity |].
  intros x Hx. apply H. right. exact Hx.
Qed.





Lemma spread_material (part : QuotationPart.t) (updates : PartUpdates.t)
      (mat : string) :
  flat (PartUpdates.material updates) = Some mat ->
  QuotationPart.material (spread part updates) = Some mat.
Proof.
  unfold flat, spread; cbn.
  destruct (PartUpdates.material updates) as [[m |] |]; intros H;
    inversion H; reflexivity.
Qed.

(** Rule (a): the quantity branch. *)
Lemma bulkUpdatePart_quantity (td : TechnologiesData.t)
      (cust : option Customer.t) (updates : PartUpdates.t)
      (part : QuotationPart.t) :
  let up := spread part updates in
  quantityRule cust updates up = true ->
  exists q c tech mat,
    PartUpdates.quantity updates = Some q /\ cust = Some c /\
    QuotationPart.technology up = Some tech /\
    QuotationPart.material up = Some mat /\
    bulkUpdatePart td cust updates part
    = Js.bind (lookupMaterial td tech mat)
              (fun material => Js.Normal (reprice up material q c)).
Proof.
  intros up Hrule. pose proof Hrule as Hr. unfold quantityRule in Hr.
  rewrite !andb_true_iff, !bool_decide_eq_true in Hr.
  destruct Hr as [[[[q Hq] [c Hc]] Hm] Ht].
  apply truthy_Some in Hm as (mat & Hm & _).
  apply truthy_Some in Ht as (tech & Ht & _).
  exists q, c, tech, mat. repeat (split; [assumption |]).
  unfold bulkUpdatePart. cbv zeta. fold up.
  rewrite Hq, Hrule. unfold recompute. rewrite Ht, Hm, Hc. reflexivity.
Qed.

Lemma bulkUpdatePart_skip_quantity (td : TechnologiesData.t)
      (cust : option Customer.t) (updates : PartUpdates.t)
      (part : QuotationPart.t) :
  let up := spread part updates in
  quantityRule cust updates up = false ->
  bulkUpdatePart td cust updates part
  = if materialRule cust updates up then
      recompute td cust up (QuotationPart.technology up)
                (flat (PartUpdates.material updates)) (QuotationPart.quantity up)
    else if technologyRule updates
         then Js.Normal (setPricing up 0 0 0 0) else Js.Normal up.
Proof.
  intros up Hrule. unfold bulkUpdatePart. cbv zeta. fold up.
  destruct (PartUpdates.quantity updates) as [q |];
    [rewrite Hrule |]; reflexivity.
Qed.

(** Rule (b): the material branch. *)
Lemma bulkUpdatePart_material (td : TechnologiesData.t)
      (cust : option Customer.t) (updates : PartUpdates.t)
      (part : QuotationPart.t) :
  let up := spread part updates in
  quantityRule cust updates up = false ->
  materialRule cust updates up = true ->
  exists c tech mat,
    cust = Some c /\ flat (PartUpdates.material updates) = Some mat /\
    QuotationPart.technology up = Some tech /\
    QuotationPart.material up = Some mat /\
    bulkUpdatePart td cust updates part
    = Js.bind (lookupMaterial td tech mat)
              (fun material =>
                 Js.Normal (reprice up material (QuotationPart.quantity up) c)).
Proof.
  intros up Hq Hrule. pose proof Hrule as Hr. unfold materialRule in Hr.
  rewrite !andb_true_iff, !bool_decide_eq_true in Hr.
  destruct Hr as [[[c Hc] Hm] Ht].
  apply truthy_Some in Hm as (mat & Hm & _).
  apply truthy_Some in Ht as (tech & Ht & _).
  exists c, tech, mat. repeat (split; [assumption |]).
  split; [apply spread_material; exact Hm |].
  rewrite (bulkUpdatePart_skip_quantity td cust updates part Hq). fold up.
  rewrite Hrule. unfold recompute. rewrite Hm, Ht, Hc. reflexivity.
Qed.

(** Rules (c) and (d): the technology branch and the plain spread. *)
Lemma bulkUpdatePart_rest (td : TechnologiesData.t)
      (cust : option Customer.t) (updates : PartUpdates.t)
      (part : QuotationPart.t) :
  let up := spread part updates in
  quantityRule cust updates up = false ->
  materialRule cust updates up = false ->
  bulkUpdatePart td cust updates part
  = if technologyRule updates
    then Js.Normal (setPricing up 0 0 0 0) else Js.Normal up.
Proof.
  intros up Hq Hm.
  rewrite (bulkUpdatePart_skip_quantity td cust updates part Hq). fold up.
  rewrite Hm. reflexivity.
Qed.

(** Rule (d): no guard holds. *)
Lemma bulkUpdatePart_noRule (td : TechnologiesData.t)
      (cust : option Customer.t) (updates : PartUpdates.t)
      (part : QuotationPart.t) :
  noRule cust updates part = true ->
  bulkUpdatePart td cust updates part = Js.Normal (spread part updates).
Proof.
  unfold noRule. cbv zeta.
  rewrite !andb_true_iff, !negb_true_iff. intros [[Hq Hm] Ht].
  rewrite (bulkUpdatePart_rest td cust updates part Hq Hm).
  rewrite Ht. reflexivity.
Qed.

(** C5, as stated, fails.  The bulk form sends technology FDM, material ABS and
    quantity 4 for the selected part [bracket] (2 cm³ of PLA, unitPrice 6).
    The quantity branch runs, and it prices the new material and the new
    quantity together: unitPrice becomes 2 * 5 = 10 and totalPrice 10 * 4 = 40,
    not the existing unitPrice 6 times 4. *)
Lemma bulk_quantity_and_material_combined :
  exists p',
    BulkActions.handleApplyBulkChanges Samples.catalog
      (Some Samples.mockKarnatakaCustomer) [Samples.bracket; Samples.lid]
      "FDM" "ABS" (Some 4%Q)
    = Js.Normal [p'; Samples.lid] /\
    is_Some (PartUpdates.quantity (BulkActions.bulkUpdates "FDM" "ABS" (Some 4%Q))) /\
    QuotationPart.material Samples.bracket = Some "PLA" /\
    QuotationPart.material p' = Some "ABS" /\
    (QuotationPart.quantity p' == 4)%Q /\
    (QuotationPart.unitPrice Samples.bracket == 6)%Q /\
    (QuotationPart.unitPrice p' == 10)%Q /\
    (QuotationPart.totalPrice p' == 40)%Q /\
    ~ (QuotationPart.totalPrice p' == QuotationPart.unitPrice Samples.bracket * 4)%Q.
Proof.
  eexists. split; [vm_compute; reflexivity |].
  split; [eexists; reflexivity |].
  repeat (split; [reflexivity |]). intros H. vm_compute in H. discriminate.
Qed.

(** The fields of a recomputed pricing block. *)
Lemma reprice_fields (up : QuotationPart.t) (material : Material.t) (q : Q)
      (c : Customer.t) :
  let p := reprice up material q c in
  QuotationPart.unitPrice p
  = (QuotationPart.volume up * Material.cost_per_cc material)%Q /\
  QuotationPart.totalPrice p = (QuotationPart.unitPrice p * q)%Q /\
  QuotationPart.gstAmount p = total (calculateGST (QuotationPart.totalPrice p) c) /\
  QuotationPart.finalPrice p
  = (QuotationPart.totalPrice p + QuotationPart.gstAmount p)%Q /\
  QuotationPart.id p = QuotationPart.id up /\
  QuotationPart.serialNumber p = QuotationPart.serialNumber up /\
  QuotationPart.volume p = QuotationPart.volume up /\
  QuotationPart.technology p = QuotationPart.technology up /\
  QuotationPart.material p = QuotationPart.material up /\
  QuotationPart.quantity p = QuotationPart.quantity up.
Proof. cbn. repeat split. Qed.

(** C5, amended.  For each affected part the update is first spread over the
    part, then at most one rule of the chain applies, in this order.
    (a) If the update carries a quantity, a customer is selected and the
    spread part has a non-empty material and technology, the whole pricing
    block is recomputed from the part's volume, the catalog rate of the spread
    part's material (the update's material when it carries one) and the new
    quantity: a quantity and a material sent together are applied in this one
    pass.  (b) Else, if a customer is selected, the update carries a non-empty
    material and the spread part has a non-empty technology, the block is
    recomputed from the part's volume, that material and the spread part's
    quantity.  (c) Else, if the update carries a non-empty technology and no
    material, the pricing block is zeroed and the technology set (also when a
    quantity was sent but (a) did not apply).  (d) Otherwise the part is the
    spread part.  The recomputation of (a) and (b) reads the material in the
    catalog: it raises a TypeError, for the whole edit, when the catalog lacks
    the technology or the technology lacks the material, and for a material
    that is a name every object inherits it computes with a rate that is no
    number. *)
Theorem bulk_rule_precedence (td : TechnologiesData.t)
        (cust : option Customer.t) (updates : PartUpdates.t)
        (part : QuotationPart.t) :
  let up := spread part updates in
  let r := bulkUpdatePart td cust updates part in
  (quantityRule cust updates up = true ->
   exists q c tech mat,
     PartUpdates.quantity updates = Some q /\ cust = Some c /\
     QuotationPart.technology up = Some tech /\
     QuotationPart.material up = Some mat /\
     (forall m', flat (PartUpdates.material updates) = Some m' -> mat = m') /\
     r = Js.bind (lookupMaterial td tech mat)
                 (fun material => Js.Normal (reprice up material q c))) /\
  (quantityRule cust updates up = false ->
   materialRule cust updates up = true ->
   exists c tech mat,
     cust = Some c /\ flat (PartUpdates.material updates) = Some mat /\
     QuotationPart.technology up = Some tech /\
     r = Js.bind (lookupMaterial td tech mat)
                 (fun material =>
                    Js.Normal (reprice up material (QuotationPart.quantity up) c))) /\
  (quantityRule cust updates up = false ->
   materialRule cust updates up = false ->
   technologyRule updates = true ->
   r = Js.Normal (setPricing up 0 0 0 0) /\
   QuotationPart.technology up = flat (PartUpdates.technology updates)) /\
  (noRule cust updates part = true -> r = Js.Normal up) /\
  (forall material q c,
      let p := reprice up material q c in
      QuotationPart.unitPrice p
      = (QuotationPart.volume up * Material.cost_per_cc material)%Q /\
      QuotationPart.totalPrice p = (QuotationPart.unitPrice p * q)%Q /\
      QuotationPart.gstAmount p
      = total (calculateGST (QuotationPart.totalPrice p) c) /\
      QuotationPart.finalPrice p
      = (QuotationPart.totalPrice p + QuotationPart.gstAmount p)%Q /\
      QuotationPart.material p = QuotationPart.material up /\
      QuotationPart.quantity p = QuotationPart.quantity up).
Proof.
  intros up r. subst r up. split; [| split; [| split; [| split]]].
  - intros Hq.
    destruct (bulkUpdatePart_quantity td cust updates part Hq)
      as (q & c & tech & mat & H1 & H2 & H3 & H4 & H5).
    exists q, c, tech, mat. repeat (split; [assumption |]).
    split; [| exact H5].
    intros m' Hm'. apply (spread_material part) in Hm'.
    congruence.
  - intros Hq Hm.
    destruct (bulkUpdatePart_material td cust updates part Hq Hm)
      as (c & tech & mat & H1 & H2 & H3 & _ & H5).
    exists c, tech, mat. repeat (split; [assumption |]). exact H5.
  - intros Hq Hm Ht.
    rewrite (bulkUpdatePart_rest td cust updates part Hq Hm).
    rewrite Ht. split; [reflexivity |].
    unfold technologyRule in Ht. apply andb_true_iff in Ht as [Ht _].
    apply truthy_Some in Ht as (t & Ht & _). rewrite Ht.
    unfold spread, flat in *; cbn.
    destruct (PartUpdates.technology updates) as [[t' |] |]; inversion Ht.
    reflexivity.
  - apply bulkUpdatePart_noRule.
  - intros material q c.
    destruct (reprice_fields (spread part updates) material q c)
      as (H1 & H2 & H3 & H4 & _ & _ & _ & _ & H5 & H6).
    repeat split; assumption.
Qed.

(** A quantity sent with a technology but without a material does not reach
    the quantity rule: the technology rule zeroes the block. *)
Example bulk_quantity_without_material :
  exists p',
    BulkActions.handleApplyBulkChanges Samples.catalog
      (Some Samples.mockKarnatakaCustomer) [Samples.bracket; Samples.lid]
      "SLA" "" (Some 4%Q)
    = Js.Normal [p'; Samples.lid] /\
    QuotationPart.technology p' = Some "SLA" /\
    QuotationPart.material p' = None /\
    QuotationPart.quantity p' = 4%Q /\
    QuotationPart.unitPrice p' = 0%Q /\ QuotationPart.totalPrice p' = 0%Q /\
    QuotationPart.gstAmount p' = 0%Q /\ QuotationPart.finalPrice p' = 0%Q.
Proof. eexists. split; [vm_compute; reflexivity |]. repeat split. Qed.




(** The same material applied to a selection made by one process: the edit
    completes, and the part outside the selection is returned as it was. *)
Example bulk_material_resolved :
  exists b',
    handleUpdateParts Samples.catalog (Some Samples.mockKarnatakaCustomer)
      [Samples.bracket; Samples.lid] ["p1"] (PartCard.materialOnly "ABS")
    = Js.Normal [b'; Samples.lid] /\
    QuotationPart.material b' = Some "ABS" /\
    (QuotationPart.unitPrice b' == 10)%Q.
Proof. eexists. split; [vm_compute; reflexivity |]. split; reflexivity. Qed.

(** ** Editing without a customer *)

Lemma handleUpdatePart_no_customer (td : TechnologiesData.t)
      (parts : list QuotationPart.t) (partId : string) (updates : PartUpdates.t) :
  handleUpdatePart td None parts partId updates
  = Js.Normal (List.map (fun p => if String.eqb (QuotationPart.id p) partId
                                  then spread p updates else p) parts).
Proof.
  unfold handleUpdatePart. apply mapM_pure. intros p _.
  destruct (String.eqb (QuotationPart.id p) partId); reflexivity.
Qed.

Lemma handleUpdateParts_no_customer (td : TechnologiesData.t)
      (parts : list QuotationPart.t) (partIds : list string) (quantity : Q) :
  handleUpdateParts td None parts partIds (PartCard.quantityOnly quantity)
  = Js.Normal (List.map (fun p => if includes partIds (QuotationPart.id p)
                                  then spread p (PartCard.quantityOnly quantity)
                                  else p) parts).
Proof.
  unfold handleUpdateParts. apply mapM_pure. intros p _.
  destruct (includes partIds (QuotationPart.id p)); [| reflexivity].
  apply (bulkUpdatePart_rest td None (PartCard.quantityOnly quantity) p);
    reflexivity.
Qed.

(** C8, as stated, fails.  With no customer selected, a quantity change from 1
    to 3 on [bracketNoCustomer] (unitPrice 6, finalPrice 6) moves finalPrice to
    18, so it is not left at its previous value; and a material change on
    [blank] is ignored altogether, so unitPrice and totalPrice stay 0 although
    volume times rate is 6. *)
Lemma no_customer_claim_fails :
  (exists p',
      PartCard.handleQuantityChange Samples.catalog None
        [Samples.bracketNoCustomer] Samples.bracketNoCustomer 3
      = Js.Normal [p'] /\
      (QuotationPart.finalPrice Samples.bracketNoCustomer == 6)%Q /\
      (QuotationPart.finalPrice p' == 18)%Q /\
      ~ (QuotationPart.finalPrice p'
         == QuotationPart.finalPrice Samples.bracketNoCustomer)%Q) /\
  PartCard.handleMaterialChange Samples.catalog None [Samples.blank]
    Samples.blank "PLA" = Js.Normal [Samples.blank] /\
  QuotationPart.material Samples.blank = None /\
  (QuotationPart.unitPrice Samples.blank == 0)%Q /\
  (exists material,
      lookupMaterial Samples.catalog "FDM" "PLA" = Js.Normal material /\
      (QuotationPart.volume Samples.blank * Material.cost_per_cc material == 6)%Q).
Proof.
  split; [| split; [reflexivity | split; [reflexivity | split; [reflexivity |]]]].
  - eexists. split; [vm_compute; reflexivity |].
    split; [reflexivity |]. split; [reflexivity |].
    intros H. vm_compute in H. discriminate.
  - eexists. split; [vm_compute; reflexivity | reflexivity].
Qed.

(** C8, amended.  With no customer selected: a material change made on a part
    card is ignored, the part list staying as it was; a quantity change made
    on a card outside a multiple selection sets the quantity, sets totalPrice
    to the part's existing unitPrice times the new quantity, resets gstAmount
    to 0 and finalPrice to that totalPrice, and leaves unitPrice alone; a
    quantity change applied to a multiple selection sets the quantity of the
    selected parts and nothing else. *)
Theorem no_customer_edits (td : TechnologiesData.t)
        (parts : list QuotationPart.t) (part : QuotationPart.t) :
  (forall materialId,
      PartCard.handleMaterialChange td None parts part materialId
      = Js.Normal parts) /\
  (forall quantity,
      PartCard.hasMultipleSelected parts && PartCard.isPartSelected part = false ->
      exists updates,
        PartCard.handleQuantityChange td None parts part quantity
        = Js.Normal (List.map
                       (fun p => if String.eqb (QuotationPart.id p)
                                               (QuotationPart.id part)
                                 then spread p updates else p) parts) /\
        let part' := spread part updates in
        QuotationPart.quantity part' = quantity /\
        QuotationPart.unitPrice part' = QuotationPart.unitPrice part /\
        QuotationPart.totalPrice part'
        = (QuotationPart.unitPrice part * quantity)%Q /\
        QuotationPart.gstAmount part' = 0%Q /\
        QuotationPart.finalPrice part'
        = (QuotationPart.unitPrice part * quantity)%Q /\
        QuotationPart.material part' = QuotationPart.material part /\
        QuotationPart.technology part' = QuotationPart.technology part) /\
  (forall quantity,
      PartCard.hasMultipleSelected parts && PartCard.isPartSelected part = true ->
      PartCard.handleQuantityChange td None parts part quantity
      = Js.Normal (List.map
                     (fun p => if includes (PartCard.selectedPartIds parts)
                                           (QuotationPart.id p)
                               then spread p (PartCard.quantityOnly quantity)
                               else p) parts) /\
      forall p,
        let p' := spread p (PartCard.quantityOnly quantity) in
        QuotationPart.quantity p' = quantity /\
        QuotationPart.unitPrice p' = QuotationPart.unitPrice p /\
        QuotationPart.totalPrice p' = QuotationPart.totalPrice p /\
        QuotationPart.gstAmount p' = QuotationPart.gstAmount p /\
        QuotationPart.finalPrice p' = QuotationPart.finalPrice p).
Proof.
  split; [| split].
  - intros materialId. reflexivity.
  - intros quantity Hsingle. eexists. unfold PartCard.handleQuantityChange.
    rewrite Hsingle. cbv zeta iota beta.
    split; [apply handleUpdatePart_no_customer |]. cbn. repeat split.
  - intros quantity Hmulti. unfold PartCard.handleQuantityChange.
    rewrite Hmulti. split; [apply handleUpdateParts_no_customer |].
    intros p. cbn. repeat split.
Qed.

End BulkEdit.

(** ** DocumentNumberGenerator *)

Section Strings.

Lemma append_cons (c : ascii) (a b : string) :
  String c a ++ b = String c (a ++ b).
Proof. reflexivity. Qed.

Lemma append_nil_l (s : string) : "" ++ s = s.
Proof. reflexivity. Qed.

Lemma append_assoc (a b c : string) : (a ++ b) ++ c = a ++ (b ++ c).
Proof.
  induction a as [| x a IH]; [reflexivity |].
  rewrite !append_cons, IH. reflexivity.
Qed.

Lemma length_append (a b : string) :
  String.length (a ++ b) = (String.length a + String.length b)%nat.
Proof.
  induction a as [| x a IH]; [reflexivity |].
  rewrite append_cons. cbn. rewrite IH. reflexivity.
Qed.

Lemma prefix_append (p d : string) : String.prefix p (p ++ d) = true.
Proof.
  induction p as [| x p IH]; [destruct d; reflexivity |].
  rewrite append_cons. cbn. destruct (ascii_dec x x); [exact IH | congruence].
Qed.

Lemma drop_chars_append (p d : string) :
  Js.drop_chars (String.length p) (p ++ d) = d.
Proof.
  induction p as [| x p IH]; [reflexivity |].
  rewrite append_cons. cbn. exact IH.
Qed.

Lemma length_drop_chars (n : nat) (s : string) :
  String.length (Js.drop_chars n s) = (String.length s - n)%nat.
Proof.
  revert s. induction n as [| n IH]; intros s.
  - cbn. lia.
  - destruct s as [| c s]; [reflexivity |]. cbn. apply IH.
Qed.

Lemma replace_unfold (pat rep s : string) :
  Js.replace pat rep s
  = if String.prefix pat s then rep ++ Js.drop_chars (String.length pat) s
    else match s with
         | EmptyString => EmptyString
         | String c r => String c (Js.replace pat rep r)
         end.
Proof. destruct s; reflexivity. Qed.

(** Removing the family prefix of a counter leaves its digits. *)
Lemma replace_prefix (p d : string) : Js.replace p "" (p ++ d) = d.
Proof.
  rewrite replace_unfold, prefix_append, drop_chars_append. reflexivity.
Qed.

Lemma length_repeat_char (c : ascii) (n : nat) :
  String.length (Js.repeat_char c n) = n.
Proof. induction n as [| n IH]; cbn; congruence. Qed.

Lemma length_padStart (n : nat) (c : ascii) (s : string) :
  String.length (Js.padStart n c s) = Nat.max n (String.length s).
Proof.
  unfold Js.padStart. rewrite length_append, length_repeat_char. lia.
Qed.

Lemma length_slice_last (n : nat) (s : string) :
  String.length (Js.slice_last n s) = Nat.min n (String.length s).
Proof. unfold Js.slice_last. rewrite length_drop_chars. lia. Qed.

End Strings.

Section Digits.

Lemma digit_val_digit_char (d : N) :
  (d < 10)%N -> Js.digit_val 10 (Js.digit_char d) = Some d.
Proof.
  intros H.
  assert (d = 0 \/ d = 1 \/ d = 2 \/ d = 3 \/ d = 4 \/ d = 5 \/ d = 6 \/
          d = 7 \/ d = 8 \/ d = 9)%N as Hd by lia.
  repeat (destruct Hd as [-> | Hd]; [reflexivity |]). subst d. reflexivity.
Qed.

Lemma parse_digits_go (fuel : nat) :
  forall (n : N) (acc : string),
    (n < 2 ^ N.of_nat fuel)%N ->
    Js.parse_digits 10 0 (Js.digits_go fuel n acc) = Js.parse_digits 10 n acc.
Proof.
  induction fuel as [| fuel IH]; intros n acc Hn.
  - cbn in Hn. assert (n = 0%N) as -> by lia. reflexivity.
  - cbn [Js.digits_go].
    assert (n mod 10 < 10)%N as Hmod by (apply N.mod_lt; lia).
    destruct (n <? 10)%N eqn:E.
    + apply N.ltb_lt in E. rewrite N.mod_small by exact E.
      cbn [Js.parse_digits]. rewrite digit_val_digit_char by exact E.
      f_equal.
    + apply N.ltb_ge in E. rewrite IH.
      * cbn [Js.parse_digits]. rewrite digit_val_digit_char by exact Hmod.
        f_equal. pose proof (N.div_mod n 10). lia.
      * rewrite Nat2N.inj_succ, N.pow_succ_r' in Hn.
        apply N.Div0.div_lt_upper_bound. lia.
Qed.

(** Reading back the decimal digits of a number gives the number. *)
Lemma parse_digits_string_of_N (n : N) :
  Js.parse_digits 10 0 (Js.string_of_N n) = n.
Proof.
  unfold Js.string_of_N. rewrite parse_digits_go; [reflexivity |].
  rewrite Nat2N.inj_succ, N2Nat.id.
  destruct n as [| p]; [reflexivity |].
  apply N.log2_spec. lia.
Qed.

Lemma is_digit_digit_char (d : N) : (d < 10)%N -> Js.is_digit (Js.digit_char d) = true.
Proof.
  intros H. unfold Js.is_digit. rewrite digit_val_digit_char by exact H.
  reflexivity.
Qed.

Lemma all_digits_append (a b : string) :
  DocumentNumber.all_digits (a ++ b)
  = DocumentNumber.all_digits a && DocumentNumber.all_digits b.
Proof.
  induction a as [| c a IH]; [reflexivity |].
  rewrite append_cons. cbn. rewrite IH, andb_assoc. reflexivity.
Qed.

Lemma all_digits_go (fuel : nat) :
  forall (n : N) (acc : string),
    DocumentNumber.all_digits acc = true ->
    DocumentNumber.all_digits (Js.digits_go fuel n acc) = true.
Proof.
  induction fuel as [| fuel IH]; intros n acc Hacc; [exact Hacc |].
  cbn [Js.digits_go].
  assert (DocumentNumber.all_digits (String (Js.digit_char (n mod 10)) acc) = true)
    as Hacc'.
  { cbn [DocumentNumber.all_digits]. rewrite is_digit_digit_char, Hacc.
    - reflexivity.
    - apply N.mod_lt. lia. }
  destruct (n <? 10)%N; [exact Hacc' | apply IH; exact Hacc'].
Qed.

Lemma length_digits_go (fuel : nat) :
  forall (n : N) (acc : string),
    (String.length acc + Nat.min 1 fuel
     <= String.length (Js.digits_go fuel n acc))%nat.
Proof.
  induction fuel as [| fuel IH]; intros n acc; [cbn; lia |].
  cbn [Js.digits_go]. destruct (n <? 10)%N; [cbn; lia |].
  specialize (IH (n / 10)%N (String (Js.digit_char (n mod 10)) acc)).
  cbn [String.length] in IH. lia.
Qed.

Lemma digits_go_S (fuel : nat) (n : N) (acc : string) :
  Js.digits_go (S fuel) n acc
  = if (n <? 10)%N then String (Js.digit_char (n mod 10)) acc
    else Js.digits_go fuel (n / 10) (String (Js.digit_char (n mod 10)) acc).
Proof. reflexivity. Qed.

Lemma all_digits_string_of_N (n : N) :
  DocumentNumber.all_digits (Js.string_of_N n) = true.
Proof. apply all_digits_go. reflexivity. Qed.

Lemma string_of_N_nonempty (n : N) : Js.string_of_N n <> "".
Proof.
  unfold Js.string_of_N. intros H.
  pose proof (length_digits_go (S (N.to_nat (N.log2 n))) n "") as Hl.
  rewrite H in Hl. cbn in Hl. lia.
Qed.

(** A number of two digits or more prints on two characters or more. *)
Lemma length_string_of_N_ge2 (n : N) :
  (10 <= n)%N -> (2 <= String.length (Js.string_of_N n))%nat.
Proof.
  intros H. unfold Js.string_of_N.
  assert (3 <= N.log2 n)%N as Hlog.
  { apply N.log2_le_pow2; [lia |]. cbn. lia. }
  destruct (N.to_nat (N.log2 n)) as [| k] eqn:Ek; [lia |].
  rewrite digits_go_S. destruct (n <? 10)%N eqn:E; [apply N.ltb_lt in E; lia |].
  pose proof (length_digits_go (S k) (n / 10)%N
                (String (Js.digit_char (n mod 10)) "")) as Hl.
  cbn [String.length] in Hl. lia.
Qed.

Lemma parse_digits_zeros (k : nat) (s : string) :
  Js.parse_digits 10 0 (Js.repeat_char "0" k ++ s) = Js.parse_digits 10 0 s.
Proof.
  induction k as [| k IH]; [reflexivity |].
  cbn [Js.repeat_char]. rewrite append_cons. cbn [Js.parse_digits]. exact IH.
Qed.

Lemma all_digits_zeros (k : nat) :
  DocumentNumber.all_digits (Js.repeat_char "0" k) = true.
Proof. induction k as [| k IH]; [reflexivity | exact IH]. Qed.

(** On a non-empty string of decimal digits [parseInt] reads the whole
    string: there is no white space, no sign and no [0x] to skip. *)
Lemma parseInt_digits (s : string) :
  s <> "" -> DocumentNumber.all_digits s = true ->
  Js.parseInt s = Some (Z.of_N (Js.parse_digits 10 0 s)).
Proof.
  destruct s as [| c r]; [congruence |]. intros _ H.
  cbn [DocumentNumber.all_digits] in H. apply andb_true_iff in H as [Hc Hr].
  destruct c as [[] [] [] [] [] [] [] []]; try discriminate Hc;
    try reflexivity.
  destruct r as [| c2 r2]; [reflexivity |].
  cbn [DocumentNumber.all_digits] in Hr. apply andb_true_iff in Hr as [Hc2 _].
  destruct c2 as [[] [] [] [] [] [] [] []]; try discriminate Hc2; reflexivity.
Qed.

End Digits.

Section Counter.
Import DocumentNumber.

Lemma string_of_Z_nonneg (z : Z) :
  (0 <= z)%Z -> Js.string_of_Z z = Js.string_of_N (Z.to_N z).
Proof. destruct z; [reflexivity | reflexivity | lia]. Qed.

Lemma length_string_of_N_le2 (n : N) :
  (n < 100)%N -> (String.length (Js.string_of_N n) <= 2)%nat.
Proof.
  intros H. unfold Js.string_of_N. rewrite digits_go_S.
  destruct (n <? 10)%N eqn:E; [cbn; lia |]. apply N.ltb_ge in E.
  assert (3 <= N.log2 n)%N as Hlog.
  { apply N.log2_le_pow2; [lia |]. cbn. lia. }
  destruct (N.to_nat (N.log2 n)) as [| k] eqn:Ek; [lia |].
  rewrite digits_go_S.
  assert (n / 10 < 10)%N as Hd by (apply N.Div0.div_lt_upper_bound; lia).
  apply N.ltb_lt in Hd. rewrite Hd. cbn. lia.
Qed.

(** The date block of an issued number has six characters. *)
Lemma date_block_length (now : DateNow.t) :
  wf_date now ->
  let year := Js.slice_last 2 (Js.String_ (Some (DateNow.getFullYear now))) in
  let month := Js.padStart 2 "0" (Js.String_ (Some (DateNow.getMonth now + 1)%Z)) in
  let day := Js.padStart 2 "0" (Js.String_ (Some (DateNow.getDate now))) in
  String.length (year ++ month ++ day) = 6%nat.
Proof.
  intros (Hy & Hm & Hd). cbv zeta. cbn [Js.String_].
  rewrite !length_append, length_slice_last, !length_padStart.
  rewrite !string_of_Z_nonneg by lia.
  pose proof (length_string_of_N_ge2 (Z.to_N (DateNow.getFullYear now))).
  pose proof (length_string_of_N_le2 (Z.to_N (DateNow.getMonth now + 1))).
  pose proof (length_string_of_N_le2 (Z.to_N (DateNow.getDate now))).
  lia.
Qed.

Lemma append_nonempty_r (a b : string) : b <> "" -> a ++ b <> "".
Proof.
  intros Hb H. apply (f_equal String.length) in H.
  rewrite length_append in H. destruct b; [congruence | cbn in H; lia].
Qed.

(** A zero-padded digit string reads as the digit string. *)
Lemma parseInt_padded (n : nat) (digits : string) :
  digits <> "" -> all_digits digits = true ->
  Js.parseInt (Js.padStart n "0" digits)
  = Some (Z.of_N (Js.parse_digits 10 0 digits)).
Proof.
  intros Hne Hd. unfold Js.padStart. rewrite parseInt_digits.
  - rewrite parse_digits_zeros. reflexivity.
  - apply append_nonempty_r. exact Hne.
  - rewrite all_digits_append, all_digits_zeros, Hd. reflexivity.
Qed.

(** One issue against a well-formed counter: the number issued carries the
    counter's serial whatever the date, and the counter moves up by one. *)
Lemma counter_issue (prefix counter : string) :
  wf_counter prefix counter ->
  exists v,
    (0 <= v)%Z /\
    currentNum prefix counter = Some v /\
    (forall now, wf_date now ->
                 extractSerial prefix (generate prefix now counter) = Some v) /\
    wf_counter prefix (next prefix counter) /\
    currentNum prefix (next prefix counter) = Some (v + 1)%Z.
Proof.
  intros (digits & -> & Hne & Hd).
  exists (Z.of_N (Js.parse_digits 10 0 digits)).
  assert (currentNum prefix (prefix ++ digits)
          = Some (Z.of_N (Js.parse_digits 10 0 digits))) as Hcur.
  { unfold currentNum. rewrite replace_prefix. apply parseInt_digits; assumption. }
  split; [lia |]. split; [exact Hcur |]. split; [| split].
  - intros now Hnow. unfold extractSerial, generate. cbv zeta.
    rewrite replace_prefix.
    pose proof (date_block_length now Hnow) as Hlen. cbv zeta in Hlen.
    set (year := Js.slice_last 2 _) in *.
    set (month := Js.padStart 2 _ (Js.String_ (Some (DateNow.getMonth now + 1)%Z))) in *.
    set (day := Js.padStart 2 _ (Js.String_ (Some (DateNow.getDate now)))) in *.
    replace (prefix ++ year ++ month ++ day ++ Js.padStart 3 "0" digits)
      with ((prefix ++ year ++ month ++ day) ++ Js.padStart 3 "0" digits)
      by (rewrite !append_assoc; reflexivity).
    replace (String.length prefix + 6)%nat
      with (String.length (prefix ++ year ++ month ++ day))
      by (rewrite length_append, Hlen; reflexivity).
    rewrite drop_chars_append. apply parseInt_padded; assumption.
  - unfold next. rewrite Hcur. cbn [Js.plus_int Js.String_].
    rewrite string_of_Z_nonneg by lia.
    eexists. split; [reflexivity |]. split.
    + apply append_nonempty_r, string_of_N_nonempty.
    + unfold Js.padStart.
      rewrite all_digits_append, all_digits_zeros, all_digits_string_of_N.
      reflexivity.
  - unfold next. rewrite Hcur. cbn [Js.plus_int Js.String_].
    rewrite string_of_Z_nonneg by lia.
    unfold currentNum. rewrite replace_prefix, parseInt_padded.
    + rewrite parse_digits_string_of_N. f_equal. lia.
    + apply string_of_N_nonempty.
    + apply all_digits_string_of_N.
Qed.

Lemma consecutive_app (v : Z) (l1 l2 : list (option Z)) :
  consecutive v l1 ->
  consecutive (v + Z.of_nat (List.length l1)) l2 ->
  consecutive v (l1 ++ l2)%list.
Proof.
  revert v. induction l1 as [| s l1 IH]; intros v H1 H2.
  - cbn in H2. rewrite Z.add_0_r in H2. exact H2.
  - destruct H1 as [Hs H1]. split; [exact Hs |]. apply IH; [exact H1 |].
    cbn [List.length] in H2. rewrite Nat2Z.inj_succ in H2.
    replace (v + 1 + Z.of_nat (List.length l1))%Z
      with (v + Z.succ (Z.of_nat (List.length l1)))%Z by lia.
    exact H2.
Qed.

Lemma consecutive_lookup (v : Z) (l : list (option Z)) :
  consecutive v l ->
  forall i s, l !! i = Some s -> s = Some (v + Z.of_nat i)%Z.
Proof.
  revert v. induction l as [| x l IH]; intros v H i s Hi; [discriminate |].
  destruct H as [Hx H]. destruct i as [| i]; cbn in Hi.
  - inversion Hi; subst s. rewrite Z.add_0_r. exact Hx.
  - rewrite (IH (v + 1)%Z H i s Hi). f_equal. lia.
Qed.

End Counter.

Section Numbering.
Import DocumentNumber UseSavedInvoices Lifecycle.

Lemma tracks_nothing (prefix : string) (v : Z) (counter : string) :
  reads prefix counter v -> tracks prefix v counter [].
Proof.
  intros H. split; [exact I |]. cbn. rewrite Z.add_0_r. exact H.
Qed.

Lemma tracks_one (prefix : string) (v : Z) (counter : string) (now : DateNow.t) :
  reads prefix counter v -> wf_date now ->
  tracks prefix v (next prefix counter) [generate prefix now counter].
Proof.
  intros [Hwf Hv] Hnow.
  destruct (counter_issue prefix counter Hwf) as (v' & _ & Hv' & Hx & Hwf' & Hn).
  assert (v' = v) as -> by congruence.
  split.
  - cbn. split; [apply Hx; exact Hnow | exact I].
  - split; [exact Hwf' | exact Hn].
Qed.

Lemma tracks_app (prefix : string) (v : Z) (c1 c2 : string)
      (n1 n2 : list string) :
  tracks prefix v c1 n1 ->
  tracks prefix (v + Z.of_nat (List.length n1)) c2 n2 ->
  tracks prefix v c2 (n1 ++ n2)%list.
Proof.
  intros [H1 _] [H2 [Hwf Hv]]. split.
  - rewrite List.map_app. apply consecutive_app; [exact H1 |].
    rewrite length_map. exact H2.
  - split; [exact Hwf |]. rewrite Hv, length_app. f_equal. lia.
Qed.

(** What [saveQuotation] does to the counter, and the number it stores. *)
Lemma saveQuotation_counter (data : SavedQuotationsData.t) (now : DateNow.t)
      (freshId : string) (params : UseSavedQuotations.SaveQuotationParams.t) :
  match UseSavedQuotations.saveQuotation data now freshId params with
  | Js.Normal (data', quotationId) =>
      if Js.truthy (UseSavedQuotations.SaveQuotationParams.existingQuotationId params)
      then SavedQuotationsData.next_quotation_number data'
           = SavedQuotationsData.next_quotation_number data
      else SavedQuotationsData.next_quotation_number data'
           = next "QT" (SavedQuotationsData.next_quotation_number data) /\
           numberOf SavedQuotation.quotationNumber
             (SavedQuotationsData.quotations data' !! quotationId)
           = [generate "QT" now (SavedQuotationsData.next_quotation_number data)]
  | Js.Throw _ => True
  | Js.IllTyped =>
      Js.inherited
        (default "" (UseSavedQuotations.SaveQuotationParams.existingQuotationId
                       params)) = true
  end.
Proof.
  unfold UseSavedQuotations.saveQuotation. cbv zeta.
  destruct (Js.truthy _) eqn:E.
  - destruct (Js.get _ _) eqn:Eg.
    + destruct (DateNow.plusDays now 30); [reflexivity | exact I].
    + apply get_Inherited_inv in Eg. apply Eg.
    + exact I.
  - destruct (DateNow.plusDays now 30); [| exact I].
    split; [reflexivity |]. cbn [SavedQuotationsData.quotations].
    rewrite lookup_insert_eq. reflexivity.
Qed.

Lemma newInvoiceOf_number (data : SavedInvoicesData.t) (now : DateNow.t)
      (invoiceId : string) (q : SavedQuotation.t) (invoice : SavedInvoice.t) :
  newInvoiceOf data now invoiceId q = Js.Normal invoice ->
  SavedInvoice.invoiceNumber invoice = generateInvoiceNumber data now.
Proof.
  unfold newInvoiceOf. cbv zeta. destruct (dueDateFor now _); [| discriminate].
  intros H. inversion H. reflexivity.
Qed.

(** One operation has a result, and its numbers follow the counters. *)
Lemma step_tracks (st : Stores) (op : Op) (vq vi vo : Z) :
  reads "QT" (quotationCounter st) vq ->
  reads "INV" (invoiceCounter st) vi ->
  reads "ORD" (orderCounter st) vo ->
  clock_ok op ->
  edits_records op ->
  exists st' issued,
    step st op = Some (st', issued) /\
    tracks "QT" vq (quotationCounter st') (quotationNumbers issued) /\
    tracks "INV" vi (invoiceCounter st') (invoiceNumbers issued) /\
    tracks "ORD" vo (orderCounter st') (orderNumbers issued).
Proof.
  intros Hq Hi Ho Hclock Hedit.
  unfold quotationCounter, invoiceCounter, orderCounter in *.
  destruct op as [now freshId params | now qid | now invoiceId orderId q
                 | rr values now invoiceId | now orderId];
    cbn [step clock_ok edits_records] in *.
  - pose proof (saveQuotation_counter (quotationsData st) now freshId params) as Hs.
    destruct (UseSavedQuotations.saveQuotation _ now freshId params)
      as [[data' quotationId] | e |].
    + eexists _, _. split; [reflexivity |]. destruct (Js.truthy _).
      * cbn. rewrite Hs.
        split; [| split]; apply tracks_nothing; assumption.
      * destruct Hs as [Hc Hn]. cbn. rewrite Hc, Hn.
        split; [apply tracks_one; assumption |].
        split; apply tracks_nothing; assumption.
    + eexists _, _. split; [reflexivity |].
      cbn. split; [| split]; apply tracks_nothing; assumption.
    + congruence.
  - eexists _, _. split; [reflexivity |].
    cbn. split; [| split]; apply tracks_nothing; assumption.
  - destruct (createInvoiceFromQuotation_cases st now invoiceId orderId q
                (UseSavedQuotations.deleteQuotation now)) as [[invoice Hnew] | Hthrow].
    + rewrite (createInvoiceFromQuotation_Normal st now invoiceId orderId q _
                 invoice Hnew).
      eexists _, _. split; [reflexivity |].
      cbn. rewrite !lookup_insert_eq. cbn.
      rewrite (newInvoiceOf_number _ _ _ _ _ Hnew).
      split; [apply tracks_nothing; exact Hq |].
      split; apply tracks_one; assumption.
    + rewrite Hthrow. eexists _, _. split; [reflexivity |].
      cbn. split; [| split]; apply tracks_nothing; assumption.
  - unfold InvoiceCascade.deleteInvoice. cbv zeta.
    eexists _, _. split; [reflexivity |].
    cbn [quotationsData invoicesData ordersData quotationNumbers invoiceNumbers
         orderNumbers nothing].
    split; [apply tracks_nothing; exact Hq |].
    split; [apply tracks_nothing; exact Hi |].
    apply tracks_nothing.
    destruct (Js.get _ _); try exact Ho;
      destruct (InvoiceCascade.orderToDelete values invoiceId); try exact Ho;
      destruct rr; exact Ho.
  - eexists _, _. split; [reflexivity |].
    cbn. split; [| split]; apply tracks_nothing; assumption.
Qed.

Lemma run_tracks (ops : list Op) :
  forall (st : Stores) (vq vi vo : Z),
    reads "QT" (quotationCounter st) vq ->
    reads "INV" (invoiceCounter st) vi ->
    reads "ORD" (orderCounter st) vo ->
    Forall clock_ok ops ->
    Forall edits_records ops ->
    exists st' issued,
      run st ops = Some (st', issued) /\
      tracks "QT" vq (quotationCounter st') (quotationNumbers issued) /\
      tracks "INV" vi (invoiceCounter st') (invoiceNumbers issued) /\
      tracks "ORD" vo (orderCounter st') (orderNumbers issued).
Proof.
  induction ops as [| op ops IH]; intros st vq vi vo Hq Hi Ho Hclock Hedit.
  - exists st, nothing. split; [reflexivity |].
    cbn. split; [| split]; apply tracks_nothing; assumption.
  - inversion Hclock as [| ? ? Hop Hrest]; subst.
    inversion Hedit as [| ? ? Hop' Hrest']; subst.
    destruct (step_tracks st op vq vi vo Hq Hi Ho Hop Hop')
      as (st1 & issued1 & Hs & Tq & Ti & To).
    destruct (IH st1 _ _ _ (proj2 Tq) (proj2 Ti) (proj2 To) Hrest Hrest')
      as (st2 & issued2 & Hr & Rq & Ri & Ro).
    exists st2, (both issued1 issued2). cbn [run]. rewrite Hs, Hr.
    split; [reflexivity |].
    cbn [both quotationNumbers invoiceNumbers orderNumbers].
    split; [| split]; eapply tracks_app; eassumption.
Qed.

Lemma tracks_in_sequence (prefix counter counter' : string) (v : Z)
      (numbers : list string) :
  reads prefix counter v -> tracks prefix v counter' numbers ->
  issued_in_sequence prefix counter counter' numbers.
Proof.
  intros [_ Hv] [Hcons [Hwf' Hv']]. exists v.
  split; [exact Hv |]. split; [exact Hcons |]. split; [| split; assumption].
  intros i j a b Hij Ha Hb.
  exists (v + Z.of_nat i)%Z, (v + Z.of_nat j)%Z.
  split; [| split; [| lia]].
  - apply (consecutive_lookup v _ Hcons i).
    change (List.map (extractSerial prefix)) with (fmap (M := list) (extractSerial prefix)).
    rewrite list_lookup_fmap, Ha. reflexivity.
  - apply (consecutive_lookup v _ Hcons j).
    change (List.map (extractSerial prefix)) with (fmap (M := list) (extractSerial prefix)).
    rewrite list_lookup_fmap, Hb. reflexivity.
Qed.

(** C7, as stated, fails: not every counter state yields increasing
    serials.  From the quotation counter [QT-1], two quotations saved one
    after the other are issued [QT2501150-1] and [QT2501150000]: the counter
    moves from -1 to 0 and then to 1, but the serial extracted from both
    numbers is 0. *)
Lemma malformed_counter_repeats_serial :
  exists st' issued,
    run Samples.storesMalformed
        [SaveQuotation Samples.noon "quot_a" Samples.saveParams;
         SaveQuotation Samples.noon "quot_b" Samples.saveParams]
    = Some (st', issued) /\
    quotationCounter Samples.storesMalformed = "QT-1" /\
    currentNum "QT" (quotationCounter Samples.storesMalformed) = Some (-1)%Z /\
    quotationNumbers issued = ["QT2501150-1"; "QT2501150000"] /\
    List.map (extractSerial "QT") (quotationNumbers issued)
    = [Some 0%Z; Some 0%Z] /\
    quotationCounter st' = "QT0001".
Proof. eexists _, _. split; [vm_compute; reflexivity |]. repeat split. Qed.

(** C7, amended.  For counters of the three families that are well formed
    (the prefix followed by decimal digits, as the engine creates and
    rewrites them) and within the range of exact integers, and any sequence
    of saves, promotions and deletions whose dates have a year of two digits
    or more and whose edits do not name a quotation by a name every object
    inherits: the sequence runs to its end, and each issue moves the
    family's serial up by exactly one: the quotation, invoice and order
    numbers issued carry, in issuance order, the serials v, v + 1, v + 2,
    ... of their counter, strictly increasing whatever the calendar date of
    each call, and the counter ends at v plus the number of issues; a
    deletion issues nothing and leaves every counter where it was, so no
    serial is issued twice. *)
Theorem numbering_monotone (st : Stores) (ops : list Op) :
  wf_counter "QT" (quotationCounter st) ->
  wf_counter "INV" (invoiceCounter st) ->
  wf_counter "ORD" (orderCounter st) ->
  within_safe_range "QT" (quotationCounter st) (List.length ops) ->
  within_safe_range "INV" (invoiceCounter st) (List.length ops) ->
  within_safe_range "ORD" (orderCounter st) (List.length ops) ->
  Forall clock_ok ops ->
  Forall edits_records ops ->
  exists st' issued,
    run st ops = Some (st', issued) /\
    issued_in_sequence "QT" (quotationCounter st) (quotationCounter st')
                       (quotationNumbers issued) /\
    issued_in_sequence "INV" (invoiceCounter st) (invoiceCounter st')
                       (invoiceNumbers issued) /\
    issued_in_sequence "ORD" (orderCounter st) (orderCounter st')
                       (orderNumbers issued).
Proof.
  intros Wq Wi Wo (vq & Hvq & _) (vi & Hvi & _) (vo & Hvo & _) Hclock Hedit.
  assert (reads "QT" (quotationCounter st) vq) as Rq by (split; assumption).
  assert (reads "INV" (invoiceCounter st) vi) as Ri by (split; assumption).
  assert (reads "ORD" (orderCounter st) vo) as Ro by (split; assumption).
  destruct (run_tracks ops st vq vi vo Rq Ri Ro Hclock Hedit)
    as (st' & issued & Hr & Tq & Ti & To).
  exists st', issued. split; [exact Hr |].
  split; [| split]; eapply tracks_in_sequence; eassumption.
Qed.

Lemma numbering_monotone_witness :
  let st := Samples.stores1 in
  exists st' issued,
    run st Samples.lifecycleOps = Some (st', issued) /\
    issued_in_sequence "QT" (quotationCounter st) (quotationCounter st')
                       (quotationNumbers issued) /\
    issued_in_sequence "INV" (invoiceCounter st) (invoiceCounter st')
                       (invoiceNumbers issued) /\
    issued_in_sequence "ORD" (orderCounter st) (orderCounter st')
                       (orderNumbers issued).
Proof.
  apply (numbering_monotone Samples.stores1 Samples.lifecycleOps).
  - exists "0002". repeat split. discriminate.
  - exists "0001". repeat split. discriminate.
  - exists "0001". repeat split. discriminate.
  - exists 2%Z. split; reflexivity.
  - exists 1%Z. split; reflexivity.
  - exists 1%Z. split; reflexivity.
  - repeat constructor; cbn; lia.
  - repeat constructor.
Defined.

(** The numbers that run issues, and the counters it leaves: the invoice and
    the order of the first promotion are deleted, and their serials are not
    issued again. *)
Example lifecycle_numbers :
  exists st' issued,
    run Samples.stores1 Samples.lifecycleOps = Some (st', issued) /\
    quotationNumbers issued = ["QT2501150002"; "QT2603010003"] /\
    invoiceNumbers issued = ["INV2501150001"; "INV2603010002"] /\
    orderNumbers issued = ["ORD2501150001"; "ORD2603010002"] /\
    quotationCounter st' = "QT0004" /\
    invoiceCounter st' = "INV0003" /\
    orderCounter st' = "ORD0003" /\
    SavedInvoicesData.invoices (invoicesData st') !! "inv_a" = None /\
    OrdersData.orders (ordersData st') !! "order_a" = None.
Proof. eexists _, _. split; [vm_compute; reflexivity |]. repeat split. Qed.

(** On a counter that is not the prefix followed by digits [parseInt] can
    also give NaN: the counter becomes [QT0NaN], and the next issue reads it
    as 0 and restarts the sequence. *)
Example malformed_counter :
  currentNum "QT" "QT-draft" = None /\
  next "QT" "QT-draft" = "QT0NaN" /\
  next "QT" "QT0NaN" = "QT0001".
Proof. repeat split. Qed.

End Numbering.

(** ** JavaScript primitives on concrete inputs *)

Example parseInt_ex1 : Js.parseInt "0001" = Some 1%Z. Proof. reflexivity. Qed.
Example parseInt_ex2 : Js.parseInt "abc" = None. Proof. reflexivity. Qed.
Example parseInt_ex3 : Js.parseInt " -12px" = Some (-12)%Z. Proof. reflexivity. Qed.
Example parseInt_ex4 : Js.parseInt "0x1f" = Some 31%Z. Proof. reflexivity. Qed.
Example String_ex1 : Js.String_ (Some 1234%Z) = "1234". Proof. reflexivity. Qed.
Example String_ex2 : Js.String_ (Some 0%Z) = "0". Proof. reflexivity. Qed.
Example padStart_ex1 : Js.padStart 4 "0" "12" = "0012". Proof. reflexivity. Qed.
Example padStart_ex2 : Js.padStart 3 "0" "0001" = "0001". Proof. reflexivity. Qed.
Example replace_ex1 : Js.replace "QT" "" "QT0001" = "0001". Proof. reflexivity. Qed.
Example replace_ex2 : Js.replace "Net " "" "Net 15" = "15". Proof. reflexivity. Qed.
Example slice_ex1 : Js.slice_last 2 "2025" = "25". Proof. reflexivity. Qed.
Example lower_ex1 : Js.toLowerCase "KarnaTAKA" = "karnataka". Proof. reflexivity. Qed.

(* ===================================================================== *)
(** * Further properties of the engine                                   *)
(* ===================================================================== *)

(** ** The working part list *)

Section WorkingListFacts.
Import GstCalculator QuotationPage WorkingList.

Lemma lookup_filter_In {A : Type} (f : A -> bool) (l : list A) (i : nat) (x : A) :
  List.filter f l !! i = Some x -> f x = true /\ In x l.
Proof.
  intros H. apply list_elem_of_lookup_2, list_elem_of_In, filter_In in H.
  tauto.
Qed.

(** X1. [handleDeletePart]: the part is gone, the others keep their order and
    every field but the serial number, and the serial numbers are 1, 2, ...
    again, whatever they were before. *)
Theorem handleDeletePart_renumbers (parts : list QuotationPart.t)
        (partId : string) :
  let kept :=
    List.filter (fun part => negb (String.eqb (QuotationPart.id part) partId))
                parts in
  let parts' := handleDeletePart parts partId in
  dense parts' /\
  List.length parts' = List.length kept /\
  (forall i p, parts' !! i = Some p -> QuotationPart.id p <> partId) /\
  (forall i p, parts' !! i = Some p ->
               exists q, kept !! i = Some q /\
                         p = withSerialNumber q (Z.of_nat i + 1)) /\
  (dense parts ->
   forall i p, parts !! i = Some p -> QuotationPart.id p <> partId ->
               (forall j q, (j < i)%nat -> parts !! j = Some q ->
                            QuotationPart.id q <> partId) ->
               parts' !! i = Some p).
Proof.
  intros kept parts'. subst parts'. unfold handleDeletePart. fold kept.
  assert (forall i p,
             imap (fun index part => withSerialNumber part (Z.of_nat index + 1))
                  kept !! i = Some p ->
             exists q, kept !! i = Some q /\
                       p = withSerialNumber q (Z.of_nat i + 1)) as Hlk.
  { intros i p H. rewrite list_lookup_imap in H.
    destruct (kept !! i) as [q |]; cbn in H; [| discriminate].
    exists q. split; [reflexivity | congruence]. }
  split; [| split; [| split; [| split]]].
  - intros i p H. destruct (Hlk i p H) as (q & _ & ->). reflexivity.
  - apply length_imap.
  - intros i p H. destruct (Hlk i p H) as (q & Hq & ->). cbn.
    apply lookup_filter_In in Hq as [Hq _].
    apply negb_true_iff, String.eqb_neq in Hq. exact Hq.
  - exact Hlk.
  - intros Hdense i p Hp Hid Hbefore.
    assert (take (S i) kept = take (S i) parts) as Htake.
    { subst kept. clear Hdense Hlk.
      revert i p Hp Hid Hbefore.
      induction parts as [| a l IH]; intros i p Hp Hid Hbefore; [discriminate |].
      destruct i as [| i]; cbn in Hp.
      - inversion Hp; subst a. cbn.
        apply String.eqb_neq in Hid. rewrite Hid. reflexivity.
      - assert (QuotationPart.id a <> partId) as Ha
            by (apply (Hbefore 0%nat a); [lia | reflexivity]).
        cbn. apply String.eqb_neq in Ha. rewrite Ha. cbn. f_equal.
        apply (IH i p Hp Hid). intros j q Hj Hq.
        apply (Hbefore (S j) q); [lia | exact Hq]. }
    rewrite list_lookup_imap.
    assert (kept !! i = Some p) as Hk.
    { rewrite <- (lookup_take_lt kept (S i) i) by lia.
      rewrite Htake, lookup_take_lt by lia. exact Hp. }
    rewrite Hk. cbn. f_equal. rewrite <- (Hdense i p Hp). destruct p; reflexivity.
Qed.

Lemma currentMaxSerial_upper (parts : list QuotationPart.t) :
  forall p, In p parts ->
            (QuotationPart.serialNumber p <= currentMaxSerial parts)%Z.
Proof.
  destruct parts as [| a l]; [intros p [] |].
  cbn [currentMaxSerial].
  assert (forall (l : list QuotationPart.t) (m : Z),
             (m <= fold_left (fun m q => Z.max m (QuotationPart.serialNumber q)) l m)%Z
             /\ forall p, In p l ->
                  (QuotationPart.serialNumber p
                   <= fold_left (fun m q => Z.max m (QuotationPart.serialNumber q)) l m)%Z)
    as Hfold.
  { clear. induction l as [| b l IH]; intros m; cbn.
    - split; [lia | intros p []].
    - destruct (IH (Z.max m (QuotationPart.serialNumber b))) as [H1 H2].
      split; [lia |]. intros p [-> | Hp]; [lia | apply H2; exact Hp]. }
  intros p [-> | Hp].
  - apply (proj1 (Hfold l (QuotationPart.serialNumber p))).
  - apply (proj2 (Hfold l (QuotationPart.serialNumber a))). exact Hp.
Qed.

Lemma newPartsFrom_lower (parseFile : File.t -> option Geometry.t)
      (maxSerial : Z) (files : list (File.t * string)) :
  forall (i j : nat) (p : QuotationPart.t),
    newPartsFrom parseFile maxSerial i files !! j = Some p ->
    (maxSerial + Z.of_nat i + Z.of_nat j + 1 <= QuotationPart.serialNumber p)%Z.
Proof.
  induction files as [| [file partId] rest IH]; intros i j p H; [discriminate |].
  cbn [newPartsFrom] in H. destruct (parseFile file) as [g |].
  - destruct j as [| j]; cbn in H.
    + inversion H; subst p. cbn. lia.
    + apply IH in H. lia.
  - apply IH in H. lia.
Qed.

Lemma newPartsFrom_increasing (parseFile : File.t -> option Geometry.t)
      (maxSerial : Z) (files : list (File.t * string)) :
  forall (i j k : nat) (p q : QuotationPart.t),
    (j < k)%nat ->
    newPartsFrom parseFile maxSerial i files !! j = Some p ->
    newPartsFrom parseFile maxSerial i files !! k = Some q ->
    (QuotationPart.serialNumber p < QuotationPart.serialNumber q)%Z.
Proof.
  induction files as [| [file partId] rest IH]; intros i j k p q Hjk Hp Hq;
    [discriminate |].
  cbn [newPartsFrom] in Hp, Hq. destruct (parseFile file) as [g |].
  - destruct k as [| k]; [lia |]. cbn in Hq. destruct j as [| j]; cbn in Hp.
    + inversion Hp; subst p. cbn. apply newPartsFrom_lower in Hq. lia.
    + apply (IH (S i) j k p q); [lia | assumption | assumption].
  - apply (IH (S i) j k p q); assumption.
Qed.

Lemma newPartsFrom_fresh (parseFile : File.t -> option Geometry.t)
      (maxSerial : Z) (files : list (File.t * string)) :
  forall (i j : nat) (p : QuotationPart.t),
    newPartsFrom parseFile maxSerial i files !! j = Some p ->
    QuotationPart.technology p = None /\ QuotationPart.material p = None /\
    QuotationPart.quantity p = 1%Q /\
    QuotationPart.unitPrice p = 0%Q /\ QuotationPart.totalPrice p = 0%Q /\
    QuotationPart.gstAmount p = 0%Q /\ QuotationPart.finalPrice p = 0%Q /\
    QuotationPart.selected p = Some false.
Proof.
  induction files as [| [file partId] rest IH]; intros i j p H; [discriminate |].
  cbn [newPartsFrom] in H. destruct (parseFile file) as [g |].
  - destruct j as [| j]; cbn in H; [| exact (IH _ _ _ H)].
    inversion H; subst p. cbn. repeat split.
  - exact (IH _ _ _ H).
Qed.

Lemma newPartsFrom_all_parsed (parseFile : File.t -> option Geometry.t)
      (maxSerial : Z) (files : list (File.t * string)) :
  Forall (fun f => is_Some (parseFile (fst f))) files ->
  forall (i j : nat) (p : QuotationPart.t),
    newPartsFrom parseFile maxSerial i files !! j = Some p ->
    QuotationPart.serialNumber p = (maxSerial + Z.of_nat i + Z.of_nat j + 1)%Z.
Proof.
  induction 1 as [| [file partId] rest [g Hg] _ IH]; intros i j p H;
    [discriminate |].
  cbn [newPartsFrom] in H. cbn in Hg. rewrite Hg in H.
  destruct j as [| j]; cbn in H.
  - inversion H; subst p. cbn. lia.
  - rewrite (IH _ _ _ H). lia.
Qed.

(** X2. [handleFilesSelected]: the parts already listed stay in front,
    unchanged; each new part starts without process, material or price; its
    serial number is above every serial number already in use, and the new
    serial numbers increase in upload order, also when the parser rejects some
    of the files. *)
Theorem handleFilesSelected_serials (parseFile : File.t -> option Geometry.t)
        (parts : list QuotationPart.t) (files : list (File.t * string)) :
  let parts' := handleFilesSelected parseFile parts files in
  let n := List.length parts in
  (forall i p, parts !! i = Some p -> parts' !! i = Some p) /\
  (forall j p, parts' !! (n + j)%nat = Some p ->
     (forall q, In q parts ->
                (QuotationPart.serialNumber q < QuotationPart.serialNumber p)%Z) /\
     QuotationPart.technology p = None /\ QuotationPart.material p = None /\
     QuotationPart.quantity p = 1%Q /\
     QuotationPart.unitPrice p = 0%Q /\ QuotationPart.totalPrice p = 0%Q /\
     QuotationPart.gstAmount p = 0%Q /\ QuotationPart.finalPrice p = 0%Q) /\
  (forall j k p q, (j < k)%nat ->
     parts' !! (n + j)%nat = Some p -> parts' !! (n + k)%nat = Some q ->
     (QuotationPart.serialNumber p < QuotationPart.serialNumber q)%Z) /\
  (List.length parts' <= n + List.length files)%nat.
Proof.
  intros parts' n. subst parts' n. unfold handleFilesSelected.
  split; [| split; [| split]].
  - intros i p H. rewrite lookup_app_l by (eapply lookup_lt_Some; eassumption).
    exact H.
  - intros j p H. rewrite lookup_app_r in H by lia.
    replace (List.length parts + j - List.length parts)%nat with j in H by lia.
    split.
    + intros q Hq. apply currentMaxSerial_upper in Hq.
      apply newPartsFrom_lower in H. lia.
    + destruct (newPartsFrom_fresh _ _ _ _ _ _ H)
        as (H1 & H2 & H3 & H4 & H5 & H6 & H7 & _).
      repeat split; assumption.
  - intros j k p q Hjk Hp Hq. rewrite lookup_app_r in Hp, Hq by lia.
    replace (List.length parts + j - List.length parts)%nat with j in Hp by lia.
    replace (List.length parts + k - List.length parts)%nat with k in Hq by lia.
    eapply newPartsFrom_increasing; eassumption.
  - rewrite length_app.
    assert (forall i fs, (List.length (newPartsFrom parseFile (currentMaxSerial parts) i fs)
                          <= List.length fs)%nat) as Hlen.
    { intros i fs. revert i. induction fs as [| [f pid] r IH]; intros i; cbn; [lia |].
      destruct (parseFile f); cbn; specialize (IH (S i)); lia. }
    specialize (Hlen 0%nat files). lia.
Qed.

End WorkingListFacts.

(** ** Serial numbers along a session *)

Section SerialNumbers.
Import GstCalculator QuotationPage WorkingList.

Lemma recompute_serial (td : TechnologiesData.t) (c : option Customer.t)
      (up : QuotationPart.t) (t m : option string) (q : Q) (p : QuotationPart.t) :
  recompute td c up t m q = Js.Normal p ->
  QuotationPart.serialNumber p = QuotationPart.serialNumber up /\
  QuotationPart.id p = QuotationPart.id up.
Proof.
  unfold recompute. intros H.
  destruct t as [tech |]; [| discriminate].
  destruct m as [mat |]; [| discriminate].
  destruct (lookupMaterial td tech mat) as [material | e |]; cbn in H;
    try discriminate.
  destruct c as [cust |]; [| discriminate].
  inversion H; subst p. split; reflexivity.
Qed.

Lemma updateOnePart_serial (td : TechnologiesData.t) (c : option Customer.t)
      (updates : PartUpdates.t) (part p : QuotationPart.t) :
  PartUpdates.serialNumber updates = None ->
  updateOnePart td c updates part = Js.Normal p ->
  QuotationPart.serialNumber p = QuotationPart.serialNumber part.
Proof.
  intros Hs H. unfold updateOnePart in H. cbv zeta in H.
  assert (QuotationPart.serialNumber (spread part updates)
          = QuotationPart.serialNumber part) as Hspread
      by (cbn; rewrite Hs; reflexivity).
  destruct (_ && _) in H.
  - apply recompute_serial in H as [H _]. congruence.
  - inversion H; subst p. exact Hspread.
Qed.

Lemma bulkUpdatePart_serial (td : TechnologiesData.t) (c : option Customer.t)
      (updates : PartUpdates.t) (part p : QuotationPart.t) :
  PartUpdates.serialNumber updates = None ->
  bulkUpdatePart td c updates part = Js.Normal p ->
  QuotationPart.serialNumber p = QuotationPart.serialNumber part.
Proof.
  intros Hs H. unfold bulkUpdatePart in H. cbv zeta in H.
  assert (QuotationPart.serialNumber (spread part updates)
          = QuotationPart.serialNumber part) as Hspread
      by (cbn; rewrite Hs; reflexivity).
  assert (forall r,
             (if materialRule c updates (spread part updates)
              then recompute td c (spread part updates)
                     (QuotationPart.technology (spread part updates))
                     (flat (PartUpdates.material updates))
                     (QuotationPart.quantity (spread part updates))
              else if technologyRule updates
                   then Js.Normal (setPricing (spread part updates) 0 0 0 0)
                   else Js.Normal (spread part updates)) = Js.Normal r ->
             QuotationPart.serialNumber r = QuotationPart.serialNumber part)
    as Hother.
  { intros r Hr. destruct (materialRule _ _ _).
    - apply recompute_serial in Hr as [Hr _]. congruence.
    - destruct (technologyRule _); inversion Hr; subst r; exact Hspread. }
  destruct (PartUpdates.quantity updates) as [q |]; [| exact (Hother p H)].
  destruct (quantityRule _ _ _); [| exact (Hother p H)].
  apply recompute_serial in H as [H _]. congruence.
Qed.

Lemma mapM_dense (f : QuotationPart.t -> Js.Completion QuotationPart.t)
      (l l' : list QuotationPart.t) :
  (forall x y, f x = Js.Normal y ->
               QuotationPart.serialNumber y = QuotationPart.serialNumber x) ->
  Js.mapM f l = Js.Normal l' -> dense l -> dense l'.
Proof.
  intros Hf Hm Hd i p Hp.
  destruct (mapM_Normal f l l' Hm) as [Hlen Hlk].
  destruct (l !! i) as [x |] eqn:Hx.
  - destruct (Hlk i x Hx) as (y & Hy & Hy').
    rewrite Hp in Hy'. inversion Hy'; subst y.
    rewrite (Hf x p Hy). apply Hd. exact Hx.
  - apply lookup_ge_None in Hx. apply lookup_lt_Some in Hp. lia.
Qed.

Lemma handleUpdatePart_dense (td : TechnologiesData.t) (c : option Customer.t)
      (parts : list QuotationPart.t) (partId : string) (updates : PartUpdates.t) :
  PartUpdates.serialNumber updates = None -> dense parts ->
  forall l',
    partsAfter parts (handleUpdatePart td c parts partId updates) = Some l' ->
    dense l'.
Proof.
  intros Hs Hd l' Ha. unfold partsAfter in Ha.
  destruct (handleUpdatePart td c parts partId updates) as [l | e |] eqn:H;
    inversion Ha; subst l'; [| exact Hd].
  refine (mapM_dense _ parts l _ H Hd). intros x y Hxy.
  destruct (String.eqb (QuotationPart.id x) partId).
  - exact (updateOnePart_serial td c updates x y Hs Hxy).
  - inversion Hxy; reflexivity.
Qed.

Lemma handleUpdateParts_dense (td : TechnologiesData.t) (c : option Customer.t)
      (parts : list QuotationPart.t) (partIds : list string)
      (updates : PartUpdates.t) :
  PartUpdates.serialNumber updates = None -> dense parts ->
  forall l',
    partsAfter parts (handleUpdateParts td c parts partIds updates) = Some l' ->
    dense l'.
Proof.
  intros Hs Hd l' Ha. unfold partsAfter in Ha.
  destruct (handleUpdateParts td c parts partIds updates) as [l | e |] eqn:H;
    inversion Ha; subst l'; [| exact Hd].
  refine (mapM_dense _ parts l _ H Hd). intros x y Hxy.
  destruct (includes partIds (QuotationPart.id x)).
  - exact (bulkUpdatePart_serial td c updates x y Hs Hxy).
  - inversion Hxy; reflexivity.
Qed.

Lemma map_dense (g : QuotationPart.t -> QuotationPart.t)
      (l : list QuotationPart.t) :
  (forall x, QuotationPart.serialNumber (g x) = QuotationPart.serialNumber x) ->
  dense l -> dense (List.map g l).
Proof.
  intros Hg Hd i p Hp. change (List.map g l) with (g <$> l) in Hp.
  rewrite list_lookup_fmap in Hp.
  destruct (l !! i) as [x |] eqn:Hx; cbn in Hp; [| discriminate].
  inversion Hp; subst p. rewrite Hg. apply Hd. exact Hx.
Qed.

Lemma currentMaxSerial_le (parts : list QuotationPart.t) (b : Z) :
  (0 <= b)%Z ->
  (forall p, In p parts -> (QuotationPart.serialNumber p <= b)%Z) ->
  (currentMaxSerial parts <= b)%Z.
Proof.
  intros Hb H. destruct parts as [| a l]; [exact Hb |]. cbn [currentMaxSerial].
  assert (QuotationPart.serialNumber a <= b)%Z as Ha by (apply H; left; reflexivity).
  assert (forall p, In p l -> (QuotationPart.serialNumber p <= b)%Z) as Hl
      by (intros p Hp; apply H; right; exact Hp).
  clear H. revert Ha Hl. generalize (QuotationPart.serialNumber a).
  induction l as [| x l IH]; intros m Hm Hl; cbn; [exact Hm |].
  apply IH.
  - specialize (Hl x (or_introl eq_refl)). lia.
  - intros p Hp. apply Hl. right. exact Hp.
Qed.

Lemma currentMaxSerial_dense (parts : list QuotationPart.t) :
  dense parts -> currentMaxSerial parts = Z.of_nat (List.length parts).
Proof.
  intros Hd. apply Z.le_antisymm.
  - apply currentMaxSerial_le; [lia |]. intros p Hp.
    apply list_elem_of_In, list_elem_of_lookup_1 in Hp as [i Hi].
    rewrite (Hd i p Hi). apply lookup_lt_Some in Hi. lia.
  - destruct (List.length parts) as [| n] eqn:Hn.
    + destruct parts; [reflexivity | discriminate].
    + destruct (parts !! n) as [p |] eqn:Hp.
      * pose proof (currentMaxSerial_upper parts p) as Hu.
        rewrite (Hd n p Hp) in Hu.
        assert (In p parts) as Hin
            by (apply list_elem_of_In; eapply list_elem_of_lookup_2; eassumption).
        specialize (Hu Hin). lia.
      * apply lookup_ge_None in Hp. lia.
Qed.

Lemma handleFilesSelected_dense (parseFile : File.t -> option Geometry.t)
      (parts : list QuotationPart.t) (files : list (File.t * string)) :
  Forall (fun f => is_Some (parseFile (fst f))) files ->
  dense parts -> dense (handleFilesSelected parseFile parts files).
Proof.
  intros Hall Hd i p Hp. unfold handleFilesSelected in Hp.
  apply lookup_app_Some in Hp as [Hl | [Hge Hr]].
  - apply Hd. exact Hl.
  - rewrite (newPartsFrom_all_parsed _ _ _ Hall _ _ _ Hr).
    rewrite (currentMaxSerial_dense parts Hd). lia.
Qed.

(** The part the manual form hands over carries the serial number and the
    id it was given. *)
Lemma handleSubmit_serial (td : TechnologiesData.t) (c : option Customer.t)
      (nextSerialNumber : Z) (partId : string)
      (formData : ManualPartForm.FormData.t) (part : QuotationPart.t) :
  ManualPartForm.handleSubmit td c nextSerialNumber partId formData
  = Js.Normal (Some part) ->
  QuotationPart.serialNumber part = nextSerialNumber /\
  QuotationPart.id part = partId.
Proof.
  unfold ManualPartForm.handleSubmit. intros H.
  destruct (ManualPartForm.selectedMaterial td formData) as [sel | e |];
    cbn [Js.bind] in H; try discriminate.
  destruct (ManualPartForm.validateForm formData); [| discriminate].
  destruct c as [cust |]; [| discriminate].
  destruct sel as [m | |]; try discriminate.
  inversion H; subst part. split; reflexivity.
Qed.

Lemma submit_dense (td : TechnologiesData.t) (c : option Customer.t)
      (parts : list QuotationPart.t) (partId : string)
      (formData : ManualPartForm.FormData.t) :
  dense parts ->
  forall l',
    partsAfter parts (ManualPartForm.submit td c parts partId formData)
    = Some l' ->
    dense l'.
Proof.
  intros Hd l' Ha. unfold ManualPartForm.submit in Ha.
  destruct (ManualPartForm.handleSubmit td c _ partId formData)
    as [[part |] | e |] eqn:H; cbn in Ha; inversion Ha; subst l';
    try exact Hd.
  apply handleSubmit_serial in H as [Hs _].
  intros i p Hp. unfold handleSaveManualPart in Hp.
  apply lookup_app_Some in Hp as [Hl | [Hge Hr]].
  - apply Hd. exact Hl.
  - destruct (i - List.length parts)%nat as [| k] eqn:Hk; cbn in Hr;
      [| discriminate].
    inversion Hr; subst p. rewrite Hs. lia.
Qed.

Lemma onCard_dense (w : Workspace.t) (card : nat)
      (handler : QuotationPart.t -> Js.Completion (list QuotationPart.t)) :
  (forall part l',
      partsAfter (Workspace.parts w) (handler part) = Some l' -> dense l') ->
  dense (Workspace.parts w) ->
  forall l', Workspace.onCard w card handler = Some l' -> dense l'.
Proof.
  intros H Hd l'. unfold Workspace.onCard.
  destruct (Workspace.parts w !! card) as [part |]; [apply H |].
  intros Ha. inversion Ha; subst l'. exact Hd.
Qed.

Lemma keepCustomer_parts (w w' : Workspace.t)
      (parts' : option (list QuotationPart.t)) :
  Workspace.keepCustomer w parts' = Some w' ->
  parts' = Some (Workspace.parts w') /\
  Workspace.selectedCustomerId w' = Workspace.selectedCustomerId w.
Proof.
  unfold Workspace.keepCustomer. destruct parts' as [l |]; [| discriminate].
  intros H. inversion H; subst w'. split; reflexivity.
Qed.

Lemma handleCustomerChange_dense (cd : CustomersData.t)
      (parts l : list QuotationPart.t) (customerId : string) :
  handleCustomerChange cd parts customerId = Js.Normal l ->
  dense parts -> dense l.
Proof.
  unfold handleCustomerChange. intros H Hd.
  destruct (customerAt cd customerId) as [customer | |].
  - inversion H; subst l. apply map_dense; [| exact Hd]. intros x.
    destruct (Qlt_le_dec 0 _); reflexivity.
  - destruct (existsb _ parts); [discriminate |].
    inversion H; subst l. exact Hd.
  - inversion H; subst l. apply map_dense; [| exact Hd].
    intros x. reflexivity.
Qed.

Lemma stepWith_dense (td : TechnologiesData.t) (cd : CustomersData.t)
      (parseFile : File.t -> option Geometry.t)
      (customer : option Customer.t) (w w' : Workspace.t)
      (op : Workspace.Op) :
  Workspace.allParsed parseFile op -> dense (Workspace.parts w) ->
  Workspace.stepWith td cd parseFile customer w op = Some w' ->
  dense (Workspace.parts w').
Proof.
  intros Hop Hd Hs.
  destruct op as [partId | | partId | | customerId | files | partId formData
                  | card techId | card materialId | card quantity
                  | bulkTechnology bulkMaterial bulkQuantity];
    cbn [Workspace.stepWith] in Hs.
  - inversion Hs; subst w'. cbn [Workspace.parts].
    intros i p Hp. unfold handleDeletePart in Hp.
    rewrite list_lookup_imap in Hp.
    destruct (_ !! i) as [q |]; cbn in Hp; [| discriminate].
    inversion Hp; reflexivity.
  - inversion Hs; subst w'. intros i p Hp. discriminate.
  - inversion Hs; subst w'. cbn [Workspace.parts].
    apply map_dense; [| exact Hd]. intros x.
    destruct (String.eqb _ _); reflexivity.
  - inversion Hs; subst w'. cbn [Workspace.parts].
    apply map_dense; [| exact Hd]. intros x. reflexivity.
  - destruct (handleCustomerChange cd (Workspace.parts w) customerId)
      as [l | e |] eqn:Hc; try discriminate.
    inversion Hs; subst w'. cbn [Workspace.parts].
    exact (handleCustomerChange_dense cd _ l customerId Hc Hd).
  - inversion Hs; subst w'. cbn [Workspace.parts].
    apply handleFilesSelected_dense; assumption.
  - apply keepCustomer_parts in Hs as [Hs _].
    exact (submit_dense td customer _ partId formData Hd _ Hs).
  - apply keepCustomer_parts in Hs as [Hs _].
    refine (onCard_dense w card _ _ Hd _ Hs). intros part l'.
    unfold PartCard.handleTechnologyChange.
    destruct (_ && _);
      [apply handleUpdateParts_dense | apply handleUpdatePart_dense];
      (reflexivity || exact Hd).
  - apply keepCustomer_parts in Hs as [Hs _].
    refine (onCard_dense w card _ _ Hd _ Hs). intros part l'.
    unfold PartCard.handleMaterialChange.
    destruct customer as [cust |];
      [| intros Ha; inversion Ha; subst l'; exact Hd].
    destruct (negb _); [intros Ha; inversion Ha; subst l'; exact Hd |].
    destruct (_ && _); [apply handleUpdateParts_dense; (reflexivity || exact Hd) |].
    destruct (lookupMaterial td _ materialId) as [material | e |]; cbn [Js.bind].
    + apply handleUpdatePart_dense; (reflexivity || exact Hd).
    + intros Ha; inversion Ha; subst l'; exact Hd.
    + discriminate.
  - apply keepCustomer_parts in Hs as [Hs _].
    refine (onCard_dense w card _ _ Hd _ Hs). intros part l'.
    unfold PartCard.handleQuantityChange.
    destruct (_ && _); [apply handleUpdateParts_dense; (reflexivity || exact Hd) |].
    match goal with |- context [let '(_, _) := ?e in _] => destruct e end.
    apply handleUpdatePart_dense; (reflexivity || exact Hd).
  - apply keepCustomer_parts in Hs as [Hs _].
    unfold BulkActions.handleApplyBulkChanges in Hs.
    destruct (selectedParts (Workspace.parts w)) eqn:Hsel;
      [cbn in Hs; inversion Hs as [Hl]; exact Hd |].
    rewrite <- Hsel in Hs.
    refine (handleUpdateParts_dense td customer _ _ _ _ Hd _ Hs).
    unfold BulkActions.bulkUpdates. reflexivity.
Qed.

Lemma step_dense (td : TechnologiesData.t) (cd : CustomersData.t)
      (parseFile : File.t -> option Geometry.t) (w w' : Workspace.t)
      (op : Workspace.Op) :
  Workspace.allParsed parseFile op -> dense (Workspace.parts w) ->
  Workspace.step td cd parseFile w op = Some w' ->
  dense (Workspace.parts w').
Proof.
  intros Hop Hd. unfold Workspace.step.
  destruct (Workspace.customerProperty cd w) as [customer | |];
    [| discriminate |]; apply stepWith_dense; assumption.
Qed.

(** *** The session runs to its end when no inherited name is involved *)

Lemma lookupMaterial_typed (td : TechnologiesData.t) (tech mat : string) :
  Js.inherited mat = false -> lookupMaterial td tech mat <> Js.IllTyped.
Proof.
  intros Hplain. unfold lookupMaterial.
  destruct (Js.get (TechnologiesData.technologies td) tech) as [t | |];
    try discriminate.
  destruct (Js.get (Technology.materials t) mat) eqn:E; try discriminate.
  apply get_Inherited_inv in E as [_ E]. congruence.
Qed.

Lemma recompute_typed (td : TechnologiesData.t) (c : option Customer.t)
      (up : QuotationPart.t) (t m : option string) (q : Q) :
  Workspace.plainName m -> recompute td c up t m q <> Js.IllTyped.
Proof.
  intros Hplain. unfold recompute.
  destruct t as [tech |]; [| discriminate].
  destruct m as [mat |]; [| discriminate].
  pose proof (lookupMaterial_typed td tech mat Hplain) as Hl.
  destruct (lookupMaterial td tech mat) as [material | e |];
    cbn [Js.bind]; [destruct c | |]; congruence.
Qed.

Lemma recompute_material (td : TechnologiesData.t) (c : option Customer.t)
      (up : QuotationPart.t) (t m : option string) (q : Q) (p : QuotationPart.t) :
  recompute td c up t m q = Js.Normal p ->
  QuotationPart.material p = QuotationPart.material up.
Proof.
  unfold recompute. intros H.
  destruct t as [tech |]; [| discriminate].
  destruct m as [mat |]; [| discriminate].
  destruct (lookupMaterial td tech mat) as [material | e |]; cbn in H;
    try discriminate.
  destruct c as [cust |]; [| discriminate].
  inversion H; subst p. reflexivity.
Qed.

Lemma updateOnePart_plain (td : TechnologiesData.t) (c : option Customer.t)
      (updates : PartUpdates.t) (part : QuotationPart.t) :
  Workspace.plainName (QuotationPart.material (spread part updates)) ->
  updateOnePart td c updates part <> Js.IllTyped /\
  forall p, updateOnePart td c updates part = Js.Normal p ->
            Workspace.plainName (QuotationPart.material p).
Proof.
  intros Hplain. unfold updateOnePart. cbv zeta.
  destruct (_ && _).
  - split; [apply recompute_typed; exact Hplain |].
    intros p H. rewrite (recompute_material _ _ _ _ _ _ _ H). exact Hplain.
  - split; [discriminate |]. intros p H. inversion H; subst p. exact Hplain.
Qed.

Lemma bulkUpdatePart_plain (td : TechnologiesData.t) (c : option Customer.t)
      (updates : PartUpdates.t) (part : QuotationPart.t) :
  Workspace.plainName (QuotationPart.material (spread part updates)) ->
  bulkUpdatePart td c updates part <> Js.IllTyped /\
  forall p, bulkUpdatePart td c updates part = Js.Normal p ->
            Workspace.plainName (QuotationPart.material p).
Proof.
  intros Hplain. unfold bulkUpdatePart. cbv zeta.
  assert ((if materialRule c updates (spread part updates)
           then recompute td c (spread part updates)
                  (QuotationPart.technology (spread part updates))
                  (flat (PartUpdates.material updates))
                  (QuotationPart.quantity (spread part updates))
           else if technologyRule updates
                then Js.Normal (setPricing (spread part updates) 0 0 0 0)
                else Js.Normal (spread part updates)) <> Js.IllTyped /\
          forall p,
            (if materialRule c updates (spread part updates)
             then recompute td c (spread part updates)
                    (QuotationPart.technology (spread part updates))
                    (flat (PartUpdates.material updates))
                    (QuotationPart.quantity (spread part updates))
             else if technologyRule updates
                  then Js.Normal (setPricing (spread part updates) 0 0 0 0)
                  else Js.Normal (spread part updates)) = Js.Normal p ->
            Workspace.plainName (QuotationPart.material p)) as Hother.
  { destruct (materialRule c updates (spread part updates)) eqn:Hrule.
    - unfold materialRule in Hrule.
      rewrite !andb_true_iff in Hrule. destruct Hrule as [[_ Hm] _].
      apply truthy_Some in Hm as (mat & Hm & _).
      pose proof (spread_material part updates mat Hm) as Hs.
      rewrite Hm. rewrite Hs in Hplain. split.
      + apply recompute_typed. exact Hplain.
      + intros p H. rewrite (recompute_material _ _ _ _ _ _ _ H), Hs.
        exact Hplain.
    - destruct (technologyRule updates); (split; [discriminate |]);
        intros p H; inversion H; subst p; exact Hplain. }
  destruct (PartUpdates.quantity updates) as [q |]; [| exact Hother].
  destruct (quantityRule c updates (spread part updates)); [| exact Hother].
  split; [apply recompute_typed; exact Hplain |].
  intros p H. rewrite (recompute_material _ _ _ _ _ _ _ H). exact Hplain.
Qed.

(** A traversal whose callback keeps a property of the elements and stays
    within the declared types does so too. *)
Lemma mapM_plain {A : Type} (P : A -> Prop) (f : A -> Js.Completion A)
      (l : list A) :
  (forall x, P x -> f x <> Js.IllTyped /\ forall y, f x = Js.Normal y -> P y) ->
  Forall P l ->
  Js.mapM f l <> Js.IllTyped /\
  forall l', Js.mapM f l = Js.Normal l' -> Forall P l'.
Proof.
  intros Hf. induction l as [| a l IH]; intros Hall; cbn [Js.mapM].
  - split; [discriminate |]. intros l' H. inversion H. constructor.
  - inversion Hall as [| ? ? Ha Hl]; subst.
    destruct (Hf a Ha) as [Hta Hpa]. destruct (IH Hl) as [Htl Hpl].
    destruct (f a) as [b | e |]; cbn [Js.bind]; [| split; discriminate |
                                                  contradiction].
    destruct (Js.mapM f l) as [bs | e |]; cbn [Js.bind];
      [| split; discriminate | contradiction].
    split; [discriminate |]. intros l' H. inversion H; subst l'.
    constructor; [apply Hpa; reflexivity | apply Hpl; reflexivity].
Qed.

Lemma spread_plain (part : QuotationPart.t) (updates : PartUpdates.t) :
  Workspace.plainName (QuotationPart.material part) ->
  (forall m, PartUpdates.material updates = Some m -> Workspace.plainName m) ->
  Workspace.plainName (QuotationPart.material (spread part updates)).
Proof.
  intros Hp Hu. cbn [spread QuotationPart.material].
  destruct (PartUpdates.material updates) as [m |]; [apply Hu; reflexivity |].
  exact Hp.
Qed.

Lemma handleUpdatePart_plain (td : TechnologiesData.t) (c : option Customer.t)
      (parts : list QuotationPart.t) (partId : string) (updates : PartUpdates.t) :
  (forall m, PartUpdates.material updates = Some m -> Workspace.plainName m) ->
  Forall (fun part => Workspace.plainName (QuotationPart.material part)) parts ->
  exists l',
    partsAfter parts (handleUpdatePart td c parts partId updates) = Some l' /\
    Forall (fun part => Workspace.plainName (QuotationPart.material part)) l'.
Proof.
  intros Hu Hall.
  destruct (mapM_plain
              (fun part => Workspace.plainName (QuotationPart.material part))
              (fun part =>
                 if String.eqb (QuotationPart.id part) partId
                 then updateOnePart td c updates part else Js.Normal part)
              parts) as [Ht Hp]; [| exact Hall |].
  { intros x Hx. destruct (String.eqb (QuotationPart.id x) partId).
    - apply updateOnePart_plain, spread_plain; assumption.
    - split; [discriminate |]. intros y H. inversion H; subst y. exact Hx. }
  unfold handleUpdatePart.
  destruct (Js.mapM _ parts) as [l | e |]; cbn [partsAfter].
  - exists l. split; [reflexivity | apply Hp; reflexivity].
  - exists parts. split; [reflexivity | exact Hall].
  - contradiction.
Qed.

Lemma handleUpdateParts_plain (td : TechnologiesData.t) (c : option Customer.t)
      (parts : list QuotationPart.t) (partIds : list string)
      (updates : PartUpdates.t) :
  (forall m, PartUpdates.material updates = Some m -> Workspace.plainName m) ->
  Forall (fun part => Workspace.plainName (QuotationPart.material part)) parts ->
  exists l',
    partsAfter parts (handleUpdateParts td c parts partIds updates) = Some l' /\
    Forall (fun part => Workspace.plainName (QuotationPart.material part)) l'.
Proof.
  intros Hu Hall.
  destruct (mapM_plain
              (fun part => Workspace.plainName (QuotationPart.material part))
              (fun part =>
                 if includes partIds (QuotationPart.id part)
                 then bulkUpdatePart td c updates part else Js.Normal part)
              parts) as [Ht Hp]; [| exact Hall |].
  { intros x Hx. destruct (includes partIds (QuotationPart.id x)).
    - apply bulkUpdatePart_plain, spread_plain; assumption.
    - split; [discriminate |]. intros y H. inversion H; subst y. exact Hx. }
  unfold handleUpdateParts.
  destruct (Js.mapM _ parts) as [l | e |]; cbn [partsAfter].
  - exists l. split; [reflexivity | apply Hp; reflexivity].
  - exists parts. split; [reflexivity | exact Hall].
  - contradiction.
Qed.

Lemma map_plain (g : QuotationPart.t -> QuotationPart.t)
      (l : list QuotationPart.t) :
  (forall x, QuotationPart.material (g x) = QuotationPart.material x) ->
  Forall (fun part => Workspace.plainName (QuotationPart.material part)) l ->
  Forall (fun part => Workspace.plainName (QuotationPart.material part))
         (List.map g l).
Proof.
  intros Hg Hall. induction Hall as [| a l Ha _ IH]; cbn [List.map];
    constructor; [rewrite Hg; exact Ha | exact IH].
Qed.

Lemma newPartsFrom_plain (parseFile : File.t -> option Geometry.t)
      (maxSerial : Z) (files : list (File.t * string)) :
  forall i,
    Forall (fun part => Workspace.plainName (QuotationPart.material part))
           (newPartsFrom parseFile maxSerial i files).
Proof.
  induction files as [| [file partId] rest IH]; intros i; cbn [newPartsFrom];
    [constructor |].
  destruct (parseFile file); [constructor; [reflexivity | apply IH] | apply IH].
Qed.

Lemma onCard_plain (w : Workspace.t) (card : nat)
      (handler : QuotationPart.t -> Js.Completion (list QuotationPart.t)) :
  (forall part,
      exists l',
        partsAfter (Workspace.parts w) (handler part) = Some l' /\
        Forall (fun part => Workspace.plainName (QuotationPart.material part))
               l') ->
  Forall (fun part => Workspace.plainName (QuotationPart.material part))
         (Workspace.parts w) ->
  exists l',
    Workspace.onCard w card handler = Some l' /\
    Forall (fun part => Workspace.plainName (QuotationPart.material part)) l'.
Proof.
  intros H Hall. unfold Workspace.onCard.
  destruct (Workspace.parts w !! card) as [part |]; [apply H |].
  exists (Workspace.parts w). split; [reflexivity | exact Hall].
Qed.

Lemma keepCustomer_plain (w : Workspace.t)
      (parts' : option (list QuotationPart.t)) :
  Workspace.plainName (Workspace.selectedCustomerId w) ->
  (exists l',
      parts' = Some l' /\
      Forall (fun part => Workspace.plainName (QuotationPart.material part)) l') ->
  exists w', Workspace.keepCustomer w parts' = Some w' /\ Workspace.plain w'.
Proof.
  intros Hc (l' & -> & Hall). eexists. split; [reflexivity |].
  split; [exact Hc | exact Hall].
Qed.

Lemma stepWith_plain (td : TechnologiesData.t) (cd : CustomersData.t)
      (parseFile : File.t -> option Geometry.t)
      (customer : option Customer.t) (w : Workspace.t) (op : Workspace.Op) :
  Workspace.plain w -> Workspace.plainNames op ->
  exists w',
    Workspace.stepWith td cd parseFile customer w op = Some w' /\
    Workspace.plain w'.
Proof.
  intros [Hc Hall] Hop.
  destruct op as [partId | | partId | | customerId | files | partId formData
                  | card techId | card materialId | card quantity
                  | bulkTechnology bulkMaterial bulkQuantity];
    cbn [Workspace.stepWith Workspace.plainNames] in *.
  - eexists. split; [reflexivity |]. split; [exact Hc |].
    cbn [Workspace.parts]. unfold handleDeletePart. cbv zeta.
    apply Forall_lookup. intros i p Hp. rewrite list_lookup_imap in Hp.
    destruct (List.filter _ _ !! i) as [x |] eqn:Hx; cbn in Hp;
      [| discriminate].
    inversion Hp; subst p. cbn [withSerialNumber QuotationPart.material].
    apply lookup_filter_In in Hx as [_ Hx].
    rewrite Forall_forall in Hall. apply Hall, list_elem_of_In. exact Hx.
  - eexists. split; [reflexivity |]. split; [exact Hc | constructor].
  - eexists. split; [reflexivity |]. split; [exact Hc |].
    apply map_plain; [| exact Hall]. intros x.
    destruct (String.eqb _ _); reflexivity.
  - eexists. split; [reflexivity |]. split; [exact Hc |].
    apply map_plain; [| exact Hall]. intros x. reflexivity.
  - unfold handleCustomerChange, customerAt.
    destruct (String.eqb customerId "").
    + eexists. split; [reflexivity |]. split; [exact Hop |].
      apply map_plain; [| exact Hall]. intros x. reflexivity.
    + destruct (Js.get (CustomersData.customers cd) customerId) eqn:Eg.
      * eexists. split; [reflexivity |]. split; [exact Hop |].
        apply map_plain; [| exact Hall]. intros x.
        destruct (Qlt_le_dec 0 _); reflexivity.
      * apply get_Inherited_inv in Eg as [_ Eg].
        change (Js.inherited customerId = false) in Hop. congruence.
      * eexists. split; [reflexivity |]. split; [exact Hop |].
        apply map_plain; [| exact Hall]. intros x. reflexivity.
  - eexists. split; [reflexivity |]. split; [exact Hc |].
    cbn [Workspace.parts]. unfold handleFilesSelected.
    apply Forall_app. split; [exact Hall | apply newPartsFrom_plain].
  - apply keepCustomer_plain; [exact Hc |].
    unfold ManualPartForm.submit, ManualPartForm.handleSubmit.
    destruct (ManualPartForm.selectedMaterial td formData) as [selected | e |]
      eqn:Hsel; cbn [Js.bind partsAfter].
    + destruct (ManualPartForm.validateForm formData);
        [| exists (Workspace.parts w); split; [reflexivity | exact Hall]].
      destruct customer as [cust |];
        [| exists (Workspace.parts w); split; [reflexivity | exact Hall]].
      destruct selected as [material | |]; cbn [Js.bind partsAfter].
      * eexists. split; [reflexivity |]. unfold handleSaveManualPart.
        apply Forall_app. split; [exact Hall |].
        constructor; [exact Hop | constructor].
      * exfalso. unfold ManualPartForm.selectedMaterial in Hsel.
        destruct (negb _ && negb _); [| discriminate].
        destruct (Js.get (TechnologiesData.technologies td) _) as [t | |];
          try discriminate.
        inversion Hsel as [Hm]. apply get_Inherited_inv in Hm as [_ Hm].
        change (Js.inherited (ManualPartForm.FormData.material formData)
                = false) in Hop.
        congruence.
      * exists (Workspace.parts w). split; [reflexivity | exact Hall].
    + exists (Workspace.parts w). split; [reflexivity | exact Hall].
    + exfalso. unfold ManualPartForm.selectedMaterial in Hsel.
      destruct (negb _ && negb _); [| discriminate].
      destruct (Js.get (TechnologiesData.technologies td) _); discriminate.
  - apply keepCustomer_plain; [exact Hc |].
    apply onCard_plain; [| exact Hall]. intros part.
    unfold PartCard.handleTechnologyChange.
    destruct (_ && _);
      [apply handleUpdateParts_plain | apply handleUpdatePart_plain];
      try exact Hall; intros m Hm; inversion Hm; reflexivity.
  - apply keepCustomer_plain; [exact Hc |].
    apply onCard_plain; [| exact Hall]. intros part.
    unfold PartCard.handleMaterialChange.
    destruct customer as [cust |];
      [| exists (Workspace.parts w); split; [reflexivity | exact Hall]].
    destruct (negb _);
      [exists (Workspace.parts w); split; [reflexivity | exact Hall] |].
    destruct (_ && _).
    + apply handleUpdateParts_plain; [| exact Hall].
      intros m Hm; inversion Hm; exact Hop.
    + pose proof (lookupMaterial_typed td
                    (default "" (QuotationPart.technology part)) materialId Hop)
        as Hl.
      destruct (lookupMaterial td _ materialId) as [material | e |];
        cbn [Js.bind].
      * apply handleUpdatePart_plain; [| exact Hall].
        intros m Hm; inversion Hm; exact Hop.
      * exists (Workspace.parts w). split; [reflexivity | exact Hall].
      * contradiction.
  - apply keepCustomer_plain; [exact Hc |].
    apply onCard_plain; [| exact Hall]. intros part.
    unfold PartCard.handleQuantityChange.
    destruct (_ && _).
    + apply handleUpdateParts_plain; [| exact Hall].
      intros m Hm; inversion Hm.
    + match goal with |- context [let '(_, _) := ?e in _] => destruct e end.
      apply handleUpdatePart_plain; [| exact Hall].
      intros m Hm; inversion Hm.
  - apply keepCustomer_plain; [exact Hc |].
    unfold BulkActions.handleApplyBulkChanges.
    destruct (selectedParts (Workspace.parts w)) eqn:Hsel;
      [exists (Workspace.parts w); split; [reflexivity | exact Hall] |].
    rewrite <- Hsel. apply handleUpdateParts_plain; [| exact Hall].
    intros m Hm. unfold BulkActions.bulkUpdates in Hm.
    cbn [PartUpdates.material] in Hm.
    destruct (negb (String.eqb bulkTechnology "")); [| discriminate].
    destruct (negb (String.eqb bulkMaterial "")); inversion Hm;
      [exact Hop | reflexivity].
Qed.

Lemma step_plain (td : TechnologiesData.t) (cd : CustomersData.t)
      (parseFile : File.t -> option Geometry.t) (w : Workspace.t)
      (op : Workspace.Op) :
  Workspace.plain w -> Workspace.plainNames op ->
  exists w', Workspace.step td cd parseFile w op = Some w' /\ Workspace.plain w'.
Proof.
  intros Hw Hop. unfold Workspace.step.
  destruct (Workspace.customerProperty cd w) as [customer | |] eqn:Ec;
    try (apply stepWith_plain; assumption).
  exfalso. unfold Workspace.customerProperty in Ec.
  destruct (Js.truthy (Workspace.selectedCustomerId w)); [| discriminate].
  apply get_Inherited_inv in Ec as [_ Ec]. destruct Hw as [Hc _].
  unfold Workspace.plainName in Hc. congruence.
Qed.

Lemma run_plain (td : TechnologiesData.t) (cd : CustomersData.t)
      (parseFile : File.t -> option Geometry.t) (ops : list Workspace.Op) :
  forall w,
    Workspace.plain w -> Forall Workspace.plainNames ops ->
    exists w', Workspace.run td cd parseFile w ops = Some w'.
Proof.
  induction ops as [| op ops IH]; intros w Hw Hops; cbn [Workspace.run].
  - exists w. reflexivity.
  - inversion Hops as [| ? ? Hop Hrest]; subst.
    destruct (step_plain td cd parseFile w op Hw Hop) as (w1 & -> & Hw1).
    exact (IH w1 Hw1 Hrest).
Qed.

(** X3. Along any session of the quotation page (deleting, selecting, choosing
    a customer, uploading, entering a part by hand, editing a card, bulk
    editing), if the parser accepts every uploaded file, the serial numbers of
    the working list stay 1, 2, ..., n in list order, for as long as the
    handlers keep to the declared types; and they do, to the end of the
    session, when no customer id and no material involved is a name every
    object inherits. *)
Theorem workspace_serials_dense (td : TechnologiesData.t)
        (cd : CustomersData.t) (parseFile : File.t -> option Geometry.t)
        (ops : list Workspace.Op) (w : Workspace.t) :
  dense (Workspace.parts w) ->
  Forall (Workspace.allParsed parseFile) ops ->
  (forall w', Workspace.run td cd parseFile w ops = Some w' ->
              dense (Workspace.parts w')) /\
  (Workspace.plain w -> Forall Workspace.plainNames ops ->
   exists w', Workspace.run td cd parseFile w ops = Some w' /\
              dense (Workspace.parts w')).
Proof.
  intros Hd Hops.
  assert (forall w', Workspace.run td cd parseFile w ops = Some w' ->
                     dense (Workspace.parts w')) as Hdense.
  { revert w Hd.
    induction Hops as [| op ops Hop _ IH]; intros w Hd w' Hr; cbn in Hr.
    - inversion Hr; subst w'. exact Hd.
    - destruct (Workspace.step td cd parseFile w op) as [w1 |] eqn:Hs;
        [| discriminate].
      exact (IH w1 (step_dense td cd parseFile w w1 op Hop Hd Hs) w' Hr). }
  split; [exact Hdense |]. intros Hw Hplain.
  destruct (run_plain td cd parseFile ops w Hw Hplain) as [w' Hr].
  exists w'. split; [exact Hr | exact (Hdense w' Hr)].
Qed.

Lemma workspace_serials_dense_witness :
  exists w',
    Workspace.run Samples.catalog Fixtures.customers Fixtures.parseFile
                  Fixtures.emptyWorkspace Fixtures.workspaceOps = Some w' /\
    dense (Workspace.parts w').
Proof.
  refine (proj2 (workspace_serials_dense Samples.catalog Fixtures.customers
                   Fixtures.parseFile Fixtures.workspaceOps
                   Fixtures.emptyWorkspace _ _) _ _).
  - intros i p H. destruct i; discriminate H.
  - unfold Fixtures.workspaceOps.
    constructor; [exact I |].
    constructor;
      [constructor; [eexists; vm_compute; reflexivity | constructor] |].
    repeat (constructor; [exact I |]). constructor.
  - split; [reflexivity | constructor].
  - unfold Fixtures.workspaceOps.
    repeat (constructor; [first [exact I | reflexivity] |]). constructor.
Defined.

End SerialNumbers.

Section SerialGaps.
Import GstCalculator QuotationPage WorkingList.

(** X4. A rejected file uses up a serial number. When an upload of two files
    has its first file rejected by the parser, the accepted one is listed
    under the serial number n + 2 (n parts being listed before); the manual
    part form, which numbers by list length, then gives its part n + 2 too:
    two parts share a serial number. *)
Theorem rejected_upload_duplicates_serial (td : TechnologiesData.t)
        (customer : option Customer.t)
        (parseFile : File.t -> option Geometry.t)
        (parts : list QuotationPart.t) (bad good : File.t)
        (idBad idGood partId : string) (formData : ManualPartForm.FormData.t)
        (parts2 : list QuotationPart.t) :
  let n := List.length parts in
  let parts1 :=
    handleFilesSelected parseFile parts [(bad, idBad); (good, idGood)] in
  dense parts ->
  parseFile bad = None -> is_Some (parseFile good) ->
  ManualPartForm.submit td customer parts1 partId formData = Js.Normal parts2 ->
  parts2 <> parts1 ->
  exists p q,
    parts2 !! n = Some p /\ parts2 !! S n = Some q /\
    QuotationPart.id p = idGood /\ QuotationPart.id q = partId /\
    QuotationPart.serialNumber p = (Z.of_nat n + 2)%Z /\
    QuotationPart.serialNumber q = (Z.of_nat n + 2)%Z.
Proof.
  intros n parts1 Hd Hbad [g Hgood] Hsub Hne.
  assert (exists p, parts1 = (parts ++ [p])%list /\ QuotationPart.id p = idGood /\
                    QuotationPart.serialNumber p = (Z.of_nat n + 2)%Z)
    as (p & Hparts1 & Hid & Hserial).
  { subst parts1. unfold handleFilesSelected. cbn [newPartsFrom].
    rewrite Hbad, Hgood. eexists. split; [reflexivity |]. split; [reflexivity |].
    cbn [QuotationPart.serialNumber].
    rewrite (currentMaxSerial_dense parts Hd). subst n. lia. }
  unfold ManualPartForm.submit in Hsub.
  destruct (ManualPartForm.handleSubmit td customer _ partId formData)
    as [[q |] | e |] eqn:Hq; cbn in Hsub; try discriminate;
    [| inversion Hsub; subst parts2; contradiction].
  inversion Hsub; subst parts2. clear Hsub Hne.
  destruct (handleSubmit_serial td customer _ partId formData q Hq)
    as [Hsq Hidq].
  exists p, q. unfold handleSaveManualPart.
  assert (List.length parts1 = S n) as Hlen
      by (rewrite Hparts1, length_app; cbn; subst n; lia).
  split; [| split; [| split; [exact Hid | split; [exact Hidq | split]]]].
  - rewrite lookup_app_l by lia. rewrite Hparts1.
    rewrite lookup_app_r by (subst n; lia).
    subst n. rewrite Nat.sub_diag. reflexivity.
  - rewrite lookup_app_r by lia. rewrite Hlen, Nat.sub_diag. reflexivity.
  - exact Hserial.
  - rewrite Hsq, Hlen. lia.
Qed.

Lemma rejected_upload_duplicates_serial_witness :
  exists parts2,
    ManualPartForm.submit Samples.catalog (Some Samples.mockKarnatakaCustomer)
      (handleFilesSelected Fixtures.parseFile []
         [(Fixtures.notesFile, "part_a"); (Fixtures.bracketFile, "part_b")])
      "part_c" Fixtures.plateForm = Js.Normal parts2 /\
    exists p q,
      parts2 !! 0%nat = Some p /\ parts2 !! 1%nat = Some q /\
      QuotationPart.id p = "part_b" /\ QuotationPart.id q = "part_c" /\
      QuotationPart.serialNumber p = 2%Z /\ QuotationPart.serialNumber q = 2%Z.
Proof.
  eexists. split; [vm_compute; reflexivity |].
  apply (rejected_upload_duplicates_serial
           Samples.catalog (Some Samples.mockKarnatakaCustomer)
           Fixtures.parseFile [] Fixtures.notesFile Fixtures.bracketFile
           "part_a" "part_b" "part_c" Fixtures.plateForm).
  - intros i p H. destruct i; discriminate H.
  - vm_compute. reflexivity.
  - eexists. vm_compute. reflexivity.
  - vm_compute. reflexivity.
  - intros H. vm_compute in H. discriminate H.
Defined.

End SerialGaps.

(** ** Tax fields of the working list *)

Section CustomerChange.
Import GstCalculator QuotationPage WorkingList.

Lemma calculateGST_total (baseAmount : Q) (customer : Customer.t) :
  (total (calculateGST baseAmount customer) == baseAmount * (18 # 100))%Q.
Proof.
  unfold calculateGST. destruct (String.eqb _ _); cbn [total].
  - ring.
  - unfold GST_RATE. reflexivity.
Qed.

Lemma existsb_priced (parts : list QuotationPart.t) :
  (Exists (fun p => (0 < QuotationPart.totalPrice p)%Q) parts ->
   existsb priced parts = true) /\
  (Forall (fun p => (QuotationPart.totalPrice p <= 0)%Q) parts ->
   existsb priced parts = false).
Proof.
  induction parts as [| a l [IHe IHf]]; split; intros H; cbn [existsb].
  - inversion H.
  - reflexivity.
  - unfold priced at 1.
    destruct (Qlt_le_dec 0 (QuotationPart.totalPrice a)) as [Hpos | Hle];
      [reflexivity |].
    inversion H as [? ? Ha | ? ? Hl]; subst.
    + exfalso. exact (Qlt_not_le _ _ Ha Hle).
    + exact (IHe Hl).
  - inversion H as [| ? ? Ha Hl]; subst. unfold priced at 1.
    destruct (Qlt_le_dec 0 (QuotationPart.totalPrice a)) as [Hpos | Hle].
    + exfalso. exact (Qlt_not_le _ _ Hpos Ha).
    + exact (IHf Hl).
Qed.

(** X5. [handleCustomerChange], by what the customer collection holds under
    the id.  A customer: the handler completes; every part whose total price
    is positive gets 18 % of it as tax and 118 % of it as final price, and a
    part whose total price is not positive is left as it is.  Nothing (the
    empty id, or an id that is neither a key nor an inherited name): the
    handler completes; every part gets tax 0 and its total price as final
    price.  In both cases nothing else of a part changes.  An inherited name
    ([constructor], ...): the handler raises a TypeError when some part has a
    positive total price, and otherwise completes with the parts as they
    were. *)
Theorem handleCustomerChange_tax (customersData : CustomersData.t)
        (parts : list QuotationPart.t) (customerId : string) :
  let r := handleCustomerChange customersData parts customerId in
  match customerAt customersData customerId with
  | Js.Own customer =>
      exists parts',
        r = Js.Normal parts' /\
        List.length parts' = List.length parts /\
        forall i p, parts !! i = Some p ->
          exists p',
            parts' !! i = Some p' /\
            p' = withTax p (QuotationPart.gstAmount p')
                         (QuotationPart.finalPrice p') /\
            ((0 < QuotationPart.totalPrice p)%Q ->
             (QuotationPart.gstAmount p'
              == QuotationPart.totalPrice p * (18 # 100))%Q /\
             (QuotationPart.finalPrice p'
              == QuotationPart.totalPrice p * (118 # 100))%Q) /\
            ((QuotationPart.totalPrice p <= 0)%Q -> p' = p)
  | Js.Undefined =>
      exists parts',
        r = Js.Normal parts' /\
        List.length parts' = List.length parts /\
        forall i p, parts !! i = Some p ->
          exists p',
            parts' !! i = Some p' /\
            p' = withTax p (QuotationPart.gstAmount p')
                         (QuotationPart.finalPrice p') /\
            QuotationPart.gstAmount p' = 0%Q /\
            QuotationPart.finalPrice p' = QuotationPart.totalPrice p
  | Js.Inherited =>
      (Exists (fun p => (0 < QuotationPart.totalPrice p)%Q) parts ->
       r = Js.Throw Js.TypeError) /\
      (Forall (fun p => (QuotationPart.totalPrice p <= 0)%Q) parts ->
       r = Js.Normal parts)
  end.
Proof.
  intros r. subst r. unfold handleCustomerChange.
  destruct (customerAt customersData customerId) as [customer | |].
  - eexists. split; [reflexivity |].
    split; [apply length_map |]. intros i p Hp.
    change (List.map ?f parts) with (f <$> parts).
    rewrite list_lookup_fmap, Hp. cbn [fmap option_fmap option_map].
    eexists. split; [reflexivity |].
    destruct (Qlt_le_dec 0 (QuotationPart.totalPrice p)) as [Hpos | Hle].
    + split; [reflexivity |]. split.
      * intros _. cbn. split.
        -- apply calculateGST_total.
        -- rewrite calculateGST_total. ring.
      * intros Hle. exfalso. exact (Qlt_not_le _ _ Hpos Hle).
    + split; [destruct p; reflexivity |]. split.
      * intros Hpos. exfalso. exact (Qlt_not_le _ _ Hpos Hle).
      * intros _. reflexivity.
  - destruct (existsb_priced parts) as [He Hf]. split; intros H.
    + rewrite (He H). reflexivity.
    + rewrite (Hf H). reflexivity.
  - eexists. split; [reflexivity |].
    split; [apply length_map |]. intros i p Hp.
    change (List.map ?f parts) with (f <$> parts).
    rewrite list_lookup_fmap, Hp. cbn [fmap option_fmap option_map].
    eexists. split; [reflexivity |]. split; [reflexivity |].
    split; reflexivity.
Qed.

(** The three cases on the sample customers: a registered id, an id the
    collection lacks, and the inherited name [constructor]. *)
Example handleCustomerChange_samples :
  (exists b',
      handleCustomerChange Fixtures.customers [Samples.bracketNoCustomer]
                           "CUST002" = Js.Normal [b'] /\
      (QuotationPart.gstAmount b' == 108 # 100)%Q /\
      (QuotationPart.finalPrice b' == 708 # 100)%Q) /\
  handleCustomerChange Fixtures.customers [Samples.bracket] "CUST404"
  = Js.Normal [withTax Samples.bracket 0 6] /\
  handleCustomerChange Fixtures.customers [Samples.bracket] "constructor"
  = Js.Throw Js.TypeError.
Proof.
  split; [| split; reflexivity].
  eexists. split; [vm_compute; reflexivity |]. split; reflexivity.
Qed.

End CustomerChange.

(** ** Edits made on a part card *)

Section CardEdits.
Import GstCalculator QuotationPage WorkingList.

(** The parts a card edit reaches: the selected parts when the card's part
    is one of several selected parts, else the parts with the card's id. *)
Lemma handleTechnologyChange_eq (td : TechnologiesData.t)
      (customer : option Customer.t) (parts : list QuotationPart.t)
      (part : QuotationPart.t) (techId : string) :
  PartCard.handleTechnologyChange td customer parts part techId
  = Js.Normal
      (List.map
         (fun p =>
            if (if PartCard.hasMultipleSelected parts && PartCard.isPartSelected part
                then includes (PartCard.selectedPartIds parts) (QuotationPart.id p)
                else String.eqb (QuotationPart.id p) (QuotationPart.id part))
            then spread p (PartCard.technologyUpdates techId) else p) parts).
Proof.
  unfold PartCard.handleTechnologyChange.
  destruct (PartCard.hasMultipleSelected parts && PartCard.isPartSelected part).
  - unfold handleUpdateParts. apply mapM_pure. intros x _.
    destruct (includes _ _); [| reflexivity].
    unfold bulkUpdatePart. cbn.
    unfold materialRule, technologyRule. cbn. rewrite andb_false_r. cbn.
    destruct (negb (String.eqb techId "")); reflexivity.
  - unfold handleUpdatePart. apply mapM_pure. intros x _.
    destruct (String.eqb _ _); [| reflexivity].
    unfold updateOnePart. cbn. rewrite !andb_false_r. reflexivity.
Qed.

(** X6. Choosing a process on a part card never raises, whatever the catalog,
    the customer and the process id are. Each part it reaches (the selected
    parts when the card's part is one of several selected, else the parts with
    the card's id) gets the process, loses its material and has its four price
    fields set to 0; its id, serial number, volume, quantity and selection
    stay, and every other part is returned as it was. *)
Theorem handleTechnologyChange_clears (td : TechnologiesData.t)
        (customer : option Customer.t) (parts : list QuotationPart.t)
        (part : QuotationPart.t) (techId : string) :
  exists parts',
    PartCard.handleTechnologyChange td customer parts part techId
    = Js.Normal parts' /\
    List.length parts' = List.length parts /\
    forall i p, parts !! i = Some p ->
      let reached :=
        if PartCard.hasMultipleSelected parts && PartCard.isPartSelected part
        then includes (PartCard.selectedPartIds parts) (QuotationPart.id p)
        else String.eqb (QuotationPart.id p) (QuotationPart.id part) in
      exists p',
        parts' !! i = Some p' /\
        (reached = false -> p' = p) /\
        (reached = true ->
         QuotationPart.technology p' = Some techId /\
         QuotationPart.material p' = None /\
         QuotationPart.unitPrice p' = 0%Q /\ QuotationPart.totalPrice p' = 0%Q /\
         QuotationPart.gstAmount p' = 0%Q /\ QuotationPart.finalPrice p' = 0%Q /\
         QuotationPart.id p' = QuotationPart.id p /\
         QuotationPart.serialNumber p' = QuotationPart.serialNumber p /\
         QuotationPart.volume p' = QuotationPart.volume p /\
         QuotationPart.quantity p' = QuotationPart.quantity p /\
         QuotationPart.selected p' = QuotationPart.selected p /\
         QuotationPart.comments p' = QuotationPart.comments p).
Proof.
  eexists. split; [apply handleTechnologyChange_eq |].
  split; [apply length_map |]. intros i p Hp reached.
  change (List.map ?f parts) with (f <$> parts).
  rewrite list_lookup_fmap, Hp. cbn [fmap option_fmap option_map].
  eexists. split; [reflexivity |]. fold reached.
  destruct reached; split; intros H; try discriminate H; try reflexivity.
  cbn. repeat split.
Qed.

(** X7. Choosing a material on a card outside a multiple selection, with a
    customer selected and a process on the part: when the handler completes,
    the part of the card has the material, its unit price is its volume times
    the catalog rate of the material under the part's process, its total is
    unit price times quantity, its tax is 18 % of the total and its final
    price is total plus tax. *)
Theorem card_material_prices (td : TechnologiesData.t) (cust : Customer.t)
        (parts parts' : list QuotationPart.t) (part : QuotationPart.t)
        (materialId : string) (i : nat) :
  parts !! i = Some part ->
  Js.truthy (QuotationPart.technology part) = true ->
  PartCard.hasMultipleSelected parts && PartCard.isPartSelected part = false ->
  PartCard.handleMaterialChange td (Some cust) parts part materialId
  = Js.Normal parts' ->
  exists p' material,
    lookupMaterial td (default "" (QuotationPart.technology part)) materialId
    = Js.Normal material /\
    parts' !! i = Some p' /\
    QuotationPart.material p' = Some materialId /\
    QuotationPart.unitPrice p'
    = (QuotationPart.volume part * Material.cost_per_cc material)%Q /\
    QuotationPart.totalPrice p'
    = (QuotationPart.unitPrice p' * QuotationPart.quantity part)%Q /\
    (QuotationPart.gstAmount p' == QuotationPart.totalPrice p' * (18 # 100))%Q /\
    QuotationPart.finalPrice p'
    = (QuotationPart.totalPrice p' + QuotationPart.gstAmount p')%Q /\
    QuotationPart.quantity p' = QuotationPart.quantity part /\
    QuotationPart.technology p' = QuotationPart.technology part /\
    QuotationPart.serialNumber p' = QuotationPart.serialNumber part.
Proof.
  intros Hi Htech Hsingle H. unfold PartCard.handleMaterialChange in H.
  rewrite Htech, Hsingle in H. cbn [negb] in H.
  destruct (lookupMaterial td (default "" (QuotationPart.technology part))
                           materialId) as [material | e |] eqn:Hl;
    cbn [Js.bind] in H; try discriminate.
  destruct (mapM_Normal _ _ _ H) as [_ Hlk].
  destruct (Hlk i part Hi) as (p' & Hp' & Hi').
  rewrite String.eqb_refl in Hp'.
  exists p', material. split; [reflexivity |]. split; [exact Hi' |].
  destruct (QuotationPart.technology part) as [tech |] eqn:Et; [| discriminate].
  unfold updateOnePart in Hp'. cbn in Hp'. rewrite Et in Hp'. cbn in Hp'.
  cbn in Htech. rewrite Htech in Hp'.
  destruct (negb (String.eqb materialId "")); cbn in Hp'.
  - cbn in Hl. rewrite Hl in Hp'. cbn in Hp'. inversion Hp'; subst p'. cbn.
    repeat split; try reflexivity; try exact Et; try (symmetry; exact Et);
      apply calculateGST_total.
  - inversion Hp'; subst p'. cbn.
    repeat split; try reflexivity; try exact Et; try (symmetry; exact Et);
      apply calculateGST_total.
Qed.

Lemma card_material_prices_witness :
  exists parts',
    PartCard.handleMaterialChange Samples.catalog
      (Some Samples.mockKarnatakaCustomer) [Samples.lid; Samples.blank]
      Samples.blank "ABS" = Js.Normal parts' /\
    exists p' material,
      lookupMaterial Samples.catalog
        (default "" (QuotationPart.technology Samples.blank)) "ABS"
      = Js.Normal material /\
      parts' !! 1%nat = Some p' /\
      QuotationPart.material p' = Some "ABS" /\
      QuotationPart.unitPrice p'
      = (QuotationPart.volume Samples.blank * Material.cost_per_cc material)%Q /\
      QuotationPart.totalPrice p'
      = (QuotationPart.unitPrice p' * QuotationPart.quantity Samples.blank)%Q /\
      (QuotationPart.gstAmount p' == QuotationPart.totalPrice p' * (18 # 100))%Q /\
      QuotationPart.finalPrice p'
      = (QuotationPart.totalPrice p' + QuotationPart.gstAmount p')%Q /\
      QuotationPart.quantity p' = QuotationPart.quantity Samples.blank /\
      QuotationPart.technology p' = QuotationPart.technology Samples.blank /\
      QuotationPart.serialNumber p' = QuotationPart.serialNumber Samples.blank.
Proof.
  eexists. split; [vm_compute; reflexivity |].
  apply (card_material_prices Samples.catalog Samples.mockKarnatakaCustomer
           [Samples.lid; Samples.blank]).
  - reflexivity.
  - reflexivity.
  - reflexivity.
  - vm_compute. reflexivity.
Defined.

(** A material that is a name every object inherits: the catalog read yields
    a member of [Object.prototype], no rate, and the handler leaves the
    declared types (the prices it computes are NaN); a material the process
    lacks otherwise makes it raise. *)
Example card_material_not_in_catalog :
  PartCard.handleMaterialChange Samples.catalog
    (Some Samples.mockKarnatakaCustomer) [Samples.lid; Samples.blank]
    Samples.blank "constructor" = Js.IllTyped /\
  PartCard.handleMaterialChange Samples.catalog
    (Some Samples.mockKarnatakaCustomer) [Samples.lid; Samples.blank]
    Samples.blank "RESIN" = Js.Throw Js.TypeError.
Proof. split; reflexivity. Qed.

(** X8. Changing the quantity on a card outside a multiple selection: when the
    handler completes, the part of the card has the new quantity, its total is
    its unit price times the quantity and its final price is total plus tax;
    with a customer selected and a positive total the tax is 18 % of the
    total, with no customer it is 0. When the part has a process and a
    material, a customer is selected and the quantity is not 0, the unit price
    is read again from the catalog; otherwise it stays. *)
Theorem card_quantity_prices (td : TechnologiesData.t)
        (customer : option Customer.t)
        (parts parts' : list QuotationPart.t) (part : QuotationPart.t)
        (quantity : Q) (i : nat) :
  parts !! i = Some part ->
  PartCard.hasMultipleSelected parts && PartCard.isPartSelected part = false ->
  PartCard.handleQuantityChange td customer parts part quantity
  = Js.Normal parts' ->
  exists p',
    parts' !! i = Some p' /\
    QuotationPart.quantity p' = quantity /\
    coherent p' /\
    (is_Some customer -> (0 < QuotationPart.totalPrice p')%Q ->
     (QuotationPart.gstAmount p' == QuotationPart.totalPrice p' * (18 # 100))%Q) /\
    (customer = None -> QuotationPart.gstAmount p' = 0%Q) /\
    (if bool_decide (is_Some customer)
        && Js.truthy (QuotationPart.material part)
        && Js.truthy (QuotationPart.technology part)
        && negb (Qeq_bool quantity 0)
     then exists material,
         lookupMaterial td (default "" (QuotationPart.technology part))
                        (default "" (QuotationPart.material part))
         = Js.Normal material /\
         QuotationPart.unitPrice p'
         = (QuotationPart.volume part * Material.cost_per_cc material)%Q
     else QuotationPart.unitPrice p' = QuotationPart.unitPrice part) /\
    QuotationPart.material p' = QuotationPart.material part /\
    QuotationPart.technology p' = QuotationPart.technology part /\
    QuotationPart.serialNumber p' = QuotationPart.serialNumber part.
Proof.
  intros Hi Hsingle H. unfold PartCard.handleQuantityChange in H.
  rewrite Hsingle in H.
  match type of H with
  | (let '(_, _) := ?e in _) = _ => destruct e as [gstAmount finalPrice] eqn:Htax
  end.
  destruct (mapM_Normal _ _ _ H) as [_ Hlk].
  destruct (Hlk i part Hi) as (p' & Hp' & Hi'). clear H Hlk.
  rewrite String.eqb_refl in Hp'.
  exists p'. split; [exact Hi' |].
  unfold updateOnePart in Hp'. cbn in Hp'.
  destruct (bool_decide (is_Some customer)
            && Js.truthy (QuotationPart.material part)
            && Js.truthy (QuotationPart.technology part)
            && negb (Qeq_bool quantity 0)) eqn:Hguard.
  - unfold recompute in Hp'.
    destruct (QuotationPart.technology part) as [tech |] eqn:Et; [| discriminate].
    destruct (QuotationPart.material part) as [mat |] eqn:Em; [| discriminate].
    destruct (lookupMaterial td tech mat) as [material | e |] eqn:Hl;
      cbn in Hp'; try discriminate.
    destruct customer as [cust |]; [| discriminate].
    inversion Hp'; subst p'. cbn.
    split; [reflexivity |]. split; [split; reflexivity |].
    split; [intros _ _; apply calculateGST_total |].
    split; [discriminate |].
    split; [exists material; split; [exact Hl | reflexivity] |].
    repeat split; assumption.
  - inversion Hp'; subst p'. cbn.
    split; [reflexivity |].
    assert (finalPrice == QuotationPart.unitPrice part * quantity + gstAmount)%Q
      as Hfinal.
    { destruct customer as [cust |].
      - destruct (Qlt_le_dec 0 _); inversion Htax; subst;
          first [reflexivity | ring].
      - inversion Htax; subst. ring. }
    split; [split; [reflexivity | exact Hfinal] |].
    split.
    { intros [cust ->] Hpos.
      destruct (Qlt_le_dec 0 (QuotationPart.unitPrice part * quantity)) as [_ | Hle].
      - inversion Htax; subst. apply calculateGST_total.
      - exfalso. exact (Qlt_not_le _ _ Hpos Hle). }
    split; [intros ->; inversion Htax; reflexivity |].
    repeat split.
Qed.

Lemma card_quantity_prices_witness :
  exists parts',
    PartCard.handleQuantityChange Samples.catalog
      (Some Samples.mockKarnatakaCustomer) [Samples.lid; Samples.blank]
      Samples.lid 5 = Js.Normal parts' /\
    exists p',
      parts' !! 0%nat = Some p' /\
      QuotationPart.quantity p' = 5%Q /\
      coherent p' /\
      (is_Some (Some Samples.mockKarnatakaCustomer) ->
       (0 < QuotationPart.totalPrice p')%Q ->
       (QuotationPart.gstAmount p' == QuotationPart.totalPrice p' * (18 # 100))%Q) /\
      (Some Samples.mockKarnatakaCustomer = None ->
       QuotationPart.gstAmount p' = 0%Q) /\
      (if bool_decide (is_Some (Some Samples.mockKarnatakaCustomer))
          && Js.truthy (QuotationPart.material Samples.lid)
          && Js.truthy (QuotationPart.technology Samples.lid)
          && negb (Qeq_bool 5 0)
       then exists material,
           lookupMaterial Samples.catalog
             (default "" (QuotationPart.technology Samples.lid))
             (default "" (QuotationPart.material Samples.lid))
           = Js.Normal material /\
           QuotationPart.unitPrice p'
           = (QuotationPart.volume Samples.lid * Material.cost_per_cc material)%Q
       else QuotationPart.unitPrice p' = QuotationPart.unitPrice Samples.lid) /\
      QuotationPart.material p' = QuotationPart.material Samples.lid /\
      QuotationPart.technology p' = QuotationPart.technology Samples.lid /\
      QuotationPart.serialNumber p' = QuotationPart.serialNumber Samples.lid.
Proof.
  eexists. split; [vm_compute; reflexivity |].
  apply (card_quantity_prices Samples.catalog
           (Some Samples.mockKarnatakaCustomer) [Samples.lid; Samples.blank]).
  - reflexivity.
  - reflexivity.
  - vm_compute. reflexivity.
Defined.

End CardEdits.

(** ** Saving a draft *)

Section SavingDrafts.
Import GstCalculator UseSavedQuotations.

Lemma saveQuotation_stores (quotationsData quotationsData' : SavedQuotationsData.t)
      (now : DateNow.t) (freshId quotationId : string)
      (params : SaveQuotationParams.t) :
  saveQuotation quotationsData now freshId params
  = Js.Normal (quotationsData', quotationId) ->
  exists q,
    SavedQuotationsData.quotations quotationsData' !! quotationId = Some q /\
    SavedQuotation.totalBasePrice q = SaveQuotationParams.totalBasePrice params /\
    SavedQuotation.discount q = SaveQuotationParams.discount params /\
    SavedQuotation.totalGST q = SaveQuotationParams.totalGST params /\
    SavedQuotation.finalPrice q = SaveQuotationParams.finalPrice params /\
    SavedQuotation.totalServiceCharges q
    = SaveQuotationParams.totalServiceCharges params /\
    SavedQuotation.status q = QDraft.
Proof.
  unfold saveQuotation. intros H.
  destruct (Js.truthy (SaveQuotationParams.existingQuotationId params)).
  - destruct (Js.get (SavedQuotationsData.quotations quotationsData) _)
      as [e | |]; try discriminate.
    destruct (DateNow.plusDays now 30) as [validUntil |]; [| discriminate].
    inversion H; subst. cbn. rewrite lookup_insert_eq.
    eexists. split; [reflexivity |]. cbn. repeat split.
  - destruct (DateNow.plusDays now 30) as [validUntil |]; [| discriminate].
    inversion H; subst. cbn. rewrite lookup_insert_eq.
    eexists. split; [reflexivity |]. cbn. repeat split.
Qed.

Lemma selectedCustomer_Some (customersData : CustomersData.t)
      (state : QuotationState.t) (customer : Customer.t) :
  SaveFlow.selectedCustomer customersData state = Some customer ->
  SaveFlow.customerProperty customersData state = Js.Own customer.
Proof.
  unfold SaveFlow.selectedCustomer.
  destruct (SaveFlow.customerProperty customersData state); intros H;
    inversion H; reflexivity.
Qed.

(** X9. The total a saved quotation carries is not the total the summary panel
    shows when the draft has a discount and service charges. The panel takes
    the discount off parts and service charges together; the save handler
    takes it off the parts only. With a customer selected and a positive
    discounted price on the panel, the stored final price exceeds the one
    shown by 118 % of (service charges x discount / 100); the stored base
    price is parts plus service charges, and the stored final price is 118 %
    of base price minus (parts x discount / 100). *)
Theorem saved_total_exceeds_displayed (customersData : CustomersData.t)
        (quotationsData quotationsData' : SavedQuotationsData.t)
        (state state' : QuotationState.t) (now : DateNow.t)
        (freshId quotationId : string) (customer : Customer.t) :
  let parts := QuotationState.parts state in
  let serviceCharges := QuotationState.serviceCharges state in
  let discount := QuotationState.discount state in
  SaveFlow.selectedCustomer customersData state = Some customer ->
  (0 < QuotationSummary.discountedPrice parts serviceCharges discount)%Q ->
  SaveFlow.handleSaveQuotation customersData quotationsData state now freshId
  = Js.Normal (quotationsData', state', quotationId) ->
  exists q,
    SavedQuotationsData.quotations quotationsData' !! quotationId = Some q /\
    (SavedQuotation.finalPrice q
     - QuotationSummary.finalPrice parts serviceCharges discount (Some customer)
     == (118 # 100)
        * (QuotationSummary.totalServiceCharges serviceCharges
           * UseOrders.orZero discount / 100))%Q /\
    (SavedQuotation.totalBasePrice q
     == QuotationSummary.totalBasePrice parts
        + QuotationSummary.totalServiceCharges serviceCharges)%Q /\
    (SavedQuotation.finalPrice q
     == (118 # 100)
        * (SavedQuotation.totalBasePrice q
           - QuotationSummary.totalBasePrice parts
             * UseOrders.orZero discount / 100))%Q.
Proof.
  intros parts serviceCharges discount Hcust Hpos H.
  assert (saveQuotation quotationsData now freshId
                        (SaveFlow.saveParams customer state)
          = Js.Normal (quotationsData', quotationId)) as Hsave.
  { unfold SaveFlow.handleSaveQuotation in H.
    rewrite (selectedCustomer_Some _ _ _ Hcust) in H.
    destruct (QuotationState.parts state); [discriminate |].
    destruct (saveQuotation quotationsData now freshId
                            (SaveFlow.saveParams customer state))
      as [[qd qid] | e |]; cbn in H; try discriminate.
    inversion H; reflexivity. }
  destruct (saveQuotation_stores _ _ _ _ _ _ Hsave)
    as (q & Hq & Hbase & _ & _ & Hfinal & _).
  exists q. split; [exact Hq |].
  rewrite Hfinal, Hbase. unfold SaveFlow.saveParams.
  cbn [SaveQuotationParams.finalPrice SaveQuotationParams.totalBasePrice].
  fold parts serviceCharges discount.
  change (fold_left (fun sum part => (sum + QuotationPart.totalPrice part)%Q)
                    parts 0%Q)
    with (QuotationSummary.totalBasePrice parts).
  change (fold_left (fun sum charge => (sum + ServiceCharge.amount charge)%Q)
                    serviceCharges 0%Q)
    with (QuotationSummary.totalServiceCharges serviceCharges).
  unfold QuotationSummary.finalPrice, QuotationSummary.totalGST.
  destruct (Qlt_le_dec 0 (QuotationSummary.discountedPrice parts serviceCharges
                                                           discount))
    as [_ | Hle]; [| exfalso; exact (Qlt_not_le _ _ Hpos Hle)].
  cbv beta iota.
  rewrite (orZero_eq (total (calculateGST _ customer))), !calculateGST_total.
  unfold QuotationSummary.discountedPrice, QuotationSummary.discountAmount,
    QuotationSummary.combinedBasePrice, QuotationSummary.appliedDiscountRate.
  generalize (QuotationSummary.totalBasePrice parts) as T.
  generalize (QuotationSummary.totalServiceCharges serviceCharges) as S.
  generalize (UseOrders.orZero discount) as d. intros d S T.
  split; [| split]; field.
Qed.

Lemma saved_total_exceeds_displayed_witness :
  exists q,
    SavedQuotationsData.quotations Fixtures.savedDraft !! "quot_a" = Some q /\
    (SavedQuotation.finalPrice q
     - QuotationSummary.finalPrice
         (QuotationState.parts Fixtures.draft)
         (QuotationState.serviceCharges Fixtures.draft)
         (QuotationState.discount Fixtures.draft)
         (Some Samples.mockKarnatakaCustomer)
     == (118 # 100)
        * (QuotationSummary.totalServiceCharges
             (QuotationState.serviceCharges Fixtures.draft)
           * UseOrders.orZero (QuotationState.discount Fixtures.draft) / 100))%Q /\
    (SavedQuotation.totalBasePrice q
     == QuotationSummary.totalBasePrice (QuotationState.parts Fixtures.draft)
        + QuotationSummary.totalServiceCharges
            (QuotationState.serviceCharges Fixtures.draft))%Q /\
    (SavedQuotation.finalPrice q
     == (118 # 100)
        * (SavedQuotation.totalBasePrice q
           - QuotationSummary.totalBasePrice (QuotationState.parts Fixtures.draft)
             * UseOrders.orZero (QuotationState.discount Fixtures.draft) / 100))%Q.
Proof.
  apply (saved_total_exceeds_displayed Fixtures.customers Fixtures.quotations0
           _ Fixtures.draft (UseQuotationState.clearQuotationState Samples.noon)
           Samples.noon "quot_a" "quot_a" Samples.mockKarnatakaCustomer).
  - reflexivity.
  - vm_compute. reflexivity.
  - vm_compute. reflexivity.
Defined.

(** X10. The summary panel enables saving for a draft that has a customer and
    service charges of positive total but no part; the save handler of the
    page refuses that draft: it raises and stores nothing. *)
Theorem charges_only_draft_not_saved (customersData : CustomersData.t)
        (quotationsData : SavedQuotationsData.t) (state : QuotationState.t)
        (now : DateNow.t) (freshId : string) (customer : Customer.t) :
  SaveFlow.selectedCustomer customersData state = Some customer ->
  QuotationState.parts state = [] ->
  QuotationState.serviceCharges state <> [] ->
  (0 < QuotationSummary.totalServiceCharges
         (QuotationState.serviceCharges state))%Q ->
  QuotationSummary.canSave (QuotationState.parts state)
    (QuotationState.serviceCharges state) (Some customer) = true /\
  SaveFlow.handleSaveQuotation customersData quotationsData state now freshId
  = Js.Throw (Js.ErrorMsg "Missing customer or parts").
Proof.
  intros Hcust Hparts Hcharges Hpos. split.
  - unfold QuotationSummary.canSave. rewrite Hparts.
    destruct (QuotationState.serviceCharges state) as [| c r] eqn:Hc;
      [contradiction |].
    cbn [List.length Nat.ltb Nat.leb orb andb].
    rewrite bool_decide_eq_true_2 by (eexists; reflexivity). cbn [andb].
    destruct (Qlt_le_dec 0 _) as [_ | Hle]; [reflexivity |].
    exfalso. unfold QuotationSummary.combinedBasePrice in Hle.
    cbn [QuotationSummary.totalBasePrice fold_left] in Hle.
    rewrite Qplus_0_l in Hle. exact (Qlt_not_le _ _ Hpos Hle).
  - unfold SaveFlow.handleSaveQuotation.
    rewrite (selectedCustomer_Some _ _ _ Hcust), Hparts. reflexivity.
Qed.

Lemma charges_only_draft_not_saved_witness :
  QuotationSummary.canSave (QuotationState.parts Fixtures.chargesOnly)
    (QuotationState.serviceCharges Fixtures.chargesOnly)
    (Some Samples.mockKarnatakaCustomer) = true /\
  SaveFlow.handleSaveQuotation Fixtures.customers Fixtures.quotations0
    Fixtures.chargesOnly Samples.noon "quot_a"
  = Js.Throw (Js.ErrorMsg "Missing customer or parts").
Proof.
  apply charges_only_draft_not_saved.
  - reflexivity.
  - reflexivity.
  - discriminate.
  - vm_compute. reflexivity.
Defined.

End SavingDrafts.

Section EditingSavedQuotations.
Import GstCalculator UseSavedQuotations.

Lemma or_else_self (s : string) : Js.or_else (Some s) "" = s.
Proof.
  unfold Js.or_else, Js.truthy.
  destruct (String.eqb s "") eqn:E; cbn; [| reflexivity].
  apply String.eqb_eq in E. congruence.
Qed.

Lemma toSavedPart_toQuotationPart (part : SavedPart.t) :
  SaveFlow.toSavedPart (UseQuotationState.toQuotationPart part) = part.
Proof. destruct part; reflexivity. Qed.

(** X11. Opening a stored quotation for editing and saving it again, with its
    customer still registered.  When the quotation is still stored and the
    date 30 calendar days after the save is a valid date, the save writes
    over the same record and issues no number: the record keeps its id,
    quotation number and creation time; its status becomes Draft whatever it
    was, its validity ends on that date, and its parts are the edited parts
    with ids rebuilt from the quotation id and the position.  When that date
    is not valid the save raises a RangeError.  If the quotation has left the
    store in between and its id is not a name every object inherits, the save
    raises and stores nothing. *)
Theorem edit_then_save_keeps_identity (customersData : CustomersData.t)
        (quotationsData : SavedQuotationsData.t) (q : SavedQuotation.t)
        (customer : Customer.t) (now1 now2 : DateNow.t) (freshId : string) :
  SavedQuotation.id q <> "" ->
  SavedQuotation.customerId q <> "" ->
  CustomersData.customers customersData !! SavedQuotation.customerId q
  = Some customer ->
  SavedQuotation.parts q <> [] ->
  let draft := SaveFlow.handleEditQuotation q now1 in
  let saved :=
    SaveFlow.handleSaveQuotation customersData quotationsData draft now2
                                 freshId in
  (forall existing validUntil,
      SavedQuotationsData.quotations quotationsData !! SavedQuotation.id q
      = Some existing ->
      DateNow.plusDays now2 30 = Some validUntil ->
      exists quotationsData' q',
        saved
        = Js.Normal (quotationsData', UseQuotationState.clearQuotationState now2,
                     SavedQuotation.id q) /\
        SavedQuotationsData.quotations quotationsData'
        = <[SavedQuotation.id q := q']>
            (SavedQuotationsData.quotations quotationsData) /\
        SavedQuotationsData.next_quotation_number quotationsData'
        = SavedQuotationsData.next_quotation_number quotationsData /\
        SavedQuotation.id q' = SavedQuotation.id existing /\
        SavedQuotation.quotationNumber q' = SavedQuotation.quotationNumber existing /\
        SavedQuotation.createdAt q' = SavedQuotation.createdAt existing /\
        SavedQuotation.status q' = QDraft /\
        SavedQuotation.updatedAt q' = DateNow.getTime now2 /\
        SavedQuotation.validUntil q' = validUntil /\
        SavedQuotation.customerId q' = SavedQuotation.customerId q /\
        SavedQuotation.notes q' = SavedQuotation.notes q /\
        SavedQuotation.serviceCharges q' = SavedQuotation.serviceCharges q /\
        SavedQuotation.parts q'
        = renameParts (SavedQuotation.id q) (SavedQuotation.parts q)) /\
  (forall existing,
      SavedQuotationsData.quotations quotationsData !! SavedQuotation.id q
      = Some existing ->
      DateNow.plusDays now2 30 = None ->
      saved = Js.Throw Js.RangeError) /\
  (SavedQuotationsData.quotations quotationsData !! SavedQuotation.id q = None ->
   Js.inherited (SavedQuotation.id q) = false ->
   saved = Js.Throw (Js.ErrorMsg "Quotation not found for editing")).
Proof.
  intros Hid Hcid Hcust Hparts draft saved. subst saved.
  assert (SaveFlow.customerProperty customersData draft = Js.Own customer)
    as Hsel.
  { unfold SaveFlow.customerProperty. cbn.
    apply String.eqb_neq in Hcid. rewrite Hcid. cbn.
    apply get_Own. exact Hcust. }
  assert (exists p r, QuotationState.parts draft = p :: r) as (p0 & r0 & Hdp).
  { cbn. destruct (SavedQuotation.parts q) as [| a l]; [contradiction |].
    cbn. eexists _, _. reflexivity. }
  assert (Js.truthy (SaveQuotationParams.existingQuotationId
                       (SaveFlow.saveParams customer draft)) = true) as Htruthy.
  { cbn. apply String.eqb_neq in Hid. rewrite Hid. reflexivity. }
  assert (List.map SaveFlow.toSavedPart (QuotationState.parts draft)
          = SavedQuotation.parts q) as Hroundtrip.
  { cbn. rewrite List.map_map. clear.
    induction (SavedQuotation.parts q) as [| a l IH]; [reflexivity |].
    cbn [List.map]. rewrite toSavedPart_toQuotationPart, IH. reflexivity. }
  unfold SaveFlow.handleSaveQuotation. rewrite Hsel, Hdp.
  unfold saveQuotation. rewrite Htruthy.
  cbn [SaveFlow.saveParams SaveQuotationParams.existingQuotationId
       SaveFlow.handleEditQuotation UseQuotationState.loadQuotationForEditing
       QuotationState.editingQuotationId draft default from_option id].
  split; [| split].
  - intros existing validUntil Hex Hvalid.
    rewrite (get_Own _ _ _ Hex), Hvalid. cbn [Js.bind fst snd].
    eexists _, _. split; [reflexivity |].
    cbn [SavedQuotationsData.quotations SavedQuotationsData.next_quotation_number].
    split; [reflexivity |]. split; [reflexivity |].
    cbn [SavedQuotation.id SavedQuotation.quotationNumber SavedQuotation.createdAt
         SavedQuotation.status SavedQuotation.updatedAt SavedQuotation.validUntil
         SavedQuotation.customerId SavedQuotation.notes
         SavedQuotation.serviceCharges SavedQuotation.parts].
    repeat (split; [reflexivity |]).
    split; [apply or_else_self |]. split; [reflexivity |].
    f_equal. exact Hroundtrip.
  - intros existing Hex Hvalid.
    rewrite (get_Own _ _ _ Hex), Hvalid. reflexivity.
  - intros Hgone Hplain.
    rewrite (get_Undefined _ _ Hgone Hplain). reflexivity.
Qed.

Lemma edit_then_save_keeps_identity_witness :
  let draft := SaveFlow.handleEditQuotation Samples.quotation1 Samples.noon in
  let saved :=
    SaveFlow.handleSaveQuotation Fixtures.customers Fixtures.quotations1
      draft Samples.laterDate "quot_x" in
  exists quotationsData' q',
    saved
    = Js.Normal (quotationsData',
                 UseQuotationState.clearQuotationState Samples.laterDate,
                 SavedQuotation.id Samples.quotation1) /\
    SavedQuotationsData.quotations quotationsData'
    = <[SavedQuotation.id Samples.quotation1 := q']>
        (SavedQuotationsData.quotations Fixtures.quotations1) /\
    SavedQuotationsData.next_quotation_number quotationsData'
    = SavedQuotationsData.next_quotation_number Fixtures.quotations1 /\
    SavedQuotation.id q' = SavedQuotation.id Samples.quotation1 /\
    SavedQuotation.quotationNumber q'
    = SavedQuotation.quotationNumber Samples.quotation1 /\
    SavedQuotation.createdAt q' = SavedQuotation.createdAt Samples.quotation1 /\
    SavedQuotation.status q' = QDraft /\
    SavedQuotation.updatedAt q' = DateNow.getTime Samples.laterDate /\
    SavedQuotation.validUntil q' = (1772366400000 + 30 * 86400000)%Z /\
    SavedQuotation.customerId q' = SavedQuotation.customerId Samples.quotation1 /\
    SavedQuotation.notes q' = SavedQuotation.notes Samples.quotation1 /\
    SavedQuotation.serviceCharges q'
    = SavedQuotation.serviceCharges Samples.quotation1 /\
    SavedQuotation.parts q'
    = renameParts (SavedQuotation.id Samples.quotation1)
                  (SavedQuotation.parts Samples.quotation1).
Proof.
  refine (proj1 (edit_then_save_keeps_identity Fixtures.customers
                   Fixtures.quotations1 Samples.quotation1
                   Samples.mockKarnatakaCustomer Samples.noon Samples.laterDate
                   "quot_x" _ _ _ _)
                Samples.quotation1 (1772366400000 + 30 * 86400000)%Z _ _).
  - discriminate.
  - discriminate.
  - reflexivity.
  - discriminate.
  - reflexivity.
  - reflexivity.
Defined.

End EditingSavedQuotations.

Section SavedPartIds.
Import UseSavedQuotations.

Lemma append_inv_head (s a b : string) : s ++ a = s ++ b -> a = b.
Proof.
  induction s as [| c s IH]; intros H; [exact H |].
  rewrite !append_cons in H. inversion H. apply IH. assumption.
Qed.

Lemma string_of_N_inj (a b : N) : Js.string_of_N a = Js.string_of_N b -> a = b.
Proof.
  intros H. rewrite <- (parse_digits_string_of_N a), <- (parse_digits_string_of_N b).
  rewrite H. reflexivity.
Qed.

Lemma renameParts_lookup (quotationId : string) (parts : list SavedPart.t)
      (i : nat) (p : SavedPart.t) :
  renameParts quotationId parts !! i = Some p ->
  exists original,
    parts !! i = Some original /\
    SavedPart.id p
    = quotationId ++ "_part_" ++ Js.string_of_N (N.of_nat (S i)) /\
    SavedPart.serialNumber p = SavedPart.serialNumber original /\
    SavedPart.fileName p = SavedPart.fileName original /\
    SavedPart.quantity p = SavedPart.quantity original /\
    SavedPart.totalPrice p = SavedPart.totalPrice original /\
    SavedPart.finalPrice p = SavedPart.finalPrice original.
Proof.
  unfold renameParts. rewrite list_lookup_imap.
  destruct (parts !! i) as [original |]; intros H; cbn in H; [| discriminate].
  inversion H; subst p. exists original.
  split; [reflexivity |]. split; [| repeat split].
  cbn [SavedPart.id]. unfold Js.String_. do 2 f_equal.
  rewrite string_of_Z_nonneg by lia. f_equal.
  apply N2Z.inj. rewrite Z2N.id by lia. rewrite nat_N_Z. lia.
Qed.

(** X12. Every quotation in the store, new or edited, has parts whose ids are
    pairwise distinct: [saveQuotation] replaces the ids it is given by the
    quotation id followed by "_part_" and the position, whatever the ids in
    the draft were; the serial numbers and prices are stored as given. *)
Theorem saved_part_ids_distinct (quotationsData quotationsData' : SavedQuotationsData.t)
        (now : DateNow.t) (freshId quotationId : string)
        (params : SaveQuotationParams.t) :
  saveQuotation quotationsData now freshId params
  = Js.Normal (quotationsData', quotationId) ->
  exists q,
    SavedQuotationsData.quotations quotationsData' !! quotationId = Some q /\
    List.length (SavedQuotation.parts q)
    = List.length (SaveQuotationParams.parts params) /\
    (forall i p, SavedQuotation.parts q !! i = Some p ->
       exists original,
         SaveQuotationParams.parts params !! i = Some original /\
         SavedPart.id p
         = quotationId ++ "_part_" ++ Js.string_of_N (N.of_nat (S i)) /\
         SavedPart.serialNumber p = SavedPart.serialNumber original /\
         SavedPart.fileName p = SavedPart.fileName original /\
         SavedPart.quantity p = SavedPart.quantity original /\
         SavedPart.totalPrice p = SavedPart.totalPrice original /\
         SavedPart.finalPrice p = SavedPart.finalPrice original) /\
    (forall i j p p', i <> j ->
       SavedQuotation.parts q !! i = Some p ->
       SavedQuotation.parts q !! j = Some p' ->
       SavedPart.id p <> SavedPart.id p').
Proof.
  intros H.
  assert (exists q,
             SavedQuotationsData.quotations quotationsData' !! quotationId = Some q /\
             SavedQuotation.parts q
             = renameParts quotationId (SaveQuotationParams.parts params))
    as (q & Hq & Hparts).
  { unfold saveQuotation in H.
    destruct (Js.truthy (SaveQuotationParams.existingQuotationId params)).
    - destruct (Js.get (SavedQuotationsData.quotations quotationsData) _)
        as [e | |]; try discriminate.
      destruct (DateNow.plusDays now 30) as [validUntil |]; [| discriminate].
      inversion H; subst. cbn. rewrite lookup_insert_eq.
      eexists. split; reflexivity.
    - destruct (DateNow.plusDays now 30) as [validUntil |]; [| discriminate].
      inversion H; subst. cbn. rewrite lookup_insert_eq.
      eexists. split; reflexivity. }
  exists q. split; [exact Hq |]. rewrite Hparts.
  split; [apply length_imap |]. split; [apply renameParts_lookup |].
  intros i j p p' Hij Hp Hp' Heq.
  apply renameParts_lookup in Hp as (_ & _ & Hidp & _).
  apply renameParts_lookup in Hp' as (_ & _ & Hidp' & _).
  rewrite Hidp, Hidp' in Heq.
  apply append_inv_head in Heq. apply (append_inv_head "_part_") in Heq.
  apply string_of_N_inj in Heq. lia.
Qed.

Lemma saved_part_ids_distinct_witness :
  exists q,
    SavedQuotationsData.quotations Fixtures.savedDraft !! "quot_a" = Some q /\
    List.length (SavedQuotation.parts q)
    = List.length (SaveQuotationParams.parts
                     (SaveFlow.saveParams Samples.mockKarnatakaCustomer
                                          Fixtures.draft)) /\
    (forall i p, SavedQuotation.parts q !! i = Some p ->
       exists original,
         SaveQuotationParams.parts
           (SaveFlow.saveParams Samples.mockKarnatakaCustomer Fixtures.draft)
           !! i = Some original /\
         SavedPart.id p
         = "quot_a" ++ "_part_" ++ Js.string_of_N (N.of_nat (S i)) /\
         SavedPart.serialNumber p = SavedPart.serialNumber original /\
         SavedPart.fileName p = SavedPart.fileName original /\
         SavedPart.quantity p = SavedPart.quantity original /\
         SavedPart.totalPrice p = SavedPart.totalPrice original /\
         SavedPart.finalPrice p = SavedPart.finalPrice original) /\
    (forall i j p p', i <> j ->
       SavedQuotation.parts q !! i = Some p ->
       SavedQuotation.parts q !! j = Some p' ->
       SavedPart.id p <> SavedPart.id p').
Proof.
  apply (saved_part_ids_distinct Fixtures.quotations0 Fixtures.savedDraft
           Samples.noon "quot_a" "quot_a").
  vm_compute. reflexivity.
Defined.

End SavedPartIds.

(** ** The persisted draft *)

Section PersistedDraft.
Import UseQuotationState.

Lemma expired_iff (now : DateNow.t) (lastUpdated : Z) :
  (STATE_EXPIRY_HOURS < hoursDiff now lastUpdated)%Q
  <-> (86400000 < DateNow.getTime now - lastUpdated)%Z.
Proof.
  unfold STATE_EXPIRY_HOURS, hoursDiff.
  generalize (DateNow.getTime now - lastUpdated)%Z as d. intros d.
  change (1000 * 60 * 60)%Z with 3600000%Z.
  unfold Qlt, Qdiv, Qmult, Qinv, inject_Z. cbn. lia.
Qed.

(** X13. The draft kept in the browser expires after 24 hours, counted in
    milliseconds from its last update, the boundary included: a draft at most
    86 400 000 ms old is restored with every field as stored (the time of last
    update too) except that each file becomes a placeholder named after the
    part, and loading the restored draft again gives the same draft; an older
    draft is dropped and the empty draft is returned. [hasSavedQuotationState]
    answers true exactly when the draft would be restored and has a customer
    or a part. *)
Theorem draft_expires_after_a_day (stored : QuotationState.t) (now : DateNow.t) :
  let age := (DateNow.getTime now - QuotationState.lastUpdated stored)%Z in
  let restored := loadQuotationState (saveQuotationState stored) now in
  ((age <= 86400000)%Z ->
   QuotationState.selectedCustomerId restored
   = QuotationState.selectedCustomerId stored /\
   QuotationState.discount restored = QuotationState.discount stored /\
   QuotationState.lastUpdated restored = QuotationState.lastUpdated stored /\
   QuotationState.editingQuotationId restored
   = QuotationState.editingQuotationId stored /\
   QuotationState.notes restored = QuotationState.notes stored /\
   QuotationState.paymentTerms restored = QuotationState.paymentTerms stored /\
   QuotationState.leadTime restored = QuotationState.leadTime stored /\
   QuotationState.serviceCharges restored = QuotationState.serviceCharges stored /\
   List.length (QuotationState.parts restored)
   = List.length (QuotationState.parts stored) /\
   (forall i p, QuotationState.parts stored !! i = Some p ->
      QuotationState.parts restored !! i
      = Some (withFile p
                (match QuotationPart.file p with
                 | Some _ => Some (createMockFile (QuotationPart.fileName p)
                                                  (QuotationPart.fileType p))
                 | None => None
                 end))) /\
   loadQuotationState (saveQuotationState restored) now = restored /\
   hasSavedQuotationState (saveQuotationState stored) now
   = Js.truthy (QuotationState.selectedCustomerId stored)
     || (0 <? List.length (QuotationState.parts stored))%nat) /\
  ((86400000 < age)%Z ->
   restored = createEmptyState now /\
   hasSavedQuotationState (saveQuotationState stored) now = false).
Proof.
  intros age restored. subst restored.
  unfold loadQuotationState, hasSavedQuotationState, saveQuotationState.
  split.
  - intros Hage.
    destruct (Qlt_le_dec STATE_EXPIRY_HOURS
                         (hoursDiff now (QuotationState.lastUpdated stored)))
      as [Hexp | _]; [apply expired_iff in Hexp; subst age; lia |].
    cbn [QuotationState.selectedCustomerId QuotationState.discount
         QuotationState.lastUpdated QuotationState.editingQuotationId
         QuotationState.notes QuotationState.paymentTerms QuotationState.leadTime
         QuotationState.serviceCharges QuotationState.parts].
    repeat (split; [reflexivity |]).
    split; [apply length_map |].
    split.
    { intros i p Hp. change (List.map ?f ?l) with (f <$> l).
      rewrite list_lookup_fmap, Hp. reflexivity. }
    split; [| reflexivity].
    destruct (Qlt_le_dec STATE_EXPIRY_HOURS
                         (hoursDiff now (QuotationState.lastUpdated stored)))
      as [Hexp | _]; [apply expired_iff in Hexp; subst age; lia |].
    f_equal. rewrite List.map_map. apply List.map_ext. intros p.
    destruct p as [? ? ? ? ? ? ? ? ? ? ? ? ? [f |] ? ?]; reflexivity.
  - intros Hage.
    destruct (Qlt_le_dec STATE_EXPIRY_HOURS
                         (hoursDiff now (QuotationState.lastUpdated stored)))
      as [_ | Hle]; [split; reflexivity |].
    exfalso. apply expired_iff in Hage. exact (Qlt_not_le _ _ Hage Hle).
Qed.

End PersistedDraft.

(** ** Deleting an invoice *)

Section DeletingInvoices.
Import UseSavedInvoices InvoiceCascade.

Lemma orderToDelete_Some (values : list Order.t) (invoiceId : string)
      (order : Order.t) :
  orderToDelete values invoiceId = Some order ->
  order ∈ values /\ Order.invoiceId order = invoiceId.
Proof.
  unfold orderToDelete. intros H. apply find_some in H as [Hin Heq].
  split; [apply list_elem_of_In; exact Hin | apply String.eqb_eq; exact Heq].
Qed.

Lemma enumerates_valuesOf (orders : OrdersData.t) :
  enumerates (Fixtures.valuesOf orders) orders.
Proof.
  intros o. unfold Fixtures.valuesOf. rewrite list_elem_of_fmap. split.
  - intros [[k o'] [-> Hin]]. apply elem_of_map_to_list in Hin.
    exists k. exact Hin.
  - intros [k Hk]. exists (k, o). split; [reflexivity |].
    apply elem_of_map_to_list. exact Hk.
Qed.

(** X14. [deleteInvoice] removes the invoice and at most one order. The order
    collection is left as it is when the invoice store has nothing under the
    id, neither a record nor an inherited name (also when orders refer to that
    id), when no listed order refers to the invoice, and when [require] is not
    available. Otherwise (the id is a key of the invoice store, or a name
    every object inherits), the orders being stored under their ids, one
    order referring to the id is removed, the first one in enumeration order,
    and every other order stays; the order counter and the invoice counter
    are never changed. *)
Theorem deleteInvoice_cascade (requireResolves : bool) (values : list Order.t)
        (now : DateNow.t) (invoiceId : string)
        (invoicesData : SavedInvoicesData.t) (orders : OrdersData.t) :
  enumerates values orders -> keyed orders ->
  let result :=
    InvoiceCascade.deleteInvoice requireResolves values now invoiceId
                                 invoicesData orders in
  let invoice := Js.get (SavedInvoicesData.invoices invoicesData) invoiceId in
  SavedInvoicesData.invoices (fst result)
  = delete invoiceId (SavedInvoicesData.invoices invoicesData) /\
  SavedInvoicesData.next_invoice_number (fst result)
  = SavedInvoicesData.next_invoice_number invoicesData /\
  OrdersData.next_order_number (snd result)
  = OrdersData.next_order_number orders /\
  (invoice = Js.Undefined -> snd result = orders) /\
  (requireResolves = false -> snd result = orders) /\
  ((forall o, o ∈ values -> Order.invoiceId o <> invoiceId) ->
   snd result = orders) /\
  (forall k o, OrdersData.orders orders !! k = Some o ->
     Order.invoiceId o <> invoiceId ->
     OrdersData.orders (snd result) !! k = Some o) /\
  (invoice <> Js.Undefined ->
   requireResolves = true ->
   forall o, o ∈ values -> Order.invoiceId o = invoiceId ->
     exists removed,
       orderToDelete values invoiceId = Some removed /\
       Order.invoiceId removed = invoiceId /\
       OrdersData.orders (snd result)
       = delete (Order.id removed) (OrdersData.orders orders) /\
       size (OrdersData.orders orders)
       = S (size (OrdersData.orders (snd result)))).
Proof.
  intros Henum Hkeyed result invoice. subst result invoice.
  unfold InvoiceCascade.deleteInvoice. cbv zeta. cbn [fst snd].
  split; [reflexivity |]. split; [reflexivity |].
  set (cascade :=
         match orderToDelete values invoiceId with
         | Some order =>
             if requireResolves
             then OrdersData.mk
                    (delete (Order.id order) (OrdersData.orders orders))
                    (DateNow.getTime now) (OrdersData.next_order_number orders)
             else orders
         | None => orders
         end).
  assert (OrdersData.next_order_number cascade
          = OrdersData.next_order_number orders) as Hcounter.
  { subst cascade. destruct (orderToDelete values invoiceId); [| reflexivity].
    destruct requireResolves; reflexivity. }
  assert (requireResolves = false -> cascade = orders) as Hrequire.
  { intros ->. subst cascade.
    destruct (orderToDelete values invoiceId); reflexivity. }
  assert ((forall o, o ∈ values -> Order.invoiceId o <> invoiceId) ->
          cascade = orders) as Hnone.
  { intros Hno. subst cascade.
    destruct (orderToDelete values invoiceId) as [order |] eqn:Hfind;
      [| reflexivity].
    apply orderToDelete_Some in Hfind as [Hin Href].
    exfalso. exact (Hno order Hin Href). }
  assert (forall k o, OrdersData.orders orders !! k = Some o ->
            Order.invoiceId o <> invoiceId ->
            OrdersData.orders cascade !! k = Some o) as Hothers.
  { intros k o Hk Hother. subst cascade.
    destruct (orderToDelete values invoiceId) as [order |] eqn:Hfind;
      [| exact Hk].
    destruct requireResolves; [| exact Hk].
    cbn [OrdersData.orders].
    apply orderToDelete_Some in Hfind as [Hin Href].
    apply Henum in Hin as [k' Hk'].
    pose proof (Hkeyed k' order Hk') as Hid.
    rewrite lookup_delete_ne; [exact Hk |].
    intros Heq. rewrite Hid in Heq. rewrite Heq in Hk'.
    rewrite Hk in Hk'. inversion Hk'; subst o. contradiction. }
  assert (requireResolves = true ->
          forall o, o ∈ values -> Order.invoiceId o = invoiceId ->
            exists removed,
              orderToDelete values invoiceId = Some removed /\
              Order.invoiceId removed = invoiceId /\
              OrdersData.orders cascade
              = delete (Order.id removed) (OrdersData.orders orders) /\
              size (OrdersData.orders orders)
              = S (size (OrdersData.orders cascade))) as Hremoved.
  { intros -> o Hin Href. subst cascade.
    destruct (orderToDelete values invoiceId) as [order |] eqn:Hfind.
    - exists order. split; [reflexivity |].
      apply orderToDelete_Some in Hfind as [Hin' Href'].
      split; [exact Href' |]. split; [reflexivity |].
      cbn [OrdersData.orders].
      apply Henum in Hin' as [k' Hk'].
      rewrite (Hkeyed k' order Hk').
      rewrite map_size_delete, Hk'.
      assert (size (OrdersData.orders orders) <> 0%nat) as Hne.
      { intros Hz. apply map_size_empty_iff in Hz. rewrite Hz in Hk'.
        rewrite lookup_empty in Hk'. discriminate. }
      lia.
    - exfalso. unfold orderToDelete in Hfind.
      apply list_elem_of_In in Hin.
      pose proof (find_none _ _ Hfind o Hin) as Hno. cbn in Hno.
      apply String.eqb_neq in Hno. contradiction. }
  clearbody cascade.
  destruct (Js.get (SavedInvoicesData.invoices invoicesData) invoiceId)
    as [stored | |].
  - split; [exact Hcounter |]. split; [discriminate |].
    split; [exact Hrequire |]. split; [exact Hnone |].
    split; [exact Hothers |]. intros _. exact Hremoved.
  - split; [exact Hcounter |]. split; [discriminate |].
    split; [exact Hrequire |]. split; [exact Hnone |].
    split; [exact Hothers |]. intros _. exact Hremoved.
  - split; [reflexivity |]. split; [reflexivity |].
    split; [reflexivity |]. split; [reflexivity |].
    split; [intros k o Hk _; exact Hk |]. intros Hne. contradiction.
Qed.

Lemma deleteInvoice_cascade_witness :
  let result :=
    InvoiceCascade.deleteInvoice true (Fixtures.valuesOf Fixtures.orders1)
      Samples.laterDate "inv1" Samples.invoices1 Fixtures.orders1 in
  let invoice := Js.get (SavedInvoicesData.invoices Samples.invoices1) "inv1" in
  SavedInvoicesData.invoices (fst result)
  = delete "inv1" (SavedInvoicesData.invoices Samples.invoices1) /\
  SavedInvoicesData.next_invoice_number (fst result)
  = SavedInvoicesData.next_invoice_number Samples.invoices1 /\
  OrdersData.next_order_number (snd result)
  = OrdersData.next_order_number Fixtures.orders1 /\
  (invoice = Js.Undefined -> snd result = Fixtures.orders1) /\
  (true = false -> snd result = Fixtures.orders1) /\
  ((forall o, o ∈ Fixtures.valuesOf Fixtures.orders1 ->
              Order.invoiceId o <> "inv1") ->
   snd result = Fixtures.orders1) /\
  (forall k o, OrdersData.orders Fixtures.orders1 !! k = Some o ->
     Order.invoiceId o <> "inv1" ->
     OrdersData.orders (snd result) !! k = Some o) /\
  (invoice <> Js.Undefined ->
   true = true ->
   forall o, o ∈ Fixtures.valuesOf Fixtures.orders1 ->
     Order.invoiceId o = "inv1" ->
     exists removed,
       orderToDelete (Fixtures.valuesOf Fixtures.orders1) "inv1" = Some removed /\
       Order.invoiceId removed = "inv1" /\
       OrdersData.orders (snd result)
       = delete (Order.id removed) (OrdersData.orders Fixtures.orders1) /\
       size (OrdersData.orders Fixtures.orders1)
       = S (size (OrdersData.orders (snd result)))).
Proof.
  apply (deleteInvoice_cascade true (Fixtures.valuesOf Fixtures.orders1)
           Samples.laterDate "inv1" Samples.invoices1 Fixtures.orders1).
  - apply enumerates_valuesOf.
  - intros k o H. unfold Fixtures.orders1 in H. cbn in H.
    apply lookup_insert_Some in H as [[<- <-] | [_ H]]; [reflexivity |].
    rewrite lookup_empty in H. discriminate H.
Defined.

(** An invoice id that is an inherited name passes the guard [if (invoice)]:
    an order that refers to it is removed although no such invoice is
    stored. *)
Example deleteInvoice_inherited_id :
  let stray :=
    OrdersData.mk
      {[ "order_a" := Order.mk "order_a" "ORD2501150001" "constructor"
                        "INV2501150001" "CUST001" [] New 1736942400000
                        1736942400000 [] 0 ]}
      1736942400000 "ORD0002" in
  SavedInvoicesData.invoices Samples.invoices1 !! "constructor" = None /\
  size (OrdersData.orders stray) = 1%nat /\
  OrdersData.orders
    (snd (InvoiceCascade.deleteInvoice true (Fixtures.valuesOf stray)
            Samples.noon "constructor" Samples.invoices1 stray)) = ∅.
Proof. vm_compute. repeat split. Qed.

(** X15. Promoting a quotation and then deleting the invoice does not undo the
    promotion. When the promotion completes, with [require] available and
    fresh ids, the invoice map and the order map are again what they were
    before the promotion, but the quotation stays deleted and both counters
    stay advanced, so the numbers issued to the deleted invoice and order are
    not issued again. *)
Theorem promote_then_delete_invoice (st st1 : Stores) (now now2 : DateNow.t)
        (invoiceId orderId returned : string) (q : SavedQuotation.t)
        (values : list Order.t) :
  SavedInvoicesData.invoices (invoicesData st) !! invoiceId = None ->
  OrdersData.orders (ordersData st) !! orderId = None ->
  (forall k o, OrdersData.orders (ordersData st) !! k = Some o ->
               Order.invoiceId o <> invoiceId) ->
  createInvoiceFromQuotation st now invoiceId orderId q
    (UseSavedQuotations.deleteQuotation now) = Js.Normal (st1, returned) ->
  enumerates values (ordersData st1) ->
  let result :=
    InvoiceCascade.deleteInvoice true values now2 invoiceId
                                 (invoicesData st1) (ordersData st1) in
  SavedInvoicesData.invoices (fst result)
  = SavedInvoicesData.invoices (invoicesData st) /\
  OrdersData.orders (snd result) = OrdersData.orders (ordersData st) /\
  SavedInvoicesData.next_invoice_number (fst result)
  = DocumentNumber.next "INV"
      (SavedInvoicesData.next_invoice_number (invoicesData st)) /\
  OrdersData.next_order_number (snd result)
  = DocumentNumber.next "ORD" (OrdersData.next_order_number (ordersData st)) /\
  SavedQuotationsData.quotations (quotationsData st1) !! SavedQuotation.id q
  = None.
Proof.
  intros Hinv Hord Hfresh Hprom Henum result. subst result.
  destruct (createInvoiceFromQuotation_cases st now invoiceId orderId q
              (UseSavedQuotations.deleteQuotation now))
    as [[invoice Hnew] | Hthrow]; [| congruence].
  rewrite (createInvoiceFromQuotation_Normal st now invoiceId orderId q _
             invoice Hnew) in Hprom.
  assert (SavedInvoice.id invoice = invoiceId) as Hiid.
  { unfold newInvoiceOf in Hnew. cbv zeta in Hnew.
    destruct (dueDateFor now _); [| discriminate].
    inversion Hnew. reflexivity. }
  destruct (createOrder_stores (ordersData st) now orderId invoice)
    as (order & Hstore & _ & Hoid & Href & _).
  rewrite Hiid in Href.
  assert (OrdersData.next_order_number
            (fst (UseOrders.createOrder (ordersData st) now orderId invoice))
          = DocumentNumber.next "ORD"
              (OrdersData.next_order_number (ordersData st))) as Hocounter
      by reflexivity.
  set (orders1 := fst (UseOrders.createOrder (ordersData st) now orderId invoice))
    in *.
  clearbody orders1.
  injection Hprom as Hst1 Hret. clear Hret. subst st1.
  cbn [quotationsData invoicesData ordersData] in *.
  unfold InvoiceCascade.deleteInvoice. cbv zeta.
  cbn [SavedInvoicesData.invoices].
  rewrite (get_Own _ _ _ (lookup_insert_eq _ invoiceId invoice)).
  assert (order ∈ values) as Hin.
  { apply Henum. exists orderId. rewrite Hstore. apply lookup_insert_eq. }
  destruct (orderToDelete values invoiceId) as [found |] eqn:Hfind.
  - apply orderToDelete_Some in Hfind as [Hfin Hfref].
    apply Henum in Hfin as [k Hk]. rewrite Hstore in Hk.
    assert (found = order) as ->.
    { destruct (decide (k = orderId)) as [-> | Hne].
      - rewrite lookup_insert_eq in Hk. congruence.
      - rewrite lookup_insert_ne in Hk by congruence.
        exfalso. exact (Hfresh k found Hk Hfref). }
    cbn [fst snd UseSavedInvoices.deleteInvoice SavedInvoicesData.invoices
         SavedInvoicesData.next_invoice_number OrdersData.orders
         OrdersData.next_order_number].
    rewrite Hoid, Hstore.
    split; [apply delete_insert_id; exact Hinv |].
    split; [apply delete_insert_id; exact Hord |].
    split; [reflexivity |]. split; [exact Hocounter |].
    unfold UseSavedQuotations.deleteQuotation.
    cbn [SavedQuotationsData.quotations]. apply lookup_delete_eq.
  - exfalso. unfold orderToDelete in Hfind. apply list_elem_of_In in Hin.
    pose proof (find_none _ _ Hfind order Hin) as Hno. cbn in Hno.
    apply String.eqb_neq in Hno. contradiction.
Qed.

Lemma promote_then_delete_invoice_witness :
  let result :=
    InvoiceCascade.deleteInvoice true
      (Fixtures.valuesOf (ordersData Fixtures.promoted)) Samples.laterDate
      "inv_a" (invoicesData Fixtures.promoted) (ordersData Fixtures.promoted) in
  SavedInvoicesData.invoices (fst result)
  = SavedInvoicesData.invoices (invoicesData Samples.stores1) /\
  OrdersData.orders (snd result)
  = OrdersData.orders (ordersData Samples.stores1) /\
  SavedInvoicesData.next_invoice_number (fst result)
  = DocumentNumber.next "INV"
      (SavedInvoicesData.next_invoice_number (invoicesData Samples.stores1)) /\
  OrdersData.next_order_number (snd result)
  = DocumentNumber.next "ORD"
      (OrdersData.next_order_number (ordersData Samples.stores1)) /\
  SavedQuotationsData.quotations (quotationsData Fixtures.promoted)
    !! SavedQuotation.id Samples.quotation1 = None.
Proof.
  apply (promote_then_delete_invoice Samples.stores1 Fixtures.promoted
           Samples.noon Samples.laterDate "inv_a" "order_a" "inv_a"
           Samples.quotation1).
  - reflexivity.
  - reflexivity.
  - intros k o H. cbn in H. rewrite lookup_empty in H. discriminate H.
  - reflexivity.
  - apply enumerates_valuesOf.
Defined.

End DeletingInvoices.

(** ** More on the payment ledger *)

Section LedgerRoundTrip.
Import UseSavedInvoices.





End LedgerRoundTrip.



(** ** Due dates *)

Section DueDates.
Import UseSavedInvoices.

Lemma parseInt_string_of_N (n : N) :
  Js.parseInt (Js.string_of_N n) = Some (Z.of_N n).
Proof.
  rewrite parseInt_digits.
  - rewrite parse_digits_string_of_N. reflexivity.
  - apply string_of_N_nonempty.
  - apply all_digits_string_of_N.
Qed.

Lemma dueDateFor_net (now : DateNow.t) (n : N) :
  dueDateFor now ("Net " ++ Js.string_of_N n) = DateNow.plusDays now (Z.of_N n).
Proof.
  unfold dueDateFor.
  change ("Net " ++ Js.string_of_N n)
    with (String "N" (String "e" (String "t" (String " " (Js.string_of_N n))))).
  cbn [String.eqb Ascii.eqb Bool.eqb].
  change (String "N" (String "e" (String "t" (String " " (Js.string_of_N n)))))
    with ("Net " ++ Js.string_of_N n).
  unfold Js.startsWith. rewrite prefix_append, replace_prefix.
  rewrite parseInt_string_of_N. reflexivity.
Qed.

(** X18. The due date of the invoice made from a quotation is the date of the
    promotion, moved by [setDate(getDate() + n)] over a number of calendar
    days that the payment terms decide: not moved for the two advance terms,
    7 days for payment on delivery, N days for "Net N" with N a decimal number
    in the range of exact integers, and 30 days in every other case: no terms
    on the quotation, "Net " followed by something that is not a number, or
    any other text.  When the date so moved is a valid date the invoice is
    made with it as due date; when it is not, making the invoice raises a
    RangeError. *)
Theorem invoice_due_date (invoicesData : SavedInvoicesData.t) (now : DateNow.t)
        (invoiceId : string) (q : SavedQuotation.t) :
  let due := dueDateFor now (Js.or_else (SavedQuotation.paymentTerms q) "Net 30") in
  let made := newInvoiceOf invoicesData now invoiceId q in
  (forall dueDate, due = Some dueDate ->
     exists invoice,
       made = Js.Normal invoice /\ SavedInvoice.dueDate invoice = dueDate) /\
  (due = None -> made = Js.Throw Js.RangeError) /\
  (Js.truthy (SavedQuotation.paymentTerms q) = false ->
   due = DateNow.plusDays now 30) /\
  (forall n : N,
      (Z.of_N n < Js.safe_bound)%Z ->
      SavedQuotation.paymentTerms q = Some ("Net " ++ Js.string_of_N n) ->
      due = DateNow.plusDays now (Z.of_N n)) /\
  (SavedQuotation.paymentTerms q = Some "100% advance" ->
   due = Some (DateNow.getTime now)) /\
  (SavedQuotation.paymentTerms q = Some "60% advance and rest upon delivery" ->
   due = Some (DateNow.getTime now)) /\
  (SavedQuotation.paymentTerms q = Some "Payment on delivery" ->
   due = DateNow.plusDays now 7) /\
  (forall terms,
      SavedQuotation.paymentTerms q = Some terms ->
      terms <> "100% advance" ->
      terms <> "60% advance and rest upon delivery" ->
      terms <> "Payment on delivery" ->
      Js.startsWith terms "Net " = false
      \/ Js.parseInt (Js.replace "Net " "" terms) = None ->
      due = DateNow.plusDays now 30).
Proof.
  intros due made. subst due made.
  split; [| split; [| split; [| split; [| split; [| split; [| split]]]]]].
  - intros dueDate Hdue. unfold newInvoiceOf. cbv zeta. rewrite Hdue.
    eexists. split; reflexivity.
  - intros Hdue. unfold newInvoiceOf. cbv zeta. rewrite Hdue. reflexivity.
  - intros Hfalsy. unfold Js.or_else. rewrite Hfalsy. reflexivity.
  - intros n _ ->. unfold Js.or_else.
    change ("Net " ++ Js.string_of_N n)
      with (String "N" (String "e" (String "t" (String " " (Js.string_of_N n))))).
    cbn [Js.truthy String.eqb negb default from_option id].
    apply dueDateFor_net.
  - intros ->. reflexivity.
  - intros ->. reflexivity.
  - intros ->. reflexivity.
  - intros terms -> H1 H2 H3 Hother.
    assert (Js.or_else (Some terms) "Net 30" = terms \/ terms = "") as [-> | ->].
    { unfold Js.or_else, Js.truthy.
      destruct (String.eqb terms "") eqn:E; cbn.
      - right. apply String.eqb_eq. exact E.
      - left. reflexivity. }
    + unfold dueDateFor.
      apply String.eqb_neq in H1, H2, H3. rewrite H1, H2, H3.
      destruct Hother as [-> | ->]; [reflexivity |].
      destruct (Js.startsWith terms "Net "); reflexivity.
    + reflexivity.
Qed.

(** In an environment whose zone is UTC a calendar day is 86 400 000 ms:
    [Net 15] on 15 January 2025 is due on 30 January, and [Net 100000000] has
    no valid due date. *)
Example invoice_due_date_utc :
  dueDateFor Samples.noon "Net 15" = Some (1736942400000 + 15 * 86400000)%Z /\
  dueDateFor Samples.noon "Net 100000000" = None /\
  dueDateFor Samples.noon "Payment on delivery"
  = Some (1736942400000 + 7 * 86400000)%Z.
Proof. repeat split. Qed.

End DueDates.

(** ** The bulk edit form *)

Section BulkForm.
Import QuotationPage BulkActions.

Lemma spread_nothing (p : QuotationPart.t) :
  spread p (PartUpdates.mk None None None None None None None None
                           None None None None None None None None) = p.
Proof. destruct p; reflexivity. Qed.

(** X19. Applying the bulk edit form changes nothing and raises nothing when
    no part is selected, whatever the form holds, and when no process is
    chosen and the quantity is empty or not positive: a material chosen
    without a process is not sent, and neither is a quantity of 0 or less. *)
Theorem bulk_apply_noop (td : TechnologiesData.t) (customer : option Customer.t)
        (parts : list QuotationPart.t) (bulkMaterial : string)
        (bulkQuantity : option Q) :
  (selectedParts parts = [] ->
   forall bulkTechnology,
     handleApplyBulkChanges td customer parts bulkTechnology bulkMaterial
                            bulkQuantity = Js.Normal parts) /\
  ((forall q, bulkQuantity = Some q -> (q <= 0)%Q) ->
   handleApplyBulkChanges td customer parts "" bulkMaterial bulkQuantity
   = Js.Normal parts).
Proof.
  split.
  - intros Hnone bulkTechnology. unfold handleApplyBulkChanges.
    rewrite Hnone. reflexivity.
  - intros Hq. unfold handleApplyBulkChanges.
    destruct (selectedParts parts) as [| s r] eqn:Hsel; [reflexivity |].
    assert (bulkUpdates "" bulkMaterial bulkQuantity
            = PartUpdates.mk None None None None None None None None
                             None None None None None None None None) as ->.
    { unfold bulkUpdates. cbn.
      destruct bulkQuantity as [q |]; [| reflexivity].
      destruct (Qlt_le_dec 0 q) as [Hpos | _]; [| reflexivity].
      exfalso. exact (Qlt_not_le _ _ Hpos (Hq q eq_refl)). }
    unfold handleUpdateParts.
    rewrite (mapM_pure _ (fun p => p)).
    + rewrite List.map_id. reflexivity.
    + intros x _. destruct (includes _ _); [| reflexivity].
      unfold bulkUpdatePart. cbn [PartUpdates.quantity].
      unfold materialRule, technologyRule.
      cbn [PartUpdates.material PartUpdates.technology flat Js.truthy].
      rewrite andb_false_r. cbn [andb]. rewrite spread_nothing. reflexivity.
Qed.

End BulkForm.

(** ** Stored invoices of an older version *)

Section MigratedInvoices.
Import Migration.

Lemma orZero_orZero (x : Q) :
  UseOrders.orZero (UseOrders.orZero x) = UseOrders.orZero x.
Proof.
  unfold UseOrders.orZero. destruct (Qeq_bool x 0) eqn:E; [reflexivity |].
  rewrite E. reflexivity.
Qed.

(** X20. [migrateInvoicesData] keeps the keys and the recorded fields of every
    invoice and fills the missing ledger fields: an invoice stored without
    them gets an empty payment list, a paid total of 0 and its final price as
    remaining amount, and keeps its status, so that an invoice stored as Paid
    with a positive final price comes out Paid with its whole price
    outstanding. Migrating what was already migrated changes nothing, and a
    missing or empty counter becomes INV0001. *)
Theorem migration_fills_ledger (now : DateNow.t)
        (invoices : option (gmap string RawInvoice.t))
        (last_updated : option Z) (next_invoice_number : option string) :
  let data := migrateInvoicesData now invoices last_updated next_invoice_number in
  (forall k, SavedInvoicesData.invoices data !! k
             = migrateInvoice <$> (default ∅ invoices !! k)) /\
  (forall raw,
      let invoice := migrateInvoice raw in
      SavedInvoice.id invoice = SavedInvoice.id (RawInvoice.base raw) /\
      SavedInvoice.invoiceNumber invoice
      = SavedInvoice.invoiceNumber (RawInvoice.base raw) /\
      SavedInvoice.finalPrice invoice
      = SavedInvoice.finalPrice (RawInvoice.base raw) /\
      SavedInvoice.status invoice = SavedInvoice.status (RawInvoice.base raw) /\
      SavedInvoice.dueDate invoice = SavedInvoice.dueDate (RawInvoice.base raw) /\
      SavedInvoice.parts invoice = SavedInvoice.parts (RawInvoice.base raw) /\
      (legacy raw ->
       SavedInvoice.payments invoice = [] /\
       SavedInvoice.totalPaid invoice = 0%Q /\
       SavedInvoice.remainingAmount invoice
       = SavedInvoice.finalPrice (RawInvoice.base raw) /\
       (SavedInvoice.status (RawInvoice.base raw) = Paid ->
        (0 < SavedInvoice.finalPrice (RawInvoice.base raw))%Q ->
        ~ Ledger.consistent invoice)) /\
      migrateInvoice (toRaw invoice) = invoice) /\
  (Js.truthy next_invoice_number = false ->
   SavedInvoicesData.next_invoice_number data = "INV0001") /\
  (forall counter, next_invoice_number = Some counter -> counter <> "" ->
                   SavedInvoicesData.next_invoice_number data = counter).
Proof.
  intros data. subst data. unfold migrateInvoicesData.
  cbn [SavedInvoicesData.invoices SavedInvoicesData.next_invoice_number].
  split; [intros k; apply lookup_fmap |].
  split; [| split].
  2: { intros Hfalsy. unfold Js.or_else. rewrite Hfalsy. reflexivity. }
  2: { intros counter -> Hne. unfold Js.or_else, Js.truthy.
       apply String.eqb_neq in Hne. rewrite Hne. reflexivity. }
  intros raw. cbv zeta.
  repeat (split; [reflexivity |]).
  split.
  - intros (Hp & Ht & Hr). unfold migrateInvoice.
    cbn [SavedInvoice.payments SavedInvoice.totalPaid
         SavedInvoice.remainingAmount].
    rewrite Hp, Ht, Hr. cbn [default from_option id].
    split; [reflexivity |]. split; [reflexivity |]. split; [reflexivity |].
    intros Hpaid Hpos (_ & _ & Hiff).
    cbn [SavedInvoice.status SavedInvoice.remainingAmount default from_option id]
      in Hiff.
    apply Hiff in Hpaid. exact (Qlt_not_le _ _ Hpos Hpaid).
  - unfold migrateInvoice, toRaw.
    cbn [RawInvoice.base RawInvoice.payments RawInvoice.totalPaid
         RawInvoice.remainingAmount RawInvoice.serviceCharges
         RawInvoice.totalServiceCharges default from_option id
         SavedInvoice.id SavedInvoice.invoiceNumber SavedInvoice.quotationId
         SavedInvoice.quotationNumber SavedInvoice.customerId
         SavedInvoice.customerName SavedInvoice.parts
         SavedInvoice.totalBasePrice SavedInvoice.discount SavedInvoice.totalGST
         SavedInvoice.finalPrice SavedInvoice.status SavedInvoice.createdAt
         SavedInvoice.updatedAt SavedInvoice.dueDate SavedInvoice.notes
         SavedInvoice.gstType SavedInvoice.shippingAddressType
         SavedInvoice.payments SavedInvoice.totalPaid
         SavedInvoice.remainingAmount SavedInvoice.serviceCharges
         SavedInvoice.totalServiceCharges].
    rewrite !orZero_orZero. reflexivity.
Qed.

End MigratedInvoices.

(** ** Order status *)

Section OrderStatusButtons.
Import OrdersPage.

Lemma orderButtons_cases (s s' : OrderStatus) :
  s' ∈ orderButtons s ->
  (s = New /\ (s' = Produced \/ s' = OCancelled)) \/
  (s = Produced /\ (s' = Dispatched \/ s' = OCancelled)).
Proof.
  destruct s; cbn; intros H.
  - left. split; [reflexivity |].
    apply elem_of_cons in H as [-> | H]; [left; reflexivity |].
    apply elem_of_cons in H as [-> | H]; [right; reflexivity |].
    apply elem_of_nil in H. contradiction.
  - right. split; [reflexivity |].
    apply elem_of_cons in H as [-> | H]; [left; reflexivity |].
    apply elem_of_cons in H as [-> | H]; [right; reflexivity |].
    apply elem_of_nil in H. contradiction.
  - apply elem_of_nil in H. contradiction.
  - apply elem_of_nil in H. contradiction.
Qed.

(** X21. The status buttons of the orders page only move an order forward:
    from any status, a chain of button presses has at most two presses, never
    leads back to New, and is empty from Dispatched and from Cancelled, which
    offer no button. *)
Theorem order_status_forward_only (s : OrderStatus) (path : list OrderStatus) :
  orderPath s path ->
  (List.length path <= 2)%nat /\
  (forall s', s' ∈ path -> s' <> New) /\
  (s = Dispatched \/ s = OCancelled -> path = []) /\
  (forall a b rest, path = a :: b :: rest ->
     s = New /\ a = Produced /\ (b = Dispatched \/ b = OCancelled) /\ rest = []).
Proof.
  intros H.
  assert (forall s path, orderPath s path ->
            path = [] \/
            (exists a, path = [a] /\ a ∈ orderButtons s) \/
            (exists b, s = New /\ path = [Produced; b]
                       /\ (b = Dispatched \/ b = OCancelled))) as Hshape.
  { clear. intros s path H.
    destruct H as [s | s a rest Ha Hrest]; [left; reflexivity |]. right.
    destruct Hrest as [a | a b rest Hb Hrest]; [left; exists a; auto |]. right.
    apply orderButtons_cases in Ha, Hb.
    destruct Hb as [[-> Hb] | [-> Hb]].
    - destruct Ha as [[_ [Ha | Ha]] | [_ [Ha | Ha]]]; discriminate.
    - destruct Ha as [[-> _] | [_ [Ha | Ha]]]; try discriminate.
      destruct Hrest as [b | b c rest Hc _].
      + exists b. auto.
      + apply orderButtons_cases in Hc.
        destruct Hb as [-> | ->];
          destruct Hc as [[Hc _] | [Hc _]]; discriminate. }
  destruct (Hshape s path H) as [-> | [(a & -> & Ha) | (b & -> & -> & Hb)]].
  - split; [cbn; lia |]. split; [intros s' Hs'; apply elem_of_nil in Hs'; contradiction |].
    split; [reflexivity |]. intros a b rest Hp. discriminate.
  - apply orderButtons_cases in Ha.
    split; [cbn; lia |]. split.
    { intros s' Hs'. apply list_elem_of_singleton in Hs'. subst s'.
      destruct Ha as [[_ [-> | ->]] | [_ [-> | ->]]]; discriminate. }
    split.
    { intros [-> | ->]; destruct Ha as [[Ha _] | [Ha _]]; discriminate. }
    intros a' b rest Hp. discriminate.
  - split; [cbn; lia |]. split.
    { intros s' Hs'. apply elem_of_cons in Hs' as [-> | Hs']; [discriminate |].
      apply list_elem_of_singleton in Hs'. subst s'.
      destruct Hb as [-> | ->]; discriminate. }
    split; [intros [Hs | Hs]; discriminate |].
    intros a b' rest Hp. inversion Hp; subst. auto.
Qed.

Lemma order_status_forward_only_witness :
  (List.length [Produced; Dispatched] <= 2)%nat /\
  (forall s', s' ∈ [Produced; Dispatched] -> s' <> New) /\
  (New = Dispatched \/ New = OCancelled -> [Produced; Dispatched] = []) /\
  (forall a b rest, [Produced; Dispatched] = a :: b :: rest ->
     New = New /\ a = Produced /\ (b = Dispatched \/ b = OCancelled) /\ rest = []).
Proof.
  apply (order_status_forward_only New [Produced; Dispatched]).
  apply orderPath_cons; [cbn; apply list_elem_of_here |].
  apply orderPath_cons; [cbn; apply list_elem_of_here |].
  apply orderPath_nil.
Defined.

End OrderStatusButtons.

(** ** Selection and manual parts *)

Section SelectionAndManualParts.
Import GstCalculator QuotationPage WorkingList.

Lemma selectedParts_all (parts : list QuotationPart.t) (b : bool) :
  selectedParts (List.map (fun part => withSelected part b) parts)
  = if b then List.map (fun part => withSelected part b) parts else [].
Proof.
  unfold selectedParts.
  induction parts as [| p l IH]; [destruct b; reflexivity |].
  cbn [List.map List.filter withSelected QuotationPart.selected default
       from_option id].
  destruct b; cbn [List.filter]; [rewrite IH; reflexivity | exact IH].
Qed.

(** X22. "Select all" selects every part unless every part is selected
    already, in which case it clears the selection; it changes no other field,
    and on a non-empty list pressing it again does the opposite. *)
Theorem toggle_select_all (parts : list QuotationPart.t) :
  let parts' := handleToggleSelectAll parts in
  List.length parts' = List.length parts /\
  (forall i p, parts !! i = Some p ->
     parts' !! i = Some (withSelected p (negb (allSelected parts)))) /\
  (allSelected parts = false -> selectedParts parts' = parts') /\
  (allSelected parts = true -> selectedParts parts' = []) /\
  (parts <> [] -> allSelected parts' = negb (allSelected parts)).
Proof.
  intros parts'. subst parts'. unfold handleToggleSelectAll.
  split; [apply length_map |]. split.
  { intros i p Hp. change (List.map ?f parts) with (f <$> parts).
    rewrite list_lookup_fmap, Hp. reflexivity. }
  split; [intros ->; apply (selectedParts_all parts true) |].
  split; [intros ->; apply (selectedParts_all parts false) |].
  intros Hne. unfold allSelected at 1.
  rewrite selectedParts_all, length_map.
  destruct parts as [| p l]; [contradiction |].
  destruct (negb (allSelected (p :: l))); cbn [List.length Nat.ltb Nat.leb andb].
  - rewrite length_map. cbn [List.length]. apply Nat.eqb_refl.
  - reflexivity.
Qed.

(** X23. The manual part form adds at most one part, at the end of the list.
    It adds one exactly when a customer is selected, the form is valid (a name
    that is not blank, a positive volume and quantity, a process and a
    material) and the catalog has the material; the new part then has the
    serial number n + 1 for a list of n parts, type "manual", the form's
    process, material, volume and quantity, unit price volume times catalog
    rate, total unit price times quantity, tax 18 % of the total and final
    price total plus tax. In every other case in which the form completes the
    list is returned as it was. *)
Theorem manual_part_priced (td : TechnologiesData.t)
        (customer : option Customer.t) (parts parts' : list QuotationPart.t)
        (partId : string) (formData : ManualPartForm.FormData.t) :
  ManualPartForm.submit td customer parts partId formData = Js.Normal parts' ->
  (parts' = parts /\
   (customer = None \/ ManualPartForm.validateForm formData = false \/
    ManualPartForm.selectedMaterial td formData = Js.Normal Js.Undefined)) \/
  (exists cust material volume p,
      customer = Some cust /\
      ManualPartForm.validateForm formData = true /\
      ManualPartForm.FormData.volume formData = Some volume /\
      (0 < volume)%Q /\ (0 < ManualPartForm.FormData.quantity formData)%Q /\
      lookupMaterial td (ManualPartForm.FormData.technology formData)
                     (ManualPartForm.FormData.material formData)
      = Js.Normal material /\
      parts' = (parts ++ [p])%list /\
      QuotationPart.id p = partId /\
      QuotationPart.serialNumber p = (Z.of_nat (List.length parts) + 1)%Z /\
      QuotationPart.fileName p = ManualPartForm.FormData.partName formData /\
      QuotationPart.fileType p = "manual" /\
      QuotationPart.technology p
      = Some (ManualPartForm.FormData.technology formData) /\
      QuotationPart.material p
      = Some (ManualPartForm.FormData.material formData) /\
      QuotationPart.volume p = volume /\
      QuotationPart.quantity p = ManualPartForm.FormData.quantity formData /\
      QuotationPart.unitPrice p = (volume * Material.cost_per_cc material)%Q /\
      QuotationPart.totalPrice p
      = (QuotationPart.unitPrice p * QuotationPart.quantity p)%Q /\
      (QuotationPart.gstAmount p == QuotationPart.totalPrice p * (18 # 100))%Q /\
      QuotationPart.finalPrice p
      = (QuotationPart.totalPrice p + QuotationPart.gstAmount p)%Q /\
      QuotationPart.selected p = Some false).
Proof.
  unfold ManualPartForm.submit, ManualPartForm.handleSubmit. intros H.
  destruct (ManualPartForm.selectedMaterial td formData) as [selected | e |]
    eqn:Hsel; cbn [Js.bind] in H; try discriminate.
  destruct (ManualPartForm.validateForm formData) eqn:Hvalid;
    cbn [Js.bind] in H;
    [| inversion H; left; split;
       [reflexivity | right; left; reflexivity]].
  destruct customer as [cust |];
    [| inversion H; left; split; [reflexivity | left; reflexivity]].
  destruct selected as [material | |]; cbn [Js.bind] in H;
    [| discriminate
     | inversion H; left; split;
       [reflexivity | right; right; reflexivity]].
  inversion H; subst parts'. clear H. right.
  unfold ManualPartForm.validateForm in Hvalid.
  repeat (apply andb_true_iff in Hvalid as [Hvalid ?]).
  destruct (ManualPartForm.FormData.volume formData) as [volume |] eqn:Hvol;
    [| discriminate].
  assert (0 < volume)%Q as Hvpos.
  { apply Qnot_le_lt. intros Hle. apply Qle_bool_iff in Hle.
    match goal with Hv : negb (Qle_bool volume 0) = true |- _ =>
      rewrite Hle in Hv; discriminate Hv end. }
  assert (0 < ManualPartForm.FormData.quantity formData)%Q as Hqpos.
  { apply Qnot_le_lt. intros Hle. apply Qle_bool_iff in Hle.
    match goal with
      Hv : negb (Qle_bool (ManualPartForm.FormData.quantity formData) 0) = true
      |- _ => rewrite Hle in Hv; discriminate Hv end. }
  assert (lookupMaterial td (ManualPartForm.FormData.technology formData)
                         (ManualPartForm.FormData.material formData)
          = Js.Normal material) as Hlookup.
  { unfold ManualPartForm.selectedMaterial in Hsel. unfold lookupMaterial.
    destruct (negb _ && negb _); [| discriminate].
    destruct (Js.get (TechnologiesData.technologies td) _) as [t | |];
      try discriminate.
    inversion Hsel as [Hm]. rewrite Hm. reflexivity. }
  exists cust, material, volume. eexists.
  split; [reflexivity |].
  split; [reflexivity |].
  split; [reflexivity |]. split; [exact Hvpos |]. split; [exact Hqpos |].
  split; [exact Hlookup |].
  split; [reflexivity |].
  cbn [QuotationPart.id QuotationPart.serialNumber QuotationPart.fileName
       QuotationPart.fileType QuotationPart.technology QuotationPart.material
       QuotationPart.volume QuotationPart.quantity QuotationPart.unitPrice
       QuotationPart.totalPrice QuotationPart.gstAmount
       QuotationPart.finalPrice QuotationPart.selected default from_option id].
  repeat (split; [reflexivity |]).
  split; [apply calculateGST_total |]. split; reflexivity.
Qed.

Lemma manual_part_priced_witness :
  exists parts',
    ManualPartForm.submit Samples.catalog (Some Samples.mockKarnatakaCustomer)
      [Samples.bracket] "part_b" Fixtures.plateForm = Js.Normal parts' /\
    ((parts' = [Samples.bracket] /\
      (Some Samples.mockKarnatakaCustomer = None \/
       ManualPartForm.validateForm Fixtures.plateForm = false \/
       ManualPartForm.selectedMaterial Samples.catalog Fixtures.plateForm
       = Js.Normal Js.Undefined)) \/
     (exists cust material volume p,
         Some Samples.mockKarnatakaCustomer = Some cust /\
         ManualPartForm.validateForm Fixtures.plateForm = true /\
         ManualPartForm.FormData.volume Fixtures.plateForm = Some volume /\
         (0 < volume)%Q /\
         (0 < ManualPartForm.FormData.quantity Fixtures.plateForm)%Q /\
         lookupMaterial Samples.catalog
           (ManualPartForm.FormData.technology Fixtures.plateForm)
           (ManualPartForm.FormData.material Fixtures.plateForm)
         = Js.Normal material /\
         parts' = ([Samples.bracket] ++ [p])%list /\
         QuotationPart.id p = "part_b" /\
         QuotationPart.serialNumber p
         = (Z.of_nat (List.length [Samples.bracket]) + 1)%Z /\
         QuotationPart.fileName p
         = ManualPartForm.FormData.partName Fixtures.plateForm /\
         QuotationPart.fileType p = "manual" /\
         QuotationPart.technology p
         = Some (ManualPartForm.FormData.technology Fixtures.plateForm) /\
         QuotationPart.material p
         = Some (ManualPartForm.FormData.material Fixtures.plateForm) /\
         QuotationPart.volume p = volume /\
         QuotationPart.quantity p
         = ManualPartForm.FormData.quantity Fixtures.plateForm /\
         QuotationPart.unitPrice p = (volume * Material.cost_per_cc material)%Q /\
         QuotationPart.totalPrice p
         = (QuotationPart.unitPrice p * QuotationPart.quantity p)%Q /\
         (QuotationPart.gstAmount p == QuotationPart.totalPrice p * (18 # 100))%Q /\
         QuotationPart.finalPrice p
         = (QuotationPart.totalPrice p + QuotationPart.gstAmount p)%Q /\
         QuotationPart.selected p = Some false)).
Proof.
  eexists. split; [vm_compute; reflexivity |].
  apply (manual_part_priced Samples.catalog (Some Samples.mockKarnatakaCustomer)
           [Samples.bracket] _ "part_b" Fixtures.plateForm).
  vm_compute. reflexivity.
Defined.

(** A material that is a name every object inherits passes the guard of the
    form and has no rate: the part handed over has prices that are no
    numbers. *)
Example manual_part_inherited_material :
  ManualPartForm.submit Samples.catalog (Some Samples.mockKarnatakaCustomer)
    [Samples.bracket] "part_b"
    (ManualPartForm.FormData.mk "Base plate" (Some 10%Q) 2 "FDM" "constructor" "")
  = Js.IllTyped.
Proof. reflexivity. Qed.

End SelectionAndManualParts.
